(** * SyLC: stereo-3D classifier and on-demand thumbnail preview

    A shallow embedding of the algorithmic core of [SyLC.py]:

    - [_classify_stereo_mode], [_promote_stereo_mode] and
      [Video3DAnalyzer.analyze_file] (the stereo-3D classifier);
    - [_extract_thumbnail_ffmpeg] (the frame extraction worker);
    - the hover/debounce/cache logic of [TimeSlider].

    Python values produced by [json.loads] are modelled by the type [json];
    the result dictionary of [analyze_file] is a [gmap string json]; Python
    exceptions are explicit ([exn]); everything the program obtains from the
    operating system (tool lookup, process execution, the JSON parser, path
    functions, image loading) is a field of the record [World].  Calls to
    [print] have no influence on any returned value and are left out.

    Numbers: a Python [int] is a [Z]; a finite [float] is the rational
    number it denotes ([Q]), so that the arithmetic of the slider is exact.
    Time: the debounce timer holds the milliseconds that are left, and an
    event [Elapse ms] lets [ms] milliseconds pass.  What a method of the
    slider does to the widgets, the worker pool and the file system is the
    list of [effect]s that it returns. *)

From Stdlib Require Import ZArith QArith Qround Qabs Ascii String List Bool Lia.
From stdpp Require Import gmap strings list fin_maps pretty.

Local Open Scope string_scope.
Local Open Scope Z_scope.

(** ** Python strings

    A [string] is read as a sequence of code points below 256. *)

Module PyStr.

(** [str.isspace] on code points below 256. *)
Definition is_space (c : ascii) : bool :=
  let n := N_of_ascii c in
  ((9 <=? n) && (n <=? 13) || (28 <=? n) && (n <=? 32)
   || (n =? 133) || (n =? 160))%N.

(** [str.lower] on one code point below 256. *)
Definition lower_char (c : ascii) : ascii :=
  let n := N_of_ascii c in
  if ((65 <=? n) && (n <=? 90)
      || (192 <=? n) && (n <=? 222) && negb (n =? 215))%N
  then ascii_of_N (n + 32) else c.

Fixpoint lower (s : string) : string :=
  match s with
  | EmptyString => EmptyString
  | String c s' => String (lower_char c) (lower s')
  end.

Fixpoint lstrip (s : string) : string :=
  match s with
  | EmptyString => EmptyString
  | String c s' => if is_space c then lstrip s' else s
  end.

Definition reverse (s : string) : string :=
  string_of_list_ascii (List.rev (list_ascii_of_string s)).

(** [s.strip()] *)
Definition strip (s : string) : string :=
  reverse (lstrip (reverse (lstrip s))).

(** [s.replace(a, b)] for one-character [a] and [b]. *)
Fixpoint replace (a b : ascii) (s : string) : string :=
  match s with
  | EmptyString => EmptyString
  | String c s' =>
      String (if Ascii.eqb c a then b else c) (replace a b s')
  end.

(** [s.startswith(p)] *)
Definition startswith (s p : string) : bool := String.prefix p s.

(** [s.endswith(p)] *)
Definition endswith (s p : string) : bool :=
  String.prefix (reverse p) (reverse s).

(** [kw in s] *)
Fixpoint contains (kw s : string) : bool :=
  String.prefix kw s
  || match s with
     | EmptyString => false
     | String _ s' => contains kw s'
     end.

(** [any(kw in s for kw in kws)] *)
Definition contains_any (kws : list string) (s : string) : bool :=
  existsb (fun kw => contains kw s) kws.

(** [s in (a, b, ...)] *)
Definition one_of (s : string) (l : list string) : bool :=
  existsb (String.eqb s) l.

(** [', '.join(l)] and friends *)
Fixpoint join (sep : string) (l : list string) : string :=
  match l with
  | [] => ""
  | [x] => x
  | x :: l' => (x ++ sep ++ join sep l')%string
  end.

End PyStr.

(** ** Values, exceptions *)

(** What [json.loads] returns.  A Python [float] is either finite, and then
    a rational number, or one of [nan], [inf], [-inf].  A [dict] keeps its
    items in insertion order. *)
#[warnings="-register-all"]
Inductive json : Type :=
| JNull
| JBool (b : bool)
| JInt (n : Z)
| JFloat (q : Q)
| JFloatSpecial
| JStr (s : string)
| JArr (l : list json)
| JObj (kvs : list (string * json)).

Inductive exn : Type :=
| FileNotFoundError (msg : string)
| JSONDecodeError (msg : string)
| CalledProcessError (returncode : Z) (stdout stderr : string) (msg : string)
| TimeoutExpired
| AttributeError
| TypeError
| KeyError (key : string)
| OtherException (name : string).

(** A computation that returns or raises. *)
Definition res (A : Type) : Type := exn + A.

Definition res_bind {A B} (x : res A) (f : A -> res B) : res B :=
  match x with
  | inl e => inl e
  | inr a => f a
  end.

Module Py.

(** [bool(v)] *)
Definition truthy (v : json) : bool :=
  match v with
  | JNull => false
  | JBool b => b
  | JInt n => negb (n =? 0)
  | JFloat q => negb (Qeq_bool q (0 # 1))
  | JFloatSpecial => true
  | JStr s => negb (String.eqb s "")
  | JArr l => match l with [] => false | _ => true end
  | JObj kvs => match kvs with [] => false | _ => true end
  end.

(** [a or b] *)
Definition or (a b : json) : json := if truthy a then a else b.

(** [v == s] for a string literal [s] *)
Definition eq_str (v : json) (s : string) : bool :=
  match v with
  | JStr t => String.eqb t s
  | _ => false
  end.

(** [v == n] for an integer literal [n] *)
Definition eq_int (v : json) (n : Z) : bool :=
  match v with
  | JInt m => m =? n
  | JBool b => Z.b2z b =? n
  | JFloat q => Qeq_bool q (inject_Z n)
  | _ => false
  end.

(** first value stored under [k] *)
Fixpoint assoc (k : string) (kvs : list (string * json)) : option json :=
  match kvs with
  | [] => None
  | (k', v) :: kvs' => if String.eqb k' k then Some v else assoc k kvs'
  end.

(** [o.get(k, d)]: only a [dict] has the method. *)
Definition get (o : json) (k : string) (d : json) : res json :=
  match o with
  | JObj kvs => inr (default d (assoc k kvs))
  | _ => inl AttributeError
  end.

(** [isinstance(v, dict)] *)
Definition is_dict (v : json) : bool :=
  match v with
  | JObj _ => true
  | _ => false
  end.

Fixpoint chars (s : string) : list json :=
  match s with
  | EmptyString => []
  | String c s' => JStr (String c EmptyString) :: chars s'
  end.

(** The items a [for] loop over [v] visits. *)
Definition iter (v : json) : res (list json) :=
  match v with
  | JArr l => inr l
  | JObj kvs => inr (map (fun kv => JStr (fst kv)) kvs)
  | JStr s => inr (chars s)
  | _ => inl TypeError
  end.

(** [o.items()] *)
Definition items (o : json) : res (list (string * json)) :=
  match o with
  | JObj kvs => inr kvs
  | _ => inl AttributeError
  end.

(** [v.lower()] *)
Definition lower (v : json) : res string :=
  match v with
  | JStr s => inr (PyStr.lower s)
  | _ => inl AttributeError
  end.

End Py.

(** ** The result dictionary and the statements that update it *)

(** A statement block working on the dictionary [result]: it returns or
    raises, and in both cases leaves the dictionary as updated so far. *)
Definition M (A : Type) : Type :=
  gmap string json -> res A * gmap string json.

Definition ret {A} (a : A) : M A := fun r => (inr a, r).

Definition bind {A B} (m : M A) (f : A -> M B) : M B :=
  fun r =>
    match m r with
    | (inl e, r') => (inl e, r')
    | (inr a, r') => f a r'
    end.

Definition raise {A} (e : exn) : M A := fun r => (inl e, r).

Definition lift {A} (x : res A) : M A := fun r => (x, r).

(** [result[k] = v] *)
Definition setitem (k : string) (v : json) : M unit :=
  fun r => (inr tt, <[k := v]> r).

(** [result[k]] *)
Definition getitem (k : string) : M json :=
  fun r =>
    match r !! k with
    | Some v => (inr v, r)
    | None => (inl (KeyError k), r)
    end.

(** [result.get(k, d)] *)
Definition getdefault (k : string) (d : json) : M json :=
  fun r => (inr (default d (r !! k)), r).

Notation "'let*' x ':=' m 'in' k" := (bind m (fun x => k))
  (at level 10, x name, m at level 100, k at level 200).
Notation "m ';;;' k" := (bind m (fun _ => k))
  (at level 100, k at level 200, right associativity).

(** [for x in l: body(x)] *)
Fixpoint for_each {A} (body : A -> M unit) (l : list A) : M unit :=
  match l with
  | [] => ret tt
  | x :: l' => body x ;;; for_each body l'
  end.

(** [if c: body] *)
Definition when (c : bool) (body : M unit) : M unit :=
  if c then body else ret tt.

(** ** Classification and promotion *)

Definition _STEREO_PRIORITY : gmap string Z :=
  list_to_map
    [("none", 0); ("tab", 1); ("sbs", 2); ("mvc", 3); ("anaglyph", 1)].

(** [_STEREO_PRIORITY.get(v, 0)]: a list or a dict is not hashable. *)
Definition priority_get (v : json) : res Z :=
  match v with
  | JStr s => inr (default 0 (_STEREO_PRIORITY !! s))
  | JArr _ | JObj _ => inl TypeError
  | _ => inr 0
  end.

Definition anaglyph_keywords : list string :=
  ["anaglyph"; "cyan"; "magenta"; "red_cyan"; "cyan_red"].

Definition mvc_keywords : list string :=
  ["frame_altern"; "framealternate"; "frame_packing"; "frame_sequential";
   "frame_packed"; "view_packed"; "mvc"; "framepacking"; "frameinterleaved";
   "block_lr"; "block_rl"; "packed"].

Definition tab_keywords : list string :=
  ["top_bottom"; "bottom_top"; "tab"; "over_under"; "under_over";
   "block_tb"; "block_bt"; "topbottom"; "bt"; "tb"].

Definition sbs_keywords : list string :=
  ["side_by_side"; "sbs"; "left_right"; "right_left";
   "row_interleaved"; "column_interleaved"].

(** The body of [_classify_stereo_mode] once [mode_str] is known to be a
    non-empty string. *)
Definition classify_string (mode_str : string) : option string :=
  let mode := PyStr.lower (PyStr.strip mode_str) in
  let mode := PyStr.replace " " "_" (PyStr.replace "-" "_" mode) in
  if PyStr.one_of mode ["mono"; "left"; "right"; "both"; "2d"] then None
  else if PyStr.contains_any anaglyph_keywords mode then Some "anaglyph"
  else if PyStr.contains_any mvc_keywords mode then Some "mvc"
  else if PyStr.contains_any tab_keywords mode then Some "tab"
  else if PyStr.contains_any sbs_keywords mode then Some "sbs"
  else None.

Definition _classify_stereo_mode (mode_str : json) : res (option string) :=
  if negb (Py.truthy mode_str) then inr None
  else
    match mode_str with
    | JStr s => inr (classify_string s)
    | _ => inl AttributeError
    end.

Definition _promote_stereo_mode (mode : string) (mark_mvc : bool) : M unit :=
  if String.eqb mode "" then ret tt
  else
    let* priority := lift (priority_get (JStr mode)) in
    let* current := getdefault "stereo_mode" (JStr "none") in
    let* current_priority := lift (priority_get current) in
    when (current_priority <=? priority) (setitem "stereo_mode" (JStr mode)) ;;;
    setitem "is_3d" (JBool true) ;;;
    when (mark_mvc || String.eqb mode "mvc")
         (setitem "has_mvc_track" (JBool true)).

(** ** The environment of the program *)

(** What [subprocess.run] does for the probing tool: the process runs to
    its end, or the call itself raises. *)
Inductive run_outcome : Type :=
| RunExited (returncode : Z) (stdout stderr : string)
| RunRaised (e : exn).

(** An argument of the frame-extraction command line; [ArgStr t] stands
    for [str(t)] of the number [t]. *)
Inductive arg : Type :=
| Arg (s : string)
| ArgStr (t : Q).

(** A [QPixmap]: null, or an image. *)
Inductive QPixmap : Type :=
| NullPixmap
| Pixmap (image : string).

Definition isNull (p : QPixmap) : bool :=
  match p with
  | NullPixmap => true
  | Pixmap _ => false
  end.

Record World : Type := {
  win32 : bool;                          (* sys.platform == 'win32' *)
  base_dir : string;                     (* dirname(abspath(__file__)) *)
  which : string -> option string;       (* shutil.which *)
  path_exists : string -> bool;          (* os.path.exists *)
  path_abspath : string -> string;       (* os.path.abspath *)
  path_join : string -> string -> string;(* os.path.join *)
  path_dirname : string -> string;       (* os.path.dirname *)
  path_basename : string -> string;      (* os.path.basename *)
  glob_any : string -> bool;             (* bool(glob.glob(pattern)) *)
  run_probe : list string -> run_outcome;
  called_process_error_str : list string -> Z -> string;
                                         (* str(CalledProcessError) *)
  json_loads : string -> res json;       (* json.loads *)
  gettempdir : res string;               (* tempfile.gettempdir() *)
  time_micros : res Z;                   (* int(time.time()*1000000) *)
  run_extract : list arg -> res Z;       (* returncode of subprocess.run,
                                            with timeout=2.0 *)
  exists_after_run : string -> bool;     (* os.path.exists, once the
                                            extraction process has ended *)
  load_pixmap : string -> QPixmap        (* QPixmap(path) *)
}.

Section Program.

Variable W : World.

Definition option_truthy (o : option string) : bool :=
  match o with
  | Some s => negb (String.eqb s "")
  | None => false
  end.

Fixpoint resolve_candidates (candidates : list string) : option string :=
  match candidates with
  | [] => None
  | candidate :: rest =>
      let resolved := which W candidate in
      if option_truthy resolved
      then option_map (path_abspath W) resolved
      else
        let local_candidate := path_join W (base_dir W) candidate in
        if path_exists W local_candidate
        then Some (path_abspath W local_candidate)
        else resolve_candidates rest
  end.

Definition _resolve_external_tool (executable_name : string)
  : option string :=
  let candidates :=
    ((if win32 W
         && negb (PyStr.endswith (PyStr.lower executable_name) ".exe")
      then [(executable_name ++ ".exe")%string] else [])
     ++ [executable_name])%list in
  resolve_candidates candidates.

Definition _describe_windows_returncode (returncode : Z) : option string :=
  if (returncode =? 3221225781) || (returncode =? -1073741515) then
    Some ("Failed to start the executable (code 0xC0000135). "
          ++ "This usually indicates that DLLs for ffmpeg/ffprobe are missing. "
          ++ "Download a static build of ffmpeg from https://www.gyan.dev/ffmpeg/builds/ "
          ++ "and place ffmpeg.exe/ffprobe.exe and their DLLs in the application's folder, "
          ++ "or add the ffmpeg /bin folder to your PATH.")%string
  else if (returncode =? 3221225501) || (returncode =? -1073741795) then
    Some ("The system prevented ffmpeg/ffprobe from running (code 0xC0000025). "
          ++ "Check your antivirus or try running the application with sufficient privileges.")%string
  else None.

Definition _check_ffmpeg_runtime (executable_path : option string)
  : option string :=
  if negb (win32 W) || negb (option_truthy executable_path) then None
  else
    let folder := path_dirname W (default "" executable_path) in
    let required_bases := ["avcodec"; "avformat"; "avutil"] in
    let missing :=
      List.filter
        (fun base =>
           negb (glob_any W (path_join W folder (base ++ "-*.dll")%string)))
        required_bases in
    match missing with
    | [] => None
    | _ =>
        Some ("ffmpeg/ffprobe found but the following DLLs are missing in the same folder: "
              ++ PyStr.join ", " missing
              ++ ". Copy all DLLs provided with ffmpeg (from the /bin directory of the archive) "
              ++ "next to the executables, or install a full static build.")%string
    end.

(** *** [Video3DAnalyzer.analyze_file] *)

Definition initial_result : gmap string json :=
  list_to_map
    [("is_3d", JBool false); ("stereo_mode", JStr "none");
     ("has_mvc_track", JBool false); ("width", JInt 0);
     ("height", JInt 0); ("analysis_error", JNull)].

(** [(width == 1920 and height in [2205, 2160])
     or (width == 3840 and height == 4320)] *)
Definition is_framepacked (width height : json) : bool :=
  Py.eq_int width 1920
  && (Py.eq_int height 2205 || Py.eq_int height 2160)
  || Py.eq_int width 3840 && Py.eq_int height 4320.

(** The mode string of a side-data entry. *)
Definition detected_mode (side_data : json) : res json :=
  res_bind (Py.get side_data "stereo_mode" JNull) (fun a =>
  res_bind (Py.get side_data "type" JNull) (fun b =>
  res_bind (Py.get side_data "layout" JNull) (fun c =>
  res_bind (Py.get side_data "view" JNull) (fun d =>
  inr (Py.or a (Py.or b (Py.or c (Py.or d (JStr ""))))))))).

(** The body of the loop over [side_data_list]. *)
Definition inspect_side_data (side_data : json) : M unit :=
  let* t := lift (Py.get side_data "type" JNull) in
  let* t' := lift (Py.get side_data "side_data_type" JNull) in
  let* side_type := lift (Py.lower (Py.or t (Py.or t' (JStr "")))) in
  when (PyStr.contains "stereo3d" side_type
        || PyStr.contains "stereo_3d" side_type)
    (let* detected := lift (detected_mode side_data) in
     let* classified := lift (_classify_stereo_mode detected) in
     match classified with
     | Some c =>
         if String.eqb c "mvc" then _promote_stereo_mode "mvc" true
         else _promote_stereo_mode c false
     | None => ret tt
     end).

(** The body of the loop over [tags.items()]. *)
Definition inspect_tag (kv : string * json) : M unit :=
  let (key, value) := kv in
  when (PyStr.startswith (PyStr.lower key) "stereo")
    (let* classified := lift (_classify_stereo_mode value) in
     match classified with
     | Some c => _promote_stereo_mode c false
     | None => ret tt
     end).

(** What is inspected in a video stream once its frame size has been
    tested: codec and profile, disposition, and, unless the size is
    frame-packed, side data and tags. *)
Definition inspect_video_stream (stream : json) (framepacked : bool)
  : M unit :=
  let* cn := lift (Py.get stream "codec_name" JNull) in
  let* codec_name := lift (Py.lower (Py.or cn (JStr ""))) in
  let* pf := lift (Py.get stream "profile" JNull) in
  let* profile := lift (Py.lower (Py.or pf (JStr ""))) in
  when (PyStr.one_of codec_name ["mvc"; "h264"]
        && (PyStr.contains "stereo" profile
            || PyStr.contains "mvc" profile))
    (_promote_stereo_mode "mvc" true) ;;;
  let* d := lift (Py.get stream "disposition" JNull) in
  let disposition := Py.or d (JObj []) in
  let* dependent :=
    (if Py.is_dict disposition
     then lift (Py.get disposition "dependent" JNull)
     else ret (JBool false)) in
  when (Py.is_dict disposition && Py.truthy dependent)
    (_promote_stereo_mode "mvc" true) ;;;
  when (negb framepacked)
    (let* sdl := lift (Py.get stream "side_data_list" (JArr [])) in
     let* entries := lift (Py.iter sdl) in
     for_each inspect_side_data entries ;;;
     let* t := lift (Py.get stream "tags" JNull) in
     let tags := Py.or t (JObj []) in
     let* kvs := lift (Py.items tags) in
     for_each inspect_tag kvs).

(** The body of the first loop over the streams. *)
Definition inspect_stream (stream : json) : M unit :=
  let* codec_type := lift (Py.get stream "codec_type" JNull) in
  when (Py.eq_str codec_type "video")
    (let* w := lift (Py.get stream "width" (JInt 0)) in
     setitem "width" w ;;;
     let* h := lift (Py.get stream "height" (JInt 0)) in
     setitem "height" h ;;;
     let* width := getitem "width" in
     let* height := getitem "height" in
     let framepacked := is_framepacked width height in
     when framepacked
       (setitem "is_3d" (JBool true) ;;;
        setitem "has_mvc_track" (JBool true) ;;;
        setitem "stereo_mode" (JStr "mvc")) ;;;
     inspect_video_stream stream framepacked).

(** The second loop over the streams, which stops at the first stream
    whose codec is [mvc]. *)
Fixpoint find_mvc_stream (streams : list json) : M unit :=
  match streams with
  | [] => ret tt
  | stream :: rest =>
      let* cn := lift (Py.get stream "codec_name" JNull) in
      if Py.eq_str cn "mvc"
      then setitem "is_3d" (JBool true) ;;;
           setitem "has_mvc_track" (JBool true) ;;;
           setitem "stereo_mode" (JStr "mvc")
      else find_mvc_stream rest
  end.

(** The statements of the [try] block after [json.loads]. *)
Definition inspect_streams (data : json) : M unit :=
  let* ss := lift (Py.get data "streams" (JArr [])) in
  let* streams := lift (Py.iter ss) in
  for_each inspect_stream streams ;;;
  let* has_mvc := getitem "has_mvc_track" in
  when (negb (Py.truthy has_mvc))
    (let* ss' := lift (Py.get data "streams" (JArr [])) in
     let* streams' := lift (Py.iter ss') in
     find_mvc_stream streams').

Definition ffprobe_not_found : string :=
  ("ffprobe not found. Add ffprobe to the PATH or place ffprobe.exe "
   ++ "in the same folder as SyLC_3D_GUI.py.")%string.

Definition probe_cmd (ffprobe_path file_path : string) : list string :=
  [ffprobe_path; "-v"; "error"; "-print_format"; "json";
   "-show_streams"; "-show_format"; file_path].

(** [subprocess.run(cmd, capture_output=True, text=True, check=True)] *)
Definition run_checked (cmd : list string) : res string :=
  match run_probe W cmd with
  | RunRaised e => inl e
  | RunExited returncode stdout stderr =>
      if returncode =? 0 then inr stdout
      else inl (CalledProcessError returncode stdout stderr
                  (called_process_error_str W cmd returncode))
  end.

(** The [try] block. *)
Definition try_block (file_path : string) : M unit :=
  let ffprobe_path := _resolve_external_tool "ffprobe" in
  if negb (option_truthy ffprobe_path)
  then raise (FileNotFoundError ffprobe_not_found)
  else
    match _check_ffmpeg_runtime ffprobe_path with
    | Some runtime_issue =>
        setitem "analysis_error" (JStr runtime_issue) ;;;
        raise (FileNotFoundError runtime_issue)
    | None =>
        let cmd := probe_cmd (default "" ffprobe_path) file_path in
        let* stdout := lift (run_checked cmd) in
        let* data :=
          lift (json_loads W (if String.eqb stdout "" then "{}"
                              else stdout)) in
        inspect_streams data
    end.

(** The filename heuristic shared by both [except] blocks. *)
Definition guess_from_name (file_path : string) : M unit :=
  let filename := PyStr.lower (path_basename W file_path) in
  if PyStr.contains "3d" filename || PyStr.contains "sbs" filename
     || PyStr.contains "hsbs" filename
  then setitem "is_3d" (JBool true) ;;;
       setitem "stereo_mode" (JStr "sbs")
  else if PyStr.contains "3d" filename
          && (PyStr.contains "tab" filename
              || PyStr.contains "htab" filename)
  then setitem "is_3d" (JBool true) ;;;
       setitem "stereo_mode" (JStr "tab")
  else ret tt.

(** [except subprocess.CalledProcessError as e] *)
Definition on_called_process_error
    (returncode : Z) (stdout stderr msg : string) (file_path : string)
  : M unit :=
  let error_output :=
    PyStr.strip (if negb (String.eqb stderr "") then stderr
                 else if negb (String.eqb stdout "") then stdout
                 else "") in
  let message :=
    if negb (String.eqb error_output "") then error_output else msg in
  match _describe_windows_returncode returncode with
  | Some hint => setitem "analysis_error" (JStr hint)
  | None => setitem "analysis_error" (JStr message)
  end ;;;
  guess_from_name file_path.

(** [except (json.JSONDecodeError, FileNotFoundError) as e] *)
Definition on_decode_or_not_found (msg : string) (file_path : string)
  : M unit :=
  setitem "analysis_error" (JStr msg) ;;;
  guess_from_name file_path.

End Program.

Module Video3DAnalyzer.

(** [analyze_file(file_path)]: the returned dictionary, or the exception
    that leaves the function. *)
Definition analyze_file (W : World) (file_path : string)
  : res (gmap string json) :=
  let finish (h : M unit) (r : gmap string json) :=
    match h r with
    | (inr _, r') => inr r'
    | (inl e, _) => inl e
    end in
  match try_block W file_path initial_result with
  | (inr _, r) => inr r
  | (inl (CalledProcessError rc out err msg), r) =>
      finish (on_called_process_error W rc out err msg file_path) r
  | (inl (JSONDecodeError msg), r) =>
      finish (on_decode_or_not_found W msg file_path) r
  | (inl (FileNotFoundError msg), r) =>
      finish (on_decode_or_not_found W msg file_path) r
  | (inl e, _) => inl e
  end.

End Video3DAnalyzer.


(** ** The frame extraction worker *)

Section Extraction.

Variable W : World.

Definition extract_cmd (ffmpeg_path video_file : string) (time_pos : Q)
    (temp_file : string) : list arg :=
  [Arg ffmpeg_path; Arg "-ss"; ArgStr time_pos; Arg "-i"; Arg video_file;
   Arg "-frames:v"; Arg "1"; Arg "-vf"; Arg "scale=120:-1";
   Arg "-q:v"; Arg "8"; Arg "-y"; Arg temp_file].

Definition temp_file_name (tmp : string) (micros : Z) : string :=
  path_join W tmp ("preview_" ++ pretty micros ++ ".jpg")%string.

(** The [try] block of [_extract_thumbnail_ffmpeg]. *)
Definition extract_block (video_file : string) (time_pos : Q)
  : res (option string) :=
  let ffmpeg_path := _resolve_external_tool W "ffmpeg" in
  if negb (option_truthy ffmpeg_path) then inr None
  else
    res_bind (gettempdir W) (fun tmp =>
    res_bind (time_micros W) (fun micros =>
    let temp_file := temp_file_name tmp micros in
    let cmd :=
      extract_cmd (default "" ffmpeg_path) video_file time_pos temp_file in
    res_bind (run_extract W cmd) (fun returncode =>
    if (returncode =? 0) && exists_after_run W temp_file
    then inr (Some temp_file)
    else inr None))).

(** The whole function: the bare [except] turns every exception into
    [None]. *)
Definition _extract_thumbnail_ffmpeg (video_file : string) (time_pos : Q)
  : res (option string) :=
  match extract_block video_file time_pos with
  | inr x => inr x
  | inl _ => inr None
  end.

End Extraction.

(** ** The time slider: hover, debounce, preview cache *)

(** [int(x)] *)
Definition py_int (x : Q) : Z := Z.quot (Qnum x) (Zpos (Qden x)).

(** [round(x)]: to the nearest integer, a tie to the even one. *)
Definition py_round (x : Q) : Z :=
  let f := Qfloor x in
  match Qcompare (x - inject_Z f) (1 # 2) with
  | Lt => f
  | Gt => f + 1
  | Eq => if Z.even f then f else f + 1
  end.

Definition Qltb (a b : Q) : bool := negb (Qle_bool b a).

Record ExtractionJob : Type := {
  job_video_file : option string;
  job_time_pos : Q;
  job_mouse_x : Q
}.

(** What a method does to the outside, in order. *)
Inductive effect : Type :=
| SetToolTip (text : string)
| SetPixmap (pixmap : QPixmap)
| ShowPreviewAt (mouse_x : Q)
| HidePreview
| Update
| Submit (job : ExtractionJob)
| RemoveFile (path : string).

Record TimeSlider : Type := {
  maximum : Z;
  _hover_time : Z;
  _is_hovering : bool;
  _last_preview_time : Z;
  _preview_cache : list (Z * QPixmap);   (* a dict, in insertion order *)
  _video_file : option string;
  _extraction_timer : option Z;          (* milliseconds left, if active *)
  _pending_time : Q;
  _pending_mouse_x : Q
}.

(** [__init__], for a slider whose range ends at [max]. *)
Definition init (max : Z) : TimeSlider :=
  {| maximum := max; _hover_time := 0; _is_hovering := false;
     _last_preview_time := -99; _preview_cache := [];
     _video_file := None; _extraction_timer := None;
     _pending_time := 0; _pending_mouse_x := 0 |}.

Module Dict.

(** [k in d] *)
Definition mem {V} (k : Z) (d : list (Z * V)) : bool :=
  existsb (fun kv => fst kv =? k) d.

(** [d[k]], for a key that is present *)
Fixpoint get {V} (k : Z) (d : list (Z * V)) : option V :=
  match d with
  | [] => None
  | (k', v) :: d' => if k' =? k then Some v else get k d'
  end.

(** [d[k] = v]: a key that is present keeps its place, a new key goes
    last. *)
Fixpoint set {V} (k : Z) (v : V) (d : list (Z * V)) : list (Z * V) :=
  match d with
  | [] => [(k, v)]
  | (k', v') :: d' =>
      if k' =? k then (k', v) :: d' else (k', v') :: set k v d'
  end.

(** [del d[k]] *)
Fixpoint del {V} (k : Z) (d : list (Z * V)) : list (Z * V) :=
  match d with
  | [] => []
  | (k', v') :: d' => if k' =? k then d' else (k', v') :: del k d'
  end.

(** [next(iter(d))] *)
Definition first_key {V} (d : list (Z * V)) : option Z :=
  match d with
  | [] => None
  | (k, _) :: _ => Some k
  end.

End Dict.

(** The caching statements of [_on_extraction_done]. *)
Definition cache_put (cache_key : Z) (pixmap : QPixmap)
    (cache : list (Z * QPixmap)) : list (Z * QPixmap) :=
  let cache' :=
    if 100 <? Z.of_nat (length cache) then
      match Dict.first_key cache with
      | Some oldest => Dict.del oldest cache
      | None => cache
      end
    else cache in
  Dict.set cache_key pixmap cache'.

Section Preview.

Variable W : World.

Definition set_hover (s : TimeSlider) (t : Z) : TimeSlider :=
  {| maximum := maximum s; _hover_time := t; _is_hovering := true;
     _last_preview_time := _last_preview_time s;
     _preview_cache := _preview_cache s; _video_file := _video_file s;
     _extraction_timer := _extraction_timer s;
     _pending_time := _pending_time s;
     _pending_mouse_x := _pending_mouse_x s |}.

Definition set_hovering (s : TimeSlider) (b : bool) : TimeSlider :=
  {| maximum := maximum s; _hover_time := _hover_time s;
     _is_hovering := b;
     _last_preview_time := _last_preview_time s;
     _preview_cache := _preview_cache s; _video_file := _video_file s;
     _extraction_timer := _extraction_timer s;
     _pending_time := _pending_time s;
     _pending_mouse_x := _pending_mouse_x s |}.

Definition set_last_preview_time (s : TimeSlider) (t : Z) : TimeSlider :=
  {| maximum := maximum s; _hover_time := _hover_time s;
     _is_hovering := _is_hovering s; _last_preview_time := t;
     _preview_cache := _preview_cache s; _video_file := _video_file s;
     _extraction_timer := _extraction_timer s;
     _pending_time := _pending_time s;
     _pending_mouse_x := _pending_mouse_x s |}.

Definition set_cache (s : TimeSlider) (c : list (Z * QPixmap))
  : TimeSlider :=
  {| maximum := maximum s; _hover_time := _hover_time s;
     _is_hovering := _is_hovering s;
     _last_preview_time := _last_preview_time s;
     _preview_cache := c; _video_file := _video_file s;
     _extraction_timer := _extraction_timer s;
     _pending_time := _pending_time s;
     _pending_mouse_x := _pending_mouse_x s |}.

Definition set_timer (s : TimeSlider) (t : option Z) : TimeSlider :=
  {| maximum := maximum s; _hover_time := _hover_time s;
     _is_hovering := _is_hovering s;
     _last_preview_time := _last_preview_time s;
     _preview_cache := _preview_cache s; _video_file := _video_file s;
     _extraction_timer := t;
     _pending_time := _pending_time s;
     _pending_mouse_x := _pending_mouse_x s |}.

Definition set_pending (s : TimeSlider) (t x : Q) : TimeSlider :=
  {| maximum := maximum s; _hover_time := _hover_time s;
     _is_hovering := _is_hovering s;
     _last_preview_time := _last_preview_time s;
     _preview_cache := _preview_cache s; _video_file := _video_file s;
     _extraction_timer := _extraction_timer s;
     _pending_time := t; _pending_mouse_x := x |}.

(** [set_video_file(video_path, duration)] *)
Definition set_video_file (s : TimeSlider) (video_path : option string)
  : TimeSlider :=
  {| maximum := maximum s; _hover_time := _hover_time s;
     _is_hovering := _is_hovering s;
     _last_preview_time := _last_preview_time s;
     _preview_cache := []; _video_file := video_path;
     _extraction_timer := _extraction_timer s;
     _pending_time := _pending_time s;
     _pending_mouse_x := _pending_mouse_x s |}.

Definition _request_on_demand_preview (s : TimeSlider) (time_pos mouse_x : Q)
  : TimeSlider * list effect :=
  let cache_key := py_round time_pos in
  let miss :=
    (set_timer (set_pending s time_pos mouse_x) (Some 100), []) in
  if Dict.mem cache_key (_preview_cache s) then
    match Dict.get cache_key (_preview_cache s) with
    | Some pixmap =>
        if negb (isNull pixmap)
        then (s, [SetPixmap pixmap; ShowPreviewAt mouse_x])
        else miss
    | None => miss
    end
  else miss.

Definition pad2 (n : Z) : string :=
  if (0 <=? n) && (n <? 10) then ("0" ++ pretty n)%string else pretty n.

(** The tool tip [f"{h:02}:{m:02}:{s:02}"] *)
Definition time_str (hover_time : Z) : string :=
  let h := hover_time / 3600 in
  let s := hover_time mod 3600 in
  let m := s / 60 in
  let s := s mod 60 in
  (pad2 h ++ ":" ++ pad2 m ++ ":" ++ pad2 s)%string.

(** [mouseMoveEvent]: [x] is the value of
    [(pos / self.width()) * self.maximum()] for the position [pos] of the
    event. *)
Definition mouseMoveEvent (s : TimeSlider) (x pos : Q)
  : TimeSlider * list effect :=
  if 0 <? maximum s then
    let value := py_int x in
    let s := set_hover s (Z.max 0 (Z.min value (maximum s))) in
    let tip := [SetToolTip (time_str (_hover_time s))] in
    if option_truthy (_video_file s)
       && Qltb (1 # 2)
            (Qabs (inject_Z (_hover_time s - _last_preview_time s)))
    then
      let s := set_last_preview_time s (_hover_time s) in
      let (s, effects) :=
        _request_on_demand_preview s (inject_Z (_hover_time s)) pos in
      (s, (tip ++ effects ++ [Update])%list)
    else (s, (tip ++ [Update])%list)
  else (s, []).

Definition enterEvent (s : TimeSlider) : TimeSlider * list effect :=
  (set_hovering s true, [Update]).

Definition leaveEvent (s : TimeSlider) : TimeSlider * list effect :=
  (set_hovering s false, [SetToolTip ""; HidePreview; Update]).

(** [_do_extraction], run when the debounce timer fires. *)
Definition _do_extraction (s : TimeSlider) : TimeSlider * list effect :=
  (s, [Submit {| job_video_file := _video_file s;
                 job_time_pos := _pending_time s;
                 job_mouse_x := _pending_mouse_x s |}]).

Definition _on_extraction_done (s : TimeSlider) (time_pos : Q)
    (temp_file : string) : TimeSlider * list effect :=
  let cache_key := py_round time_pos in
  let pixmap := load_pixmap W temp_file in
  let (s, shown) :=
    if negb (isNull pixmap) then
      let s := set_cache s (cache_put cache_key pixmap (_preview_cache s)) in
      if _is_hovering s
         && Qltb (Qabs (time_pos - inject_Z (_hover_time s))) 3
      then (s, [SetPixmap pixmap; ShowPreviewAt (_pending_mouse_x s)])
      else (s, [])
    else (s, []) in
  (s, (shown ++ [RemoveFile temp_file])%list).

(** [_handle_extraction_result], with the value of [future.result()]. *)
Definition _handle_extraction_result (s : TimeSlider)
    (result : res (option string)) (time_pos : Q)
  : TimeSlider * list effect :=
  match result with
  | inr (Some temp_file) =>
      if negb (String.eqb temp_file "")
      then _on_extraction_done s time_pos temp_file
      else (s, [])
  | _ => (s, [])
  end.

(** What can happen to a slider. *)
Inductive event : Type :=
| MouseMove (x pos : Q)
| Enter
| Leave
| Elapse (ms : Z)
| JobDone (job : ExtractionJob) (result : res (option string)).

(** The timer is single-shot: it fires once the time left has elapsed,
    and is then inactive. *)
Definition elapse (s : TimeSlider) (ms : Z) : TimeSlider * list effect :=
  match _extraction_timer s with
  | Some remaining =>
      if remaining <=? ms then _do_extraction (set_timer s None)
      else (set_timer s (Some (remaining - ms)), [])
  | None => (s, [])
  end.

Definition step (s : TimeSlider) (e : event) : TimeSlider * list effect :=
  match e with
  | MouseMove x pos => mouseMoveEvent s x pos
  | Enter => enterEvent s
  | Leave => leaveEvent s
  | Elapse ms => elapse s ms
  | JobDone job result =>
      _handle_extraction_result s result (job_time_pos job)
  end.

Fixpoint run (s : TimeSlider) (events : list event)
  : TimeSlider * list effect :=
  match events with
  | [] => (s, [])
  | e :: rest =>
      let (s', effects) := step s e in
      let (s'', effects') := run s' rest in
      (s'', (effects ++ effects')%list)
  end.

(** The extraction jobs among some effects. *)
Definition jobs (effects : list effect) : list ExtractionJob :=
  flat_map (fun e => match e with Submit j => [j] | _ => [] end) effects.

End Preview.

(** ** Predicates used in the statements *)

(** [priority mode] is [_STEREO_PRIORITY.get(mode, 0)]. *)
Definition priority (mode : string) : Z :=
  default 0 (_STEREO_PRIORITY !! mode).

(** The exceptions that no [except] clause of
    [Video3DAnalyzer.analyze_file] catches. *)
Definition uncaught (e : exn) : Prop :=
  match e with
  | FileNotFoundError _ | JSONDecodeError _ | CalledProcessError _ _ _ _ =>
      False
  | _ => True
  end.

(** [sound P m]: the block [m] keeps [P] true of the dictionary, whether it
    returns or raises, and raises no exception that
    [Video3DAnalyzer.analyze_file] catches. *)
Definition sound (P : gmap string json -> Prop) {A} (m : M A) : Prop :=
  forall r, P r -> P (m r).2 /\ forall e, (m r).1 = inl e -> uncaught e.

(** [total P m Q]: from a dictionary with [P] the block [m] returns, with a
    value in [Q] and a dictionary with [P]. *)
Definition total (P : gmap string json -> Prop) {A} (m : M A)
    (Q : A -> Prop) : Prop :=
  forall r, P r -> exists a r', m r = (inr a, r') /\ Q a /\ P r'.

(** The postcondition that holds of every value. *)
Definition any_value {A} (_ : A) : Prop := True.

(** A property of the dictionary that every update made while the streams
    are inspected keeps. *)
Record stable (P : gmap string json -> Prop) : Prop := {
  stable_width : forall v r, P r -> P (<["width" := v]> r);
  stable_height : forall v r, P r -> P (<["height" := v]> r);
  stable_is_3d : forall r, P r -> P (<["is_3d" := JBool true]> r);
  stable_has_mvc :
    forall r, P r -> P (<["has_mvc_track" := JBool true]> r);
  stable_mvc : forall r, P r -> P (<["stereo_mode" := JStr "mvc"]> r);
  stable_promote :
    forall mode mark r, P r -> P (_promote_stereo_mode mode mark r).2
}.

(** The three entries that the resolution override sets. *)
Definition is_mvc_result (r : gmap string json) : Prop :=
  r !! "is_3d" = Some (JBool true)
  /\ r !! "stereo_mode" = Some (JStr "mvc")
  /\ r !! "has_mvc_track" = Some (JBool true).

Definition result_keys : gset string :=
  {[ "is_3d"; "stereo_mode"; "has_mvc_track"; "width"; "height";
     "analysis_error" ]}.

(** The dictionary has the six keys, and its mode is a string. *)
Definition well_typed (r : gmap string json) : Prop :=
  dom r = result_keys /\ exists mode, r !! "stereo_mode" = Some (JStr mode).

(** *** The probe's output *)

(** The frame sizes that mark a frame-packed video. *)
Definition framepacked_sizes : list (Z * Z) :=
  [(1920, 2205); (1920, 2160); (3840, 4320)].

(** [stream] is a video stream whose size is frame-packed. *)
Definition framepacked_video (stream : json) : Prop :=
  exists kvs w h,
    stream = JObj kvs
    /\ Py.assoc "codec_type" kvs = Some (JStr "video")
    /\ Py.assoc "width" kvs = Some (JInt w)
    /\ Py.assoc "height" kvs = Some (JInt h)
    /\ (w, h) ∈ framepacked_sizes.

(** [data] is an object whose [streams] are the list [streams]. *)
Definition has_streams (data : json) (streams : list json) : Prop :=
  exists kvs, data = JObj kvs /\ Py.assoc "streams" kvs = Some (JArr streams).

(** The probing tool is found, its runtime is complete, it exits with code
    0, and its output parses to [data]. *)
Definition probe_returns (W : World) (file_path : string) (data : json)
  : Prop :=
  exists path stdout stderr,
    _resolve_external_tool W "ffprobe" = Some path
    /\ path <> ""
    /\ _check_ffmpeg_runtime W (Some path) = None
    /\ run_probe W (probe_cmd path file_path) = RunExited 0 stdout stderr
    /\ json_loads W (if String.eqb stdout "" then "{}" else stdout)
       = inr data.

(** A text field: a string, or a value that counts as false. *)
Definition text_or_empty (v : json) : bool :=
  match v with
  | JStr _ => true
  | _ => negb (Py.truthy v)
  end.

Definition field (kvs : list (string * json)) (k : string) : json :=
  default JNull (Py.assoc k kvs).

Definition wf_side_data (side_data : json) : bool :=
  match side_data with
  | JObj kvs =>
      forallb (fun k => text_or_empty (field kvs k))
        ["type"; "side_data_type"; "stereo_mode"; "layout"; "view"]
  | _ => false
  end.

Definition wf_tags (tags : json) : bool :=
  match tags with
  | JObj kvs => forallb (fun kv => text_or_empty (snd kv)) kvs
  | _ => negb (Py.truthy tags)
  end.

Definition wf_stream (stream : json) : bool :=
  match stream with
  | JObj kvs =>
      text_or_empty (field kvs "codec_name")
      && text_or_empty (field kvs "profile")
      && match default (JArr []) (Py.assoc "side_data_list" kvs) with
         | JArr entries => forallb wf_side_data entries
         | _ => false
         end
      && wf_tags (field kvs "tags")
  | _ => false
  end.

(** The shape of the probe's output: an object whose [streams], if any,
    are a list of objects whose text fields are strings, whose side data
    are a list of objects and whose tags are an object. *)
Definition wf_probe (data : json) : bool :=
  match data with
  | JObj kvs =>
      match default (JArr []) (Py.assoc "streams" kvs) with
      | JArr streams => forallb wf_stream streams
      | _ => false
      end
  | _ => false
  end.

(** *** Failures of the probe *)

(** The exceptions that the two [except] clauses of
    [Video3DAnalyzer.analyze_file] catch. *)
Definition caught (e : exn) : Prop :=
  match e with
  | FileNotFoundError _ | JSONDecodeError _ | CalledProcessError _ _ _ _ =>
      True
  | _ => False
  end.

(** The [try] block of [Video3DAnalyzer.analyze_file] leaves through an
    [except] clause. *)
Definition probing_fails (W : World) (file_path : string) : Prop :=
  exists e r, try_block W file_path initial_result = (inl e, r) /\ caught e.

(** The diagnostic that the [except] clauses record for an exception. *)
Definition diagnostic_of (e : exn) : string :=
  match e with
  | CalledProcessError returncode stdout stderr msg =>
      match _describe_windows_returncode returncode with
      | Some hint => hint
      | None =>
          let error_output :=
            PyStr.strip (if negb (String.eqb stderr "") then stderr
                         else if negb (String.eqb stdout "") then stdout
                         else "") in
          if negb (String.eqb error_output "") then error_output else msg
      end
  | JSONDecodeError msg | FileNotFoundError msg => msg
  | _ => ""
  end.

(** The diagnostic of a tool that exits with a code other than 0: the hint
    for a known code, else what the tool printed, else the text of the
    exception. *)
Definition exit_diagnostic (W : World) (cmd : list string)
    (returncode : Z) (stdout stderr : string) : string :=
  diagnostic_of
    (CalledProcessError returncode stdout stderr
       (called_process_error_str W cmd returncode)).

(** The ways in which probing fails, each with the diagnostic that it
    leaves: the tool is not found; its runtime libraries are missing; it
    cannot be started; it exits with a code other than 0; its output is
    not JSON. *)
Inductive probe_failure (W : World) (file_path : string) : string -> Prop :=
| tool_missing :
    option_truthy (_resolve_external_tool W "ffprobe") = false ->
    probe_failure W file_path ffprobe_not_found
| runtime_missing path issue :
    _resolve_external_tool W "ffprobe" = Some path -> path <> "" ->
    _check_ffmpeg_runtime W (Some path) = Some issue ->
    probe_failure W file_path issue
| launch_failed path msg :
    _resolve_external_tool W "ffprobe" = Some path -> path <> "" ->
    _check_ffmpeg_runtime W (Some path) = None ->
    run_probe W (probe_cmd path file_path)
      = RunRaised (FileNotFoundError msg) ->
    probe_failure W file_path msg
| nonzero_exit path returncode stdout stderr :
    _resolve_external_tool W "ffprobe" = Some path -> path <> "" ->
    _check_ffmpeg_runtime W (Some path) = None ->
    run_probe W (probe_cmd path file_path)
      = RunExited returncode stdout stderr ->
    returncode <> 0 ->
    probe_failure W file_path
      (exit_diagnostic W (probe_cmd path file_path) returncode stdout stderr)
| malformed_output path stdout stderr msg :
    _resolve_external_tool W "ffprobe" = Some path -> path <> "" ->
    _check_ffmpeg_runtime W (Some path) = None ->
    run_probe W (probe_cmd path file_path) = RunExited 0 stdout stderr ->
    json_loads W (if String.eqb stdout "" then "{}" else stdout)
      = inl (JSONDecodeError msg) ->
    probe_failure W file_path msg.

(** The messages that the libraries give to their exceptions are not
    empty. *)
Definition library_messages_nonempty (W : World) : Prop :=
  (forall cmd returncode, called_process_error_str W cmd returncode <> "")
  /\ (forall cmd msg,
        run_probe W cmd = RunRaised (FileNotFoundError msg) -> msg <> "")
  /\ (forall s msg, json_loads W s = inl (JSONDecodeError msg) -> msg <> "").

(** *** Sample environments and inputs *)

(** A system on which the tools are installed in [/usr/bin]; the probing
    tool behaves as [probe] says, and its output parses to [parsed]. *)
Definition sample_world (probe : run_outcome) (parsed : res json) : World :=
  {| win32 := false;
     base_dir := "/opt/sylc";
     which := fun name => Some ("/usr/bin/" ++ name)%string;
     path_exists := fun _ => false;
     path_abspath := fun p => p;
     path_join := fun a b => (a ++ "/" ++ b)%string;
     path_dirname := fun _ => "/usr/bin";
     path_basename := fun p => p;
     glob_any := fun _ => true;
     run_probe := fun _ => probe;
     called_process_error_str :=
       fun _ _ => "Command returned non-zero exit status.";
     json_loads := fun _ => parsed;
     gettempdir := inr "/tmp";
     time_micros := inr 1700000000000000;
     run_extract := fun _ => inr 0;
     exists_after_run := fun _ => true;
     load_pixmap := fun p => Pixmap p |}.

(** The same system without the probing tool. *)
Definition world_without_tools : World :=
  {| win32 := false;
     base_dir := "/opt/sylc";
     which := fun _ => None;
     path_exists := fun _ => false;
     path_abspath := fun p => p;
     path_join := fun a b => (a ++ "/" ++ b)%string;
     path_dirname := fun _ => "/usr/bin";
     path_basename := fun p => p;
     glob_any := fun _ => true;
     run_probe := fun _ => RunRaised (FileNotFoundError "ffprobe");
     called_process_error_str :=
       fun _ _ => "Command returned non-zero exit status.";
     json_loads := fun _ => inl (JSONDecodeError "Expecting value");
     gettempdir := inr "/tmp";
     time_micros := inr 1700000000000000;
     run_extract := fun _ => inl (FileNotFoundError "ffmpeg");
     exists_after_run := fun _ => false;
     load_pixmap := fun _ => NullPixmap |}.

(** A system whose probing tool prints text that parses to [data]. *)
Definition world_with_output (data : json) : World :=
  sample_world (RunExited 0 "{...}" "") (inr data).

(** A video stream of size [w] x [h] with the tag
    [STEREO_MODE = top_bottom] and one side-data entry. *)
Definition tagged_stream (w h : Z) (side_data : json) : json :=
  JObj [("codec_type", JStr "video"); ("width", JInt w); ("height", JInt h);
        ("tags", JObj [("STEREO_MODE", JStr "top_bottom")]);
        ("side_data_list", JArr [side_data])].

Definition probe_of (streams : list json) : json :=
  JObj [("streams", JArr streams)].

(** [{type: 'Stereo3D', layout: 'side_by_side'}] *)
Definition stereo3d_entry : json :=
  JObj [("type", JStr "Stereo3D"); ("layout", JStr "side_by_side")].

(** [{side_data_type: 'Stereo3D', layout: 'side_by_side'}] *)
Definition stereo3d_entry_by_side_data_type : json :=
  JObj [("side_data_type", JStr "Stereo3D"); ("layout", JStr "side_by_side")].

(** A frame-packed stream whose tags and side data announce other modes,
    followed by a plain stream with a side-by-side tag. *)
Definition framepacked_probe : json :=
  probe_of
    [tagged_stream 1920 2205 stereo3d_entry_by_side_data_type;
     JObj [("codec_type", JStr "video"); ("width", JInt 1280);
           ("height", JInt 720);
           ("tags", JObj [("stereo_mode", JStr "side_by_side")])]].

(** The entry [k] of a returned dictionary. *)
Definition entry (k : string) (x : res (gmap string json)) : option json :=
  match x with
  | inr r => r !! k
  | inl _ => None
  end.

(** The first of [values] that counts as true, or [d]. *)
Fixpoint first_truthy (values : list json) (d : json) : json :=
  match values with
  | [] => d
  | v :: rest => if Py.truthy v then v else first_truthy rest d
  end.

(** *** Frame extraction and the slider *)

(** The extraction tool is found, runs to its end within the timeout with
    exit code 0, and has written [temp_file]. *)
Definition extraction_succeeds (W : World) (video_file : string)
    (time_pos : Q) (temp_file : string) : Prop :=
  exists ffmpeg_path tmp micros,
    _resolve_external_tool W "ffmpeg" = Some ffmpeg_path
    /\ ffmpeg_path <> ""
    /\ gettempdir W = inr tmp
    /\ time_micros W = inr micros
    /\ temp_file = temp_file_name W tmp micros
    /\ run_extract W (extract_cmd ffmpeg_path video_file time_pos temp_file)
       = inr 0
    /\ exists_after_run W temp_file = true.

(** A system on which the extraction tool behaves as [outcome] says and
    its output file exists or not as [written] says. *)
Definition extraction_world (outcome : res Z) (written : bool) : World :=
  {| win32 := false;
     base_dir := "/opt/sylc";
     which := fun name => Some ("/usr/bin/" ++ name)%string;
     path_exists := fun _ => false;
     path_abspath := fun p => p;
     path_join := fun a b => (a ++ "/" ++ b)%string;
     path_dirname := fun _ => "/usr/bin";
     path_basename := fun p => p;
     glob_any := fun _ => true;
     run_probe := fun _ => RunExited 0 "{}" "";
     called_process_error_str :=
       fun _ _ => "Command returned non-zero exit status.";
     json_loads := fun _ => inr (JObj []);
     gettempdir := inr "/tmp";
     time_micros := inr 1700000000000000;
     run_extract := fun _ => outcome;
     exists_after_run := fun _ => written;
     load_pixmap := fun p => Pixmap p |}.

(** The time under the cursor that [mouseMoveEvent] stores. *)
Definition hover_time_of (s : TimeSlider) (x : Q) : Z :=
  Z.max 0 (Z.min (py_int x) (maximum s)).

(** A slider of a 100 second video, just loaded. *)
Definition loaded_slider : TimeSlider :=
  set_video_file (init 100) (Some "movie.mkv").

(** Hover events at 10.0, 10.05 and 10.09 seconds, 50 and 40 milliseconds
    apart, and then the 100 milliseconds after which the timer has fired;
    the slider is 1000 pixels wide. *)
Definition close_hovers : list event :=
  [MouseMove (10 # 1) (100 # 1); Elapse 50;
   MouseMove (1005 # 100) (1005 # 10); Elapse 40;
   MouseMove (1009 # 100) (1009 # 10); Elapse 100].

(** Hover events at 10, 11 and 12 seconds, as close in time. *)
Definition distant_hovers : list event :=
  [MouseMove (10 # 1) (100 # 1); Elapse 50;
   MouseMove (11 # 1) (110 # 1); Elapse 40;
   MouseMove (12 # 1) (120 # 1); Elapse 100].

(** A burst of hover events, each followed by the time that passes before
    the next. *)
Definition burst (hovers : list (Q * Q * Z)) : list event :=
  flat_map (fun h => [MouseMove (fst (fst h)) (snd (fst h)); Elapse (snd h)])
    hovers.

(** The completion of an extraction for each of the whole seconds
    [times]. *)
Definition completions (times : list Z) : list event :=
  map (fun t =>
         JobDone {| job_video_file := Some "movie.mkv";
                    job_time_pos := inject_Z t;
                    job_mouse_x := 0 |}
           (inr (Some ("/tmp/preview_" ++ pretty t ++ ".jpg")%string)))
    times.

(** The whole seconds 0, 1, ..., n - 1. *)
Definition seconds (n : nat) : list Z := map Z.of_nat (seq 0 n).

(** Every hover of the burst lands on a whole second other than the one
    before it ([last] for the first), and less than 100 milliseconds pass
    after it. *)
Fixpoint dispatching (max last : Z) (hovers : list (Q * Q * Z)) : Prop :=
  match hovers with
  | [] => True
  | h :: rest =>
      let t := Z.max 0 (Z.min (py_int (fst (fst h))) max) in
      t <> last /\ snd h < 100 /\ dispatching max t rest
  end.

(** ** Further predicates and sample environments *)



(** The pattern that [_check_ffmpeg_runtime] globs for the library
    [base] next to [executable_path]. *)
Definition dll_pattern (W : World) (executable_path : string)
    (base : string) : string :=
  path_join W (path_dirname W executable_path) (base ++ "-*.dll")%string.


(** The libraries that [_check_ffmpeg_runtime] asks for. *)
Definition required_bases : list string := ["avcodec"; "avformat"; "avutil"].

(** [f] applied to each character of [s]. *)
Definition smap (f : ascii -> ascii) (s : string) : string :=
  string_of_list_ascii (map f (list_ascii_of_string s)).

(** The modes that [_classify_stereo_mode] can return. *)
Definition classified_modes : list string :=
  ["anaglyph"; "mvc"; "tab"; "sbs"].

(** *** The outcomes of the detection *)

(** The three entries that say what was detected agree with each other:
    nothing was detected; or the multi-view mode, with its track mark; or
    one of the three other modes, without the mark. *)
Definition consistent (r : gmap string json) : Prop :=
  (r !! "is_3d" = Some (JBool false)
   /\ r !! "has_mvc_track" = Some (JBool false)
   /\ r !! "stereo_mode" = Some (JStr "none"))
  \/ is_mvc_result r
  \/ (r !! "is_3d" = Some (JBool true)
      /\ r !! "has_mvc_track" = Some (JBool false)
      /\ exists mode,
           mode ∈ ["anaglyph"; "tab"; "sbs"]
           /\ r !! "stereo_mode" = Some (JStr mode)).

(** [data] is an object, and the value that the loops over its streams
    visit is the list [streams]. *)
Definition streams_of (data : json) (streams : list json) : Prop :=
  exists kvs,
    data = JObj kvs
    /\ default (JArr []) (Py.assoc "streams" kvs) = JArr streams.

(** [stream] is an object whose entry [key] is the string [value]. *)
Definition has_text (key value : string) (stream : json) : Prop :=
  exists kvs, stream = JObj kvs /\ Py.assoc key kvs = Some (JStr value).

(** [stream] is an object that is neither a video stream nor of the
    codec 'mvc'. *)
Definition plain_stream (stream : json) : Prop :=
  exists kvs,
    stream = JObj kvs
    /\ Py.assoc "codec_type" kvs <> Some (JStr "video")
    /\ Py.assoc "codec_name" kvs <> Some (JStr "mvc").

(** A file with an audio stream, a subtitle stream and a data stream. *)
Definition audio_only_probe : json :=
  probe_of
    [JObj [("codec_type", JStr "audio"); ("codec_name", JStr "aac")];
     JObj [("codec_type", JStr "subtitle"); ("codec_name", JStr "subrip")];
     JObj [("codec_type", JStr "data")]].

(** A file whose video stream says nothing of a second view, followed by
    a stream of the codec 'mvc'. *)
Definition dependent_view_probe : json :=
  probe_of
    [JObj [("codec_type", JStr "video"); ("codec_name", JStr "h264");
           ("width", JInt 1920); ("height", JInt 1080)];
     JObj [("codec_type", JStr "data"); ("codec_name", JStr "mvc")]].

(** A film of 1920 x 1080 with a sound track, followed by its cover art,
    which the probing tool lists as a video stream of 600 x 600, and by
    subtitles. *)
Definition cover_art_probe : json :=
  probe_of
    [JObj [("codec_type", JStr "video"); ("codec_name", JStr "h264");
           ("width", JInt 1920); ("height", JInt 1080)];
     JObj [("codec_type", JStr "audio"); ("codec_name", JStr "aac")];
     JObj [("codec_type", JStr "video"); ("codec_name", JStr "mjpeg");
           ("width", JInt 600); ("height", JInt 600)];
     JObj [("codec_type", JStr "subtitle")]].

(** *** The slider: a click, and what holds of every state *)

(** What [QSlider.value()] is after [setValue(v)], for a slider whose
    range is [minimum .. maximum]. *)
Definition bounded_value (minimum v maximum : Z) : Z :=
  Z.max minimum (Z.min v maximum).

(** [mousePressEvent]: the position that the signal [sliderMoved] carries,
    if the signal is emitted.  [left_button] says whether the button of the
    event is the left one, and [x] is the value of
    [(pos / self.width()) * self.maximum()] for the position [pos] of the
    event; the range of the slider starts at 0. *)
Definition mousePressEvent (s : TimeSlider) (left_button : bool) (x : Q)
  : option Z :=
  if left_button && (0 <? maximum s) then
    let value := py_int x in
    Some (bounded_value 0 (Z.max 0 (Z.min value (maximum s))) (maximum s))
  else None.

(** The keys of a cache, in the order of their insertion. *)
Definition keys {V} (d : list (Z * V)) : list Z := map fst d.


(** The job that the firing of the timer submits. *)
Definition pending_job (s : TimeSlider) : ExtractionJob :=
  {| job_video_file := _video_file s;
     job_time_pos := _pending_time s;
     job_mouse_x := _pending_mouse_x s |}.

(** A cache that holds the frames of the seconds 0 to 100. *)
Definition full_cache : list (Z * QPixmap) :=
  map (fun t => (t, Pixmap ("frame " ++ pretty t))) (seconds 101).

(** A slider that has been loaded, whose cache holds the frame of second
    20, and on which a request for second 10 is pending while the cursor
    is on it. *)
Definition hovering_slider : TimeSlider :=
  {| maximum := 100; _hover_time := 10; _is_hovering := true;
     _last_preview_time := 10;
     _preview_cache := [(20, Pixmap "frame 20")];
     _video_file := Some "movie.mkv"; _extraction_timer := Some 60;
     _pending_time := 10; _pending_mouse_x := 100 |}.

(** What the eviction of [cache_put] leaves of a cache: all but its first
    entry when it holds more than 100. *)
Definition after_eviction (cache : list (Z * QPixmap))
  : list (Z * QPixmap) :=
  if 100 <? Z.of_nat (length cache) then tl cache else cache.

(** ** The controls: time labels and audio tracks *)

(** [ControlsOverlay.format_time(seconds)], for [None] or a number. *)
Definition format_time (seconds : option Q) : string :=
  match seconds with
  | None => "00:00:00"
  | Some seconds =>
      let s := py_int seconds in
      let h := s / 3600 in
      let s := s mod 3600 in
      let m := s / 60 in
      let s := s mod 60 in
      (pad2 h ++ ":" ++ pad2 m ++ ":" ++ pad2 s)%string
  end.

(** An entry of mpv's [track_list]: a dictionary of which the program
    reads the keys [type], [id], [title] and [lang], each present or not;
    mpv gives a number for [id] and strings for the others. *)
Record Track : Type := {
  track_type : option string;
  track_id : option Z;
  track_title : option string;
  track_lang : option string
}.

(** [str(track_id)] *)
Definition str_of_id (track_id : option Z) : string :=
  match track_id with
  | Some n => pretty n
  | None => "None"
  end.

(** The tuple [(track_id, title, lang)] that [_fetch_audio_tracks] makes
    of an audio track. *)
Definition audio_tuple (track : Track) : option Z * string * string :=
  (track_id track,
   default ("Track " ++ str_of_id (track_id track))%string
     (track_title track),
   default "" (track_lang track)).

(** The list [audio_tracks] that [_fetch_audio_tracks] builds. *)
Definition audio_tracks_of (track_list : list Track)
  : list (option Z * string * string) :=
  map audio_tuple
    (List.filter
       (fun track =>
          match track_type track with
          | Some t => String.eqb t "audio"
          | None => false
          end)
       track_list).

(** A [QComboBox]: its items, each a text with its user data, the index of
    the current item (-1 when there is none), whether it is enabled, and
    whether its signals are blocked. *)
Record ComboBox : Type := {
  combo_items : list (string * option Z);
  combo_index : Z;
  combo_enabled : bool;
  combo_blocked : bool
}.

(** [itemData(index)] *)
Definition itemData (c : ComboBox) (index : Z) : option Z :=
  if index <? 0 then None
  else
    match nth_error (combo_items c) (Z.to_nat index) with
    | Some (_, data) => data
    | None => None
    end.

(** [itemText(index)] *)
Definition itemText (c : ComboBox) (index : Z) : string :=
  if index <? 0 then ""
  else
    match nth_error (combo_items c) (Z.to_nat index) with
    | Some (text, _) => text
    | None => ""
    end.

(** [ControlsOverlay._on_audio_track_changed(index)], the slot of the
    signal [currentIndexChanged] of the combo box of the audio tracks: the
    track that the signal [audio_track_changed] carries, if it is
    emitted. *)
Definition _on_audio_track_changed (c : ComboBox) (index : Z) : option Z :=
  if 0 <? index then itemData c index else None.

(** A statement on the combo box of the audio tracks: the box after it,
    and the tracks that [audio_track_changed] has carried meanwhile. *)
Definition Combo : Type := ComboBox -> ComboBox * list Z.

Definition combo_then (a b : Combo) : Combo :=
  fun c => let (c1, e1) := a c in
           let (c2, e2) := b c1 in (c2, (e1 ++ e2)%list).

Fixpoint combo_for {A} (body : A -> Combo) (l : list A) : Combo :=
  match l with
  | [] => fun c => (c, [])
  | x :: l' => combo_then (body x) (combo_for body l')
  end.

(** The current index becomes [i]; when this changes it, and the signals
    are not blocked, [currentIndexChanged] is emitted and its slot runs. *)
Definition change_index (i : Z) : Combo :=
  fun c =>
    let c' :=
      {| combo_items := combo_items c; combo_index := i;
         combo_enabled := combo_enabled c;
         combo_blocked := combo_blocked c |} in
    (c',
     if negb (combo_blocked c) && negb (combo_index c =? i)
     then match _on_audio_track_changed c' i with
          | Some track_id => [track_id]
          | None => []
          end
     else []).

(** [blockSignals(b)] *)
Definition blockSignals (b : bool) : Combo :=
  fun c =>
    ({| combo_items := combo_items c; combo_index := combo_index c;
        combo_enabled := combo_enabled c; combo_blocked := b |}, []).

(** [clear()]: no item is left, and none is current. *)
Definition clear : Combo :=
  fun c =>
    change_index (-1)
      {| combo_items := []; combo_index := combo_index c;
         combo_enabled := combo_enabled c;
         combo_blocked := combo_blocked c |}.

(** [addItem(text, userData)]: the item goes last; the first item of a box
    becomes its current item. *)
Definition addItem (text : string) (data : option Z) : Combo :=
  fun c =>
    let c' :=
      {| combo_items := (combo_items c ++ [(text, data)])%list;
         combo_index := combo_index c;
         combo_enabled := combo_enabled c;
         combo_blocked := combo_blocked c |} in
    match combo_items c with
    | [] => change_index 0 c'
    | _ => (c', [])
    end.

(** [setEnabled(b)] *)
Definition setEnabled (b : bool) : Combo :=
  fun c =>
    ({| combo_items := combo_items c; combo_index := combo_index c;
        combo_enabled := b; combo_blocked := combo_blocked c |}, []).

(** [setCurrentIndex(i)], which is also what the choice of the item [i] by
    the user does: an index that is out of range leaves no item
    current. *)
Definition setCurrentIndex (i : Z) : Combo :=
  fun c =>
    if (0 <=? i) && (i <? Z.of_nat (length (combo_items c)))
    then change_index i c else change_index (-1) c.

(** The name that [update_audio_tracks] gives to a track. *)
Definition track_name (title lang : string) : string :=
  let track_name := ("Audio: " ++ title)%string in
  if negb (String.eqb lang "")
  then (track_name ++ " (" ++ lang ++ ")")%string
  else track_name.

(** [ControlsOverlay.update_audio_tracks(tracks)], on the combo box of the
    audio tracks. *)
Definition update_audio_tracks (tracks : list (option Z * string * string))
  : Combo :=
  combo_then (blockSignals true)
    (combo_then clear
       (combo_then
          (match tracks with
           | [] =>
               combo_then (addItem "Audio: No track" None) (setEnabled false)
           | _ =>
               combo_then (addItem "Audio: Select a track" None)
                 (combo_then
                    (combo_for
                       (fun t : option Z * string * string =>
                          let '(track_id, title, lang) := t in
                          addItem (track_name title lang) track_id)
                       tracks)
                    (combo_then (setEnabled true) (setCurrentIndex 1)))
           end)
          (blockSignals false))).

(** The combo box as [ControlsOverlay.__init__] leaves it. *)
Definition audio_track_combo : ComboBox :=
  (setEnabled false
     (addItem "Audio: No track" None
        {| combo_items := []; combo_index := -1; combo_enabled := true;
           combo_blocked := false |}).1).1.

(** [PlayerWindow._fetch_audio_tracks], on the combo box of the audio
    tracks.  [track_list] is what reading [self.player.track_list]
    gives. *)
Definition _fetch_audio_tracks (track_list : res (list Track)) : Combo :=
  fun c =>
    match track_list with
    | inr track_list => update_audio_tracks (audio_tracks_of track_list) c
    | inl _ => (c, [])
    end.

(** The item that [update_audio_tracks] makes of a track. *)
Definition track_item (t : option Z * string * string)
  : string * option Z :=
  (track_name (snd (fst t)) (snd t), fst (fst t)).

(** The tracks of a film with a picture and two sound tracks. *)
Definition sample_tracks : list Track :=
  [{| track_type := Some "video"; track_id := Some 1;
      track_title := None; track_lang := None |};
   {| track_type := Some "audio"; track_id := Some 1;
      track_title := Some "Surround"; track_lang := Some "eng" |};
   {| track_type := Some "audio"; track_id := Some 2;
      track_title := None; track_lang := None |};
   {| track_type := Some "sub"; track_id := Some 1;
      track_title := None; track_lang := Some "fre" |}].

(** ** The window: the 3D modes

    The part of [PlayerWindow] and of its [ControlsOverlay] that deals with
    the 3D modes: the fields of the window, the widgets that show and
    choose the mode, and the properties of mpv that the window assigns.
    A method is a statement block on this state that returns or raises
    and that lists what it does besides. *)

(** The slots that the window hands to [QTimer.singleShot]. *)
Inductive callback : Type :=
| ClearInfo                                 (* set_3d_info("") *)
| InitThumbnailCache (file_path : string)
| FetchAudioTracks.

(** What a method does besides changing the state, in order. *)
Inductive action : Type :=
| SingleShot (ms : Z) (slot : callback)
| Play (file_path : string)                 (* self.player.play(file_path) *)
| UpdateUiState.                            (* self.update_ui_state() *)

Record PlayerWindow : Type := {
  has_media : bool;
  current_file_path : option string;
  video_3d_info : option (gmap string json);
  is_3d_enabled : bool;
  current_stereo_mode : string;
  is_3d_capable : bool;
  player : gmap string json;        (* the properties of mpv that the
                                       methods below have assigned *)
  stereo_mode_combo : Z;            (* currentIndex() *)
  stereo_mode_combo_enabled : bool;
  mode_3d_button : bool;            (* isChecked() *)
  mode_3d_button_enabled : bool;
  info_3d_label : string;           (* text() *)
  info_3d_label_shown : bool;
  info_3d_label_success : bool      (* the blue style sheet, not the
                                       orange one *)
}.

(** What the program takes from its libraries here: [str.upper], whether
    mpv takes the assignment of a value to a property or raises, and
    whether it takes the command to load a file or raises. *)
Record Host : Type := {
  str_upper : string -> string;
  mpv_accepts : string -> json -> bool;
  mpv_loads : string -> bool
}.

(** The window as [__init__] leaves it when the check of the 3D display
    raises, as it does where there is no command [tasklist]: the display
    does not count as 3D capable, the 3D button is disabled, and the label
    is empty and hidden. *)
Definition new_window : PlayerWindow :=
  {| has_media := false; current_file_path := None; video_3d_info := None;
     is_3d_enabled := false; current_stereo_mode := "auto";
     is_3d_capable := false; player := ∅;
     stereo_mode_combo := 0; stereo_mode_combo_enabled := true;
     mode_3d_button := false; mode_3d_button_enabled := false;
     info_3d_label := ""; info_3d_label_shown := false;
     info_3d_label_success := true |}.

(** A statement block of a method of the window. *)
Definition G (A : Type) : Type :=
  PlayerWindow -> res A * PlayerWindow * list action.

Definition gret {A} (a : A) : G A := fun w => (inr a, w, []).

Definition gbind {A B} (m : G A) (f : A -> G B) : G B :=
  fun w =>
    match m w with
    | (inl e, w', actions) => (inl e, w', actions)
    | (inr a, w', actions) =>
        let '(b, w'', actions') := f a w' in
        (b, w'', (actions ++ actions')%list)
    end.

Definition glift {A} (x : res A) : G A := fun w => (x, w, []).

(** the window itself *)
Definition self : G PlayerWindow := fun w => (inr w, w, []).

Definition update (f : PlayerWindow -> PlayerWindow) : G unit :=
  fun w => (inr tt, f w, []).

Definition act (a : action) : G unit := fun w => (inr tt, w, [a]).

(** [try: body / except Exception: ...], where the handler only prints;
    also a slot that a signal calls, whose exceptions PySide6 prints. *)
Definition gtry (body : G unit) : G unit :=
  fun w =>
    match body w with
    | (inl _, w', actions) => (inr tt, w', actions)
    | x => x
    end.

Notation "'let+' x ':=' m 'in' k" := (gbind m (fun x => k))
  (at level 10, x name, m at level 100, k at level 200).
Notation "m ';;+' k" := (gbind m (fun _ => k))
  (at level 100, k at level 200, right associativity).

(** [if c: body] *)
Definition gwhen (c : bool) (body : G unit) : G unit :=
  if c then body else gret tt.

(** [d[k]] *)
Definition item (d : gmap string json) (k : string) : res json :=
  match d !! k with
  | Some v => inr v
  | None => inl (KeyError k)
  end.

(** [bool(d)] for [d] a dictionary or [None] *)
Definition info_truthy (d : option (gmap string json)) : bool :=
  match d with
  | Some info => negb (Nat.eqb (size info) 0)
  | None => false
  end.

Definition set_info (w : PlayerWindow) (info : option (gmap string json))
  : PlayerWindow :=
  {| has_media := has_media w; current_file_path := current_file_path w;
     video_3d_info := info;
     is_3d_enabled := is_3d_enabled w;
     current_stereo_mode := current_stereo_mode w;
     is_3d_capable := is_3d_capable w; player := player w;
     stereo_mode_combo := stereo_mode_combo w;
     stereo_mode_combo_enabled := stereo_mode_combo_enabled w;
     mode_3d_button := mode_3d_button w;
     mode_3d_button_enabled := mode_3d_button_enabled w;
     info_3d_label := info_3d_label w;
     info_3d_label_shown := info_3d_label_shown w;
     info_3d_label_success := info_3d_label_success w |}.

Definition set_3d_enabled (w : PlayerWindow) (enabled : bool)
  : PlayerWindow :=
  {| has_media := has_media w; current_file_path := current_file_path w;
     video_3d_info := video_3d_info w;
     is_3d_enabled := enabled;
     current_stereo_mode := current_stereo_mode w;
     is_3d_capable := is_3d_capable w; player := player w;
     stereo_mode_combo := stereo_mode_combo w;
     stereo_mode_combo_enabled := stereo_mode_combo_enabled w;
     mode_3d_button := mode_3d_button w;
     mode_3d_button_enabled := mode_3d_button_enabled w;
     info_3d_label := info_3d_label w;
     info_3d_label_shown := info_3d_label_shown w;
     info_3d_label_success := info_3d_label_success w |}.

Definition set_stereo_mode (w : PlayerWindow) (mode : string)
  : PlayerWindow :=
  {| has_media := has_media w; current_file_path := current_file_path w;
     video_3d_info := video_3d_info w;
     is_3d_enabled := is_3d_enabled w;
     current_stereo_mode := mode;
     is_3d_capable := is_3d_capable w; player := player w;
     stereo_mode_combo := stereo_mode_combo w;
     stereo_mode_combo_enabled := stereo_mode_combo_enabled w;
     mode_3d_button := mode_3d_button w;
     mode_3d_button_enabled := mode_3d_button_enabled w;
     info_3d_label := info_3d_label w;
     info_3d_label_shown := info_3d_label_shown w;
     info_3d_label_success := info_3d_label_success w |}.

Definition set_player (w : PlayerWindow) (p : gmap string json)
  : PlayerWindow :=
  {| has_media := has_media w; current_file_path := current_file_path w;
     video_3d_info := video_3d_info w;
     is_3d_enabled := is_3d_enabled w;
     current_stereo_mode := current_stereo_mode w;
     is_3d_capable := is_3d_capable w; player := p;
     stereo_mode_combo := stereo_mode_combo w;
     stereo_mode_combo_enabled := stereo_mode_combo_enabled w;
     mode_3d_button := mode_3d_button w;
     mode_3d_button_enabled := mode_3d_button_enabled w;
     info_3d_label := info_3d_label w;
     info_3d_label_shown := info_3d_label_shown w;
     info_3d_label_success := info_3d_label_success w |}.

Definition set_media (w : PlayerWindow) (file_path : string)
  : PlayerWindow :=
  {| has_media := true; current_file_path := Some file_path;
     video_3d_info := video_3d_info w;
     is_3d_enabled := is_3d_enabled w;
     current_stereo_mode := current_stereo_mode w;
     is_3d_capable := is_3d_capable w; player := player w;
     stereo_mode_combo := stereo_mode_combo w;
     stereo_mode_combo_enabled := stereo_mode_combo_enabled w;
     mode_3d_button := mode_3d_button w;
     mode_3d_button_enabled := mode_3d_button_enabled w;
     info_3d_label := info_3d_label w;
     info_3d_label_shown := info_3d_label_shown w;
     info_3d_label_success := info_3d_label_success w |}.

Definition set_combo (w : PlayerWindow) (index : Z) : PlayerWindow :=
  {| has_media := has_media w; current_file_path := current_file_path w;
     video_3d_info := video_3d_info w;
     is_3d_enabled := is_3d_enabled w;
     current_stereo_mode := current_stereo_mode w;
     is_3d_capable := is_3d_capable w; player := player w;
     stereo_mode_combo := index;
     stereo_mode_combo_enabled := stereo_mode_combo_enabled w;
     mode_3d_button := mode_3d_button w;
     mode_3d_button_enabled := mode_3d_button_enabled w;
     info_3d_label := info_3d_label w;
     info_3d_label_shown := info_3d_label_shown w;
     info_3d_label_success := info_3d_label_success w |}.

Definition set_button (w : PlayerWindow) (checked : bool) : PlayerWindow :=
  {| has_media := has_media w; current_file_path := current_file_path w;
     video_3d_info := video_3d_info w;
     is_3d_enabled := is_3d_enabled w;
     current_stereo_mode := current_stereo_mode w;
     is_3d_capable := is_3d_capable w; player := player w;
     stereo_mode_combo := stereo_mode_combo w;
     stereo_mode_combo_enabled := stereo_mode_combo_enabled w;
     mode_3d_button := checked;
     mode_3d_button_enabled := mode_3d_button_enabled w;
     info_3d_label := info_3d_label w;
     info_3d_label_shown := info_3d_label_shown w;
     info_3d_label_success := info_3d_label_success w |}.

Definition set_controls_enabled (w : PlayerWindow) (enabled : bool)
  : PlayerWindow :=
  {| has_media := has_media w; current_file_path := current_file_path w;
     video_3d_info := video_3d_info w;
     is_3d_enabled := is_3d_enabled w;
     current_stereo_mode := current_stereo_mode w;
     is_3d_capable := is_3d_capable w; player := player w;
     stereo_mode_combo := stereo_mode_combo w;
     stereo_mode_combo_enabled := enabled;
     mode_3d_button := mode_3d_button w;
     mode_3d_button_enabled := enabled;
     info_3d_label := info_3d_label w;
     info_3d_label_shown := info_3d_label_shown w;
     info_3d_label_success := info_3d_label_success w |}.

Definition set_label (w : PlayerWindow) (text : string) (shown : bool)
  : PlayerWindow :=
  {| has_media := has_media w; current_file_path := current_file_path w;
     video_3d_info := video_3d_info w;
     is_3d_enabled := is_3d_enabled w;
     current_stereo_mode := current_stereo_mode w;
     is_3d_capable := is_3d_capable w; player := player w;
     stereo_mode_combo := stereo_mode_combo w;
     stereo_mode_combo_enabled := stereo_mode_combo_enabled w;
     mode_3d_button := mode_3d_button w;
     mode_3d_button_enabled := mode_3d_button_enabled w;
     info_3d_label := text;
     info_3d_label_shown := shown;
     info_3d_label_success := info_3d_label_success w |}.

Definition set_label_style (w : PlayerWindow) (success : bool)
  : PlayerWindow :=
  {| has_media := has_media w; current_file_path := current_file_path w;
     video_3d_info := video_3d_info w;
     is_3d_enabled := is_3d_enabled w;
     current_stereo_mode := current_stereo_mode w;
     is_3d_capable := is_3d_capable w; player := player w;
     stereo_mode_combo := stereo_mode_combo w;
     stereo_mode_combo_enabled := stereo_mode_combo_enabled w;
     mode_3d_button := mode_3d_button w;
     mode_3d_button_enabled := mode_3d_button_enabled w;
     info_3d_label := info_3d_label w;
     info_3d_label_shown := info_3d_label_shown w;
     info_3d_label_success := success |}.

(** [ControlsOverlay.set_3d_info(text)] *)
Definition set_3d_info (text : string) : G unit :=
  if negb (String.eqb text "")
  then update (fun w => set_label w text true)
  else update (fun w => set_label w (info_3d_label w) false).

(** [ControlsOverlay.enable_3d_controls(enabled)] *)
Definition enable_3d_controls (enabled : bool) : G unit :=
  update (fun w => set_controls_enabled w enabled).

(** [PlayerWindow.show_3d_notification(message, success, permanent)] *)
Definition show_3d_notification (message : string)
    (success permanent : bool) : G unit :=
  set_3d_info message ;;+
  update (fun w => set_label_style w success) ;;+
  gwhen (negb permanent) (act (SingleShot 5000 ClearInfo)).

(** The items of the combo box of the stereo modes. *)
Definition stereo_mode_items : list string :=
  ["Auto"; "MVC"; "Side-by-Side"; "Top-Bottom"; "2D (Mono)"].

Definition mode_map : gmap string string :=
  list_to_map
    [("Auto", "auto"); ("MVC", "mvc"); ("Side-by-Side", "sbs");
     ("Top-Bottom", "tab"); ("2D (Mono)", "mono")].

Definition mode_names : gmap string string :=
  list_to_map
    [("mvc", "MVC"); ("sbs", "Side-by-Side"); ("tab", "Top-Bottom")].

Definition mode_indices : gmap string Z :=
  list_to_map [("mvc", 1); ("sbs", 2); ("tab", 3)].

(** [mode_index.get(stereo_mode, 0)]: a list or a dict is not hashable. *)
Definition mode_index_get (stereo_mode : json) : res Z :=
  match stereo_mode with
  | JStr s => inr (default 0 (mode_indices !! s))
  | JArr _ | JObj _ => inl TypeError
  | _ => inr 0
  end.

Section Window.

Variable W : World.
Variable H : Host.

(** [mode_names.get(stereo_mode, stereo_mode.upper())] *)
Definition mode_name (stereo_mode : json) : res string :=
  match stereo_mode with
  | JStr s => inr (default (str_upper H s) (mode_names !! s))
  | _ => inl AttributeError
  end.

(** [self.player[name] = value] *)
Definition assign (name : string) (value : json) : G unit :=
  fun w =>
    if mpv_accepts H name value
    then (inr tt, set_player w (<[name := value]> (player w)), [])
    else (inl (OtherException "mpv"), w, []).

(** [self.player.play(file_path)] *)
Definition load (file_path : string) : G unit :=
  fun w =>
    if mpv_loads H file_path then (inr tt, w, [Play file_path])
    else (inl (OtherException "mpv"), w, []).

(** [self.video_3d_info and
     self.video_3d_info.get('stereo_mode') == mode] *)
Definition detected (w : PlayerWindow) (mode : string) : bool :=
  info_truthy (video_3d_info w)
  && match video_3d_info w with
     | Some info => Py.eq_str (default JNull (info !! "stereo_mode")) mode
     | None => false
     end.

Definition mvc_enabled_message : string :=
  ("3D MVC mode enabled (FramePacking 1920"
   ++ String (ascii_of_N 215) "2205@24fps)")%string.

(** [PlayerWindow.configure_3d_output(enable_3d, stereo_mode)] *)
Definition configure_3d_output (enable_3d : bool) (stereo_mode : string)
  : G unit :=
  if negb enable_3d then gtry (assign "lavfi-complex" (JStr ""))
  else
    let+ w := self in
    if String.eqb stereo_mode "mvc"
       || String.eqb stereo_mode "auto" && detected w "mvc"
    then
      gtry (assign "hwdec" (JStr "no") ;;+
            assign "override-display-fps" (JInt 24) ;;+
            assign "vf" (JStr "scale=1920:2205") ;;+
            show_3d_notification mvc_enabled_message true false)
    else if String.eqb stereo_mode "sbs"
            || String.eqb stereo_mode "auto" && detected w "sbs"
    then
      gtry (assign "lavfi-complex" (JStr "[vid1] stereo3d=sbsl:ml [vo]") ;;+
            show_3d_notification "3D Side-by-Side mode enabled" true false)
    else if String.eqb stereo_mode "tab"
            || String.eqb stereo_mode "auto" && detected w "tab"
    then
      gtry (assign "lavfi-complex" (JStr "[vid1] stereo3d=abl:ml [vo]") ;;+
            show_3d_notification "3D Top-Bottom mode enabled" true false)
    else gret tt.

(** [PlayerWindow.change_stereo_mode(mode)] *)
Definition change_stereo_mode (mode : string) : G unit :=
  update (fun w => set_stereo_mode w mode) ;;+
  let+ w := self in
  gwhen (has_media w && is_3d_enabled w) (configure_3d_output true mode).

(** [PlayerWindow.toggle_3d_mode(enabled)] *)
Definition toggle_3d_mode (enabled : bool) : G unit :=
  update (fun w => set_3d_enabled w enabled) ;;+
  let+ w := self in
  gwhen (has_media w)
    (configure_3d_output enabled (current_stereo_mode w) ;;+
     let+ w := self in
     let+ is_3d :=
       (if info_truthy (video_3d_info w)
        then glift (item (default ∅ (video_3d_info w)) "is_3d")
        else gret (JBool false)) in
     if info_truthy (video_3d_info w) && Py.truthy is_3d then
       let+ stereo_mode :=
         glift (item (default ∅ (video_3d_info w)) "stereo_mode") in
       let+ name := glift (mode_name stereo_mode) in
       if enabled then
         show_3d_notification
           ("3D File: " ++ name ++ " - 3D Playback Active") true true
       else
         show_3d_notification
           ("3D File: " ++ name ++ " - Downgraded to 2D") false true
     else if enabled then
       show_3d_notification "2D File - 3D Mode Enabled" true true
     else show_3d_notification "2D File" true true).

(** [ControlsOverlay._on_stereo_mode_changed(text)], with the slot
    [change_stereo_mode] of the signal that it emits. *)
Definition _on_stereo_mode_changed (text : string) : G unit :=
  gtry (change_stereo_mode (default "auto" (mode_map !! text))).

(** [stereo_mode_combo.itemText(index)] *)
Definition stereo_mode_text (index : Z) : string :=
  if index <? 0 then "" else nth (Z.to_nat index) stereo_mode_items "".

(** [stereo_mode_combo.setCurrentIndex(index)], which is also what the
    choice of an item by the user does: an index that is out of range
    leaves no item current; when the current item changes, the signal
    [currentTextChanged] calls its slot. *)
Definition choose_stereo_mode (index : Z) : G unit :=
  let index :=
    if (0 <=? index) && (index <? Z.of_nat (length stereo_mode_items))
    then index else -1 in
  let+ w := self in
  gwhen (negb (stereo_mode_combo w =? index))
    (update (fun w => set_combo w index) ;;+
     _on_stereo_mode_changed (stereo_mode_text index)).

(** [mode_3d_button.setChecked(checked)]: when the state of the button
    changes, the signal [toggled] calls the slot [toggle_3d_mode]. *)
Definition setChecked (checked : bool) : G unit :=
  let+ w := self in
  gwhen (negb (Bool.eqb (mode_3d_button w) checked))
    (update (fun w => set_button w checked) ;;+
     gtry (toggle_3d_mode checked)).

(** The branch of [PlayerWindow.keyPressEvent] for the key [3]. *)
Definition key_3 : G unit :=
  let+ w := self in
  setChecked (negb (mode_3d_button w)).

(** [PlayerWindow.analyze_and_configure_3d(file_path)] *)
Definition analyze_and_configure_3d (file_path : string) : G unit :=
  let+ info := glift (Video3DAnalyzer.analyze_file W file_path) in
  update (fun w => set_info w (Some info)) ;;+
  gwhen (Py.truthy (default JNull (info !! "analysis_error")))
    (show_3d_notification
       "3D analysis via ffprobe failed. Switching to Auto mode."
       false false) ;;+
  let+ is_3d := glift (item info "is_3d") in
  let+ is_3d_mode :=
    (if Py.truthy is_3d
     then let+ stereo_mode := glift (item info "stereo_mode") in
          gret (negb (Py.eq_str stereo_mode "none"))
     else gret false) in
  if is_3d_mode then
    let+ stereo_mode := glift (item info "stereo_mode") in
    enable_3d_controls true ;;+
    let+ mode_index := glift (mode_index_get stereo_mode) in
    choose_stereo_mode mode_index ;;+
    let+ name := glift (mode_name stereo_mode) in
    show_3d_notification ("3D File: " ++ name) true true ;;+
    let+ w := self in
    gwhen (Py.eq_str stereo_mode "mvc" && is_3d_capable w)
      (setChecked true)
  else
    enable_3d_controls false ;;+
    show_3d_notification "2D content detected" true true.

(** [PlayerWindow.load_audio_tracks()] *)
Definition load_audio_tracks : G unit :=
  let+ w := self in
  gwhen (has_media w) (act (SingleShot 500 FetchAudioTracks)).

(** [PlayerWindow.play_file(file_path)] *)
Definition play_file (file_path : string) : G unit :=
  if negb (path_exists W file_path) then gret tt
  else
    analyze_and_configure_3d file_path ;;+
    update (fun w => set_media w file_path) ;;+
    load file_path ;;+
    assign "pause" (JBool false) ;;+
    act UpdateUiState ;;+
    act (SingleShot 500 (InitThumbnailCache file_path)) ;;+
    load_audio_tracks ;;+
    let+ w := self in
    gwhen (is_3d_enabled w)
      (configure_3d_output true (current_stereo_mode w)).

End Window.

(** The window after a method, the actions of the method, and whether it
    has returned. *)
Definition window_after {A} (x : res A * PlayerWindow * list action)
  : PlayerWindow := snd (fst x).

Definition actions_of {A} (x : res A * PlayerWindow * list action)
  : list action := snd x.

Definition returned {A} (x : res A * PlayerWindow * list action) : Prop :=
  exists a, fst (fst x) = inr a.

(** The mode that the current item of the combo box stands for. *)
Definition chosen_mode (w : PlayerWindow) : string :=
  default "auto" (mode_map !! stereo_mode_text (stereo_mode_combo w)).

(** The fields of the window and the widgets agree: the mode is that of
    the current item of the combo box, and 3D is enabled exactly when the
    button is checked. *)
Definition in_step (w : PlayerWindow) : Prop :=
  current_stereo_mode w = chosen_mode w
  /\ is_3d_enabled w = mode_3d_button w.

(** From a window that satisfies [P], [m] leads to one that satisfies [Q],
    whether it returns or raises. *)
Definition leads {A} (P : PlayerWindow -> Prop) (m : G A)
    (Q : PlayerWindow -> Prop) : Prop :=
  forall w, P w -> Q (window_after (m w)).

(** [m] keeps [P]. *)
Definition keeps {A} (P : PlayerWindow -> Prop) (m : G A) : Prop :=
  leads P m P.

(** The window without what it displays: the properties of mpv and the
    label. *)
Definition without_display (w : PlayerWindow) : PlayerWindow :=
  set_label_style (set_label (set_player w ∅) "" false) true.

(** From a window that satisfies [P], [m] returns, with a value and a
    window that satisfy [Q]. *)
Definition gives {A} (P : PlayerWindow -> Prop) (m : G A)
    (Q : A -> PlayerWindow -> Prop) : Prop :=
  forall w, P w ->
    exists a, fst (fst (m w)) = inr a /\ Q a (window_after (m w)).

(** Every action of [m] satisfies [A]. *)
Definition emits {B} (A : action -> Prop) (m : G B) : Prop :=
  forall w, Forall A (actions_of (m w)).

(** The label shows [text], in the style of a success or not. *)
Definition label_is (text : string) (success : bool) (w : PlayerWindow)
  : Prop :=
  info_3d_label w = text /\ info_3d_label_shown w = true
  /\ info_3d_label_success w = success.

(** The fields and the widgets of [w], its display apart, are those of
    [c]. *)
Definition controls_are (c w : PlayerWindow) : Prop := without_display w = c.

(** What [choose_stereo_mode] and [setChecked] make of the fields and the
    widgets. *)
Definition chosen (index : Z) (w : PlayerWindow) : PlayerWindow :=
  let index :=
    if (0 <=? index) && (index <? Z.of_nat (length stereo_mode_items))
    then index else -1 in
  if stereo_mode_combo w =? index then w
  else set_stereo_mode (set_combo w index)
         (default "auto" (mode_map !! stereo_mode_text index)).

Definition checked (b : bool) (w : PlayerWindow) : PlayerWindow :=
  if Bool.eqb (mode_3d_button w) b then w
  else set_3d_enabled (set_button w b) b.

(** The assignments to properties of mpv that the methods of the window
    make: the one that switches 3D off, which counts when [off] is set,
    those that switch a 3D mode on, and the one of [play_file]. *)
Definition assignments (off : bool) : list (string * json) :=
  ((if off then [("lavfi-complex", JStr "")] else [])
   ++ [("hwdec", JStr "no"); ("override-display-fps", JInt 24);
       ("vf", JStr "scale=1920:2205");
       ("lavfi-complex", JStr "[vid1] stereo3d=sbsl:ml [vo]");
       ("lavfi-complex", JStr "[vid1] stereo3d=abl:ml [vo]");
       ("pause", JBool false)])%list.

(** [P] survives what the methods do to the display: the assignments to
    mpv that they make, and whatever happens to the label. *)
Record display_free (off : bool) (P : PlayerWindow -> Prop) : Prop := {
  free_player :
    forall w name value,
      (name, value) ∈ assignments off -> P w ->
      P (set_player w (<[name := value]> (player w)));
  free_label : forall w text shown, P w -> P (set_label w text shown);
  free_style : forall w success, P w -> P (set_label_style w success)
}.

(** [P] survives every assignment to the fields of the window and every
    change of its widgets other than the label: it is about the display
    only. *)
Record control_free (P : PlayerWindow -> Prop) : Prop := {
  free_info : forall w info, P w -> P (set_info w info);
  free_3d_enabled : forall w enabled, P w -> P (set_3d_enabled w enabled);
  free_stereo_mode : forall w mode, P w -> P (set_stereo_mode w mode);
  free_media : forall w file_path, P w -> P (set_media w file_path);
  free_combo : forall w index, P w -> P (set_combo w index);
  free_button : forall w checked, P w -> P (set_button w checked);
  free_controls_enabled :
    forall w enabled, P w -> P (set_controls_enabled w enabled)
}.

(** What the user and the timers do to the window: the choice of an item
    of the combo box of the modes, a click on the 3D button, the key [3],
    the opening or the drop of a file, and the end of the time of a
    notification. *)
Inductive ui_event : Type :=
| ChooseMode (index : Z)
| ClickMode3D
| Key3
| OpenFile (file_path : string)
| ClearInfoFires.

Section Events.

Variable W : World.
Variable H : Host.

(** The handler of an event.  A click counts here whether the button is
    enabled or not, and so does a choice in the combo box. *)
Definition handle (e : ui_event) : G unit :=
  match e with
  | ChooseMode index => choose_stereo_mode H index
  | ClickMode3D => let+ w := self in setChecked H (negb (mode_3d_button w))
  | Key3 => key_3 H
  | OpenFile file_path => play_file W H file_path
  | ClearInfoFires => set_3d_info ""
  end.

(** The window after a sequence of events: Qt prints the exception that a
    handler raises and goes on. *)
Fixpoint handle_all (w : PlayerWindow) (events : list ui_event)
  : PlayerWindow :=
  match events with
  | [] => w
  | e :: rest => handle_all (window_after (handle e w)) rest
  end.

End Events.

(** mpv takes every assignment of [names]. *)
Definition accepts (H : Host) (names : list string) : Prop :=
  forall name value, name ∈ names -> mpv_accepts H name value = true.

(** The properties that the multi-view configuration assigns. *)
Definition mvc_properties : list (string * json) :=
  [("hwdec", JStr "no"); ("override-display-fps", JInt 24);
   ("vf", JStr "scale=1920:2205")].

(** The multi-view configuration is in place. *)
Definition mvc_configured (w : PlayerWindow) : Prop :=
  forall name value,
    (name, value) ∈ mvc_properties -> player w !! name = Some value.

(** A filter of a 3D mode is in place. *)
Definition filter_on (w : PlayerWindow) : Prop :=
  exists filter,
    filter <> "" /\ player w !! "lavfi-complex" = Some (JStr filter).

(** The system of [world_with_output], on which every path exists. *)
Definition world_with_files (data : json) : World :=
  let V := world_with_output data in
  {| win32 := win32 V;
     base_dir := base_dir V;
     which := which V;
     path_exists := fun _ => true;
     path_abspath := path_abspath V;
     path_join := path_join V;
     path_dirname := path_dirname V;
     path_basename := path_basename V;
     glob_any := glob_any V;
     run_probe := run_probe V;
     called_process_error_str := called_process_error_str V;
     json_loads := json_loads V;
     gettempdir := gettempdir V;
     time_micros := time_micros V;
     run_extract := run_extract V;
     exists_after_run := exists_after_run V;
     load_pixmap := load_pixmap V |}.

(** A window on a display that is 3D capable, in which no file has been
    played yet, once the notice of the start is hidden. *)
Definition window_on_3d_display : PlayerWindow :=
  {| has_media := false; current_file_path := None; video_3d_info := None;
     is_3d_enabled := false; current_stereo_mode := "auto";
     is_3d_capable := true; player := ∅;
     stereo_mode_combo := 0; stereo_mode_combo_enabled := true;
     mode_3d_button := false; mode_3d_button_enabled := true;
     info_3d_label := "Nvidia 3D Vision detected and active";
     info_3d_label_shown := false;
     info_3d_label_success := true |}.

(** A host whose mpv takes every assignment, and which puts the letters
    [a] to [z] in upper case. *)
Definition sample_host : Host :=
  {| str_upper :=
       smap (fun c =>
               let n := N_of_ascii c in
               if ((97 <=? n) && (n <=? 122))%N
               then ascii_of_N (n - 32) else c);
     mpv_accepts := fun _ _ => true;
     mpv_loads := fun _ => true |}.

(** *** Laws of the statement blocks *)

Lemma bind_lift_inr {A B} (a : A) (f : A -> M B) :
  bind (lift (inr a)) f = f a.
Proof. reflexivity. Qed.

Lemma bind_setitem {B} k v (f : unit -> M B) r :
  bind (setitem k v) f r = f tt (<[k := v]> r).
Proof. reflexivity. Qed.

Lemma sound_ret P {A} (a : A) : sound P (ret a).
Proof. intros r Hr; split; [exact Hr | discriminate]. Qed.

Lemma sound_bind P {A B} (m : M A) (f : A -> M B) :
  sound P m -> (forall a, sound P (f a)) -> sound P (bind m f).
Proof.
  intros Hm Hf r Hr. unfold bind.
  destruct (Hm r Hr) as [Hp He].
  destruct (m r) as [[e | a] r']; simpl in *.
  - split; [exact Hp | intros e' [= <-]; auto].
  - apply Hf, Hp.
Qed.

Lemma sound_lift P {A} (x : res A) :
  (forall e, x = inl e -> uncaught e) -> sound P (lift x).
Proof. intros Hx r Hr; split; [exact Hr | exact Hx]. Qed.

Lemma sound_when P (c : bool) (body : M unit) :
  sound P body -> sound P (when c body).
Proof. destruct c; [auto | intros _; apply sound_ret]. Qed.

Lemma sound_for_each P {A} (body : A -> M unit) (l : list A) :
  (forall x, sound P (body x)) -> sound P (for_each body l).
Proof.
  intros Hb. induction l as [| x l IH]; simpl.
  - apply sound_ret.
  - apply sound_bind; auto.
Qed.

Lemma sound_setitem (P : gmap string json -> Prop) k v :
  (forall r, P r -> P (<[k := v]> r)) -> sound P (setitem k v).
Proof. intros H r Hr; split; [apply H, Hr | discriminate]. Qed.

Lemma sound_getitem P k : sound P (getitem k).
Proof.
  intros r Hr. unfold getitem. destruct (r !! k); simpl.
  - split; [exact Hr | discriminate].
  - split; [exact Hr | intros e [= <-]; exact I].
Qed.

Lemma sound_getdefault P k d : sound P (getdefault k d).
Proof. intros r Hr; split; [exact Hr | discriminate]. Qed.

(** What the operations on values raise. *)

Lemma get_uncaught o k d e : Py.get o k d = inl e -> uncaught e.
Proof. destruct o; simpl; intros [= <-] || discriminate; exact I. Qed.

Lemma iter_uncaught v e : Py.iter v = inl e -> uncaught e.
Proof. destruct v; simpl; intros [= <-] || discriminate; exact I. Qed.

Lemma items_uncaught v e : Py.items v = inl e -> uncaught e.
Proof. destruct v; simpl; intros [= <-] || discriminate; exact I. Qed.

Lemma lower_uncaught v e : Py.lower v = inl e -> uncaught e.
Proof. destruct v; simpl; intros [= <-] || discriminate; exact I. Qed.

Lemma classify_uncaught v e : _classify_stereo_mode v = inl e -> uncaught e.
Proof.
  unfold _classify_stereo_mode. destruct (negb (Py.truthy v)); [discriminate |].
  destruct v; intros [= <-] || discriminate; exact I.
Qed.

Lemma detected_mode_uncaught sd e : detected_mode sd = inl e -> uncaught e.
Proof. destruct sd; simpl; intros [= <-] || discriminate; exact I. Qed.

(** *** The priority table *)

Lemma priority_cases mode :
  priority mode =
    if decide (mode = "none") then 0
    else if decide (mode = "tab") then 1
    else if decide (mode = "sbs") then 2
    else if decide (mode = "mvc") then 3
    else if decide (mode = "anaglyph") then 1
    else 0.
Proof.
  unfold priority, _STEREO_PRIORITY. simpl list_to_map.
  repeat (rewrite lookup_insert; case_decide; subst;
          [repeat (case_decide; try congruence); reflexivity |]).
  rewrite lookup_empty. repeat (case_decide; try congruence). reflexivity.
Qed.

Lemma priority_nonneg mode : 0 <= priority mode.
Proof. rewrite priority_cases. repeat case_decide; lia. Qed.

Lemma priority_top mode : 3 <= priority mode -> mode = "mvc".
Proof. rewrite priority_cases. repeat case_decide; (lia || congruence). Qed.

(** *** [_promote_stereo_mode] *)

(** The update that a promotion makes once the priorities are known. *)
Lemma promote_cases mode mark r :
  _promote_stereo_mode mode mark r = (inr tt, r)
  \/ _promote_stereo_mode mode mark r = (inl TypeError, r)
  \/ exists p,
       priority_get (default (JStr "none") (r !! "stereo_mode")) = inr p
       /\ mode <> ""
       /\ _promote_stereo_mode mode mark r =
            (inr tt,
             (if mark || String.eqb mode "mvc"
              then <["has_mvc_track" := JBool true]> else id)
               (<["is_3d" := JBool true]>
                  (if p <=? priority mode
                   then <["stereo_mode" := JStr mode]> r else r))).
Proof.
  unfold _promote_stereo_mode.
  destruct (String.eqb_spec mode "") as [-> | Hne]; [left; reflexivity |].
  right. unfold bind, lift, getdefault, setitem, when, ret. simpl priority_get.
  destruct (priority_get (default (JStr "none") (r !! "stereo_mode")))
    as [e | p] eqn:Hp.
  - left. f_equal. f_equal.
    destruct (default (JStr "none") (r !! "stereo_mode"));
      simpl in Hp; congruence.
  - right. exists p. split; [reflexivity | split; [exact Hne |]].
    fold (priority mode).
    destruct (p <=? priority mode); destruct (mark || String.eqb mode "mvc");
      reflexivity.
Qed.

Lemma promote_sound P mode mark :
  (forall r, P r -> P (_promote_stereo_mode mode mark r).2) ->
  sound P (_promote_stereo_mode mode mark).
Proof.
  intros H r Hr. split; [apply H, Hr |].
  destruct (promote_cases mode mark r) as [-> | [-> | (p & _ & _ & ->)]];
    simpl; intros e [= <-] || discriminate. exact I.
Qed.

Lemma promote_typed mode mark r current :
  mode <> "" -> r !! "stereo_mode" = Some (JStr current) ->
  _promote_stereo_mode mode mark r =
    (inr tt,
     (if mark || String.eqb mode "mvc"
      then <["has_mvc_track" := JBool true]> else id)
       (<["is_3d" := JBool true]>
          (if priority current <=? priority mode
           then <["stereo_mode" := JStr mode]> r else r))).
Proof.
  intros Hne Hcur. unfold _promote_stereo_mode.
  destruct (String.eqb_spec mode ""); [contradiction |].
  unfold bind, lift, getdefault, setitem, when, ret. rewrite Hcur.
  simpl. fold (priority current) (priority mode).
  destruct (priority current <=? priority mode);
    destruct (mark || String.eqb mode "mvc"); reflexivity.
Qed.

(** *** Properties that inspecting the streams keeps *)

Ltac promote_step mode mark r :=
  let p := fresh "p" in
  let Hp := fresh "Hp" in
  destruct (promote_cases mode mark r) as [-> | [-> | (p & Hp & _ & ->)]];
  simpl; [assumption | assumption |].

Lemma stable_is_3d_true :
  stable (fun r => r !! "is_3d" = Some (JBool true)).
Proof.
  split; intros; try (by simplify_map_eq).
  promote_step mode mark r.
  destruct (mark || String.eqb mode "mvc"); by simplify_map_eq.
Qed.

Lemma stable_is_mvc_result : stable is_mvc_result.
Proof.
  unfold is_mvc_result.
  split; intros;
    try (destruct H as (? & ? & ?); split_and!; by simplify_map_eq).
  promote_step mode mark r.
  destruct H as (H3 & Hm & Ht). rewrite Hm in Hp. simpl in Hp.
  injection Hp as <-. fold (priority "mvc").
  assert (Hmode :
    (if priority "mvc" <=? priority mode
     then <["stereo_mode" := JStr mode]> r else r) !! "stereo_mode"
    = Some (JStr "mvc")).
  { destruct (Z.leb_spec (priority "mvc") (priority mode)) as [Hle | _];
      [| exact Hm].
    rewrite (priority_top mode); [by simplify_map_eq |].
    rewrite priority_cases in Hle. simpl in Hle. exact Hle. }
  destruct (mark || String.eqb mode "mvc");
    destruct (priority "mvc" <=? priority mode);
    split_and!; by simplify_map_eq.
Qed.

Lemma stable_analysis_error v :
  stable (fun r => r !! "analysis_error" = v).
Proof.
  split; intros; try (by simplify_map_eq).
  promote_step mode mark r.
  destruct (mark || String.eqb mode "mvc"); destruct (p <=? priority mode);
    by simplify_map_eq.
Qed.

Lemma dom_insert_present (r : gmap string json) k v :
  k ∈ dom r -> dom (<[k := v]> r) = dom r.
Proof.
  intros Hk. rewrite dom_insert_L. apply subseteq_union_1_L.
  by apply singleton_subseteq_l.
Qed.

Lemma stable_well_typed : stable well_typed.
Proof.
  assert (Hset : forall k v r, k ∈ result_keys -> k <> "stereo_mode" ->
                   well_typed r -> well_typed (<[k := v]> r)).
  { intros k v r Hk Hne [Hd [m Hm]]. split.
    - rewrite dom_insert_present; [exact Hd | by rewrite Hd].
    - exists m. by rewrite lookup_insert_ne. }
  assert (Hmode : forall m r, well_typed r ->
                    well_typed (<["stereo_mode" := JStr m]> r)).
  { intros m r [Hd _]. split.
    - rewrite dom_insert_present; [exact Hd | rewrite Hd].
      unfold result_keys. set_solver.
    - exists m. by rewrite lookup_insert_eq. }
  assert (Hin : forall k, k ∈ ["is_3d"; "has_mvc_track"; "width"; "height"]
                  -> k ∈ result_keys /\ k <> "stereo_mode").
  { intros k Hk. unfold result_keys.
    repeat (apply elem_of_cons in Hk as [-> | Hk];
            [split; [set_solver | discriminate] |]).
    by apply elem_of_nil in Hk. }
  split; intros; try (apply Hmode; assumption);
    try (apply Hset; [apply Hin; repeat constructor
                     | apply Hin; repeat constructor | assumption]).
  promote_step mode mark r.
  assert (well_typed (<["is_3d" := JBool true]>
            (if p <=? priority mode
             then <["stereo_mode" := JStr mode]> r else r))) as Ht.
  { apply Hset; [apply Hin; repeat constructor | discriminate |].
    destruct (p <=? priority mode); auto. }
  destruct (mark || String.eqb mode "mvc"); [| exact Ht].
  apply Hset; [apply Hin; repeat constructor | discriminate | exact Ht].
Qed.

Create HintDb sound.

#[local] Hint Resolve sound_ret sound_getitem sound_getdefault
  get_uncaught iter_uncaught items_uncaught lower_uncaught
  classify_uncaught detected_mode_uncaught : sound.

(** One step through a block, for a property [P] with [HP : stable P]. *)
Ltac sound_step P HP :=
  first
    [ apply sound_ret
    | apply promote_sound; apply (stable_promote P HP)
    | apply sound_bind; [| intros ?]
    | apply sound_lift
    | apply sound_when
    | apply sound_for_each; intros ?
    | apply sound_setitem; intros ? ?;
      first [ apply (stable_width P HP) | apply (stable_height P HP)
            | apply (stable_is_3d P HP) | apply (stable_has_mvc P HP)
            | apply (stable_mvc P HP) ]; assumption
    | solve [eauto with sound]
    | match goal with
      | |- sound _ (match ?x with _ => _ end) => destruct x
      end ].

Section Inspect.

Variable P : gmap string json -> Prop.
Hypothesis HP : stable P.

Lemma inspect_side_data_sound sd : sound P (inspect_side_data sd).
Proof.
  unfold inspect_side_data. repeat sound_step P HP.
Qed.

Lemma inspect_tag_sound kv : sound P (inspect_tag kv).
Proof.
  destruct kv as [key value]. unfold inspect_tag. repeat sound_step P HP.
Qed.

Lemma inspect_video_stream_sound stream framepacked :
  sound P (inspect_video_stream stream framepacked).
Proof.
  unfold inspect_video_stream.
  repeat first [ apply inspect_side_data_sound | apply inspect_tag_sound
               | sound_step P HP ].
Qed.

Lemma inspect_stream_sound stream : sound P (inspect_stream stream).
Proof.
  unfold inspect_stream.
  repeat first [ apply inspect_video_stream_sound | sound_step P HP ].
Qed.

Lemma find_mvc_stream_sound streams : sound P (find_mvc_stream streams).
Proof.
  induction streams as [| stream rest IH]; simpl;
    repeat first [ exact IH | sound_step P HP ].
Qed.

Lemma inspect_streams_sound data : sound P (inspect_streams data).
Proof.
  unfold inspect_streams.
  repeat first [ apply inspect_stream_sound | apply find_mvc_stream_sound
               | sound_step P HP ].
Qed.

End Inspect.

(** ** Promotion *)

Lemma promote_twice r current m1 m2 k1 k2 :
  m1 <> "" -> m2 <> "" ->
  r !! "stereo_mode" = Some (JStr current) ->
  priority current <= priority m2 -> priority m1 <= priority m2 ->
  exists r1 r2,
    _promote_stereo_mode m1 k1 r = (inr tt, r1)
    /\ _promote_stereo_mode m2 k2 r1 = (inr tt, r2)
    /\ r2 !! "stereo_mode" = Some (JStr m2)
    /\ r2 !! "is_3d" = Some (JBool true).
Proof.
  intros H1 H2 Hcur Hc2 H12.
  pose proof (promote_typed m1 k1 r current H1 Hcur) as E1.
  set (r1 := (_promote_stereo_mode m1 k1 r).2).
  assert (Hr1 : exists c, r1 !! "stereo_mode" = Some (JStr c)
                          /\ priority c <= priority m2).
  { subst r1. rewrite E1. simpl.
    destruct (priority current <=? priority m1);
      destruct (k1 || String.eqb m1 "mvc"); simpl;
      first [ exists m1; split; [by simplify_map_eq | exact H12]
            | exists current; split; [by simplify_map_eq | exact Hc2] ]. }
  destruct Hr1 as (c & Hc & Hle).
  pose proof (promote_typed m2 k2 r1 c H2 Hc) as E2.
  exists r1, (_promote_stereo_mode m2 k2 r1).2. split_and!.
  - subst r1. by rewrite E1.
  - by rewrite E2.
  - rewrite E2. simpl. apply Z.leb_le in Hle. rewrite Hle.
    destruct (k2 || String.eqb m2 "mvc"); by simplify_map_eq.
  - rewrite E2. simpl.
    destruct (k2 || String.eqb m2 "mvc"); by simplify_map_eq.
Qed.

(** C2 — Promotion monotonicity.  For every result dictionary whose
    current mode is the string [current] and every non-empty [mode],
    [_promote_stereo_mode] returns; afterwards [stereo_mode] is [mode] when
    the priority of [mode] (none 0, tab 1, anaglyph 1, sbs 2, mvc 3) is
    greater than or equal to that of [current], and is [current] otherwise;
    [is_3d] is true.  Of two successive signals with priorities p1 <= p2
    the later one gives the final mode, ties included, from the fresh
    dictionary and from every dictionary whose mode has a priority of at
    most p2.  While the streams are inspected [is_3d] never goes back from
    true, whether the inspection returns or raises. *)
Theorem promote_stereo_mode_priority
    (r : gmap string json) (current mode : string) (mark_mvc : bool) :
  mode <> "" ->
  r !! "stereo_mode" = Some (JStr current) ->
  (priority "none" = 0 /\ priority "tab" = 1 /\ priority "anaglyph" = 1
   /\ priority "sbs" = 2 /\ priority "mvc" = 3)
  /\ (exists r',
        _promote_stereo_mode mode mark_mvc r = (inr tt, r')
        /\ r' !! "stereo_mode" =
             Some (JStr (if priority current <=? priority mode
                         then mode else current))
        /\ r' !! "is_3d" = Some (JBool true))
  /\ (forall later later_mark,
        later <> "" ->
        priority mode <= priority later ->
        priority current <= priority later ->
        exists r1 r2,
          _promote_stereo_mode mode mark_mvc r = (inr tt, r1)
          /\ _promote_stereo_mode later later_mark r1 = (inr tt, r2)
          /\ r2 !! "stereo_mode" = Some (JStr later)
          /\ r2 !! "is_3d" = Some (JBool true))
  /\ (forall later later_mark,
        later <> "" ->
        priority mode <= priority later ->
        exists r1 r2,
          _promote_stereo_mode mode mark_mvc initial_result = (inr tt, r1)
          /\ _promote_stereo_mode later later_mark r1 = (inr tt, r2)
          /\ r2 !! "stereo_mode" = Some (JStr later)
          /\ r2 !! "is_3d" = Some (JBool true))
  /\ (forall data r0,
        r0 !! "is_3d" = Some (JBool true) ->
        (inspect_streams data r0).2 !! "is_3d" = Some (JBool true)).
Proof.
  intros Hne Hcur. split; [vm_compute; by repeat split |]. split_and!.
  - eexists. split; [apply (promote_typed _ _ _ _ Hne Hcur) |].
    destruct (priority current <=? priority mode);
      destruct (mark_mvc || String.eqb mode "mvc"); simpl;
      split; by simplify_map_eq.
  - intros later later_mark Hl H12 Hc2.
    by apply (promote_twice r current).
  - intros later later_mark Hl H12.
    apply (promote_twice _ "none"); try done.
    pose proof (priority_nonneg later). by vm_compute.
  - intros data r0 H0.
    by apply (inspect_streams_sound _ stable_is_3d_true data r0).
Qed.

Lemma promote_stereo_mode_priority_witness :
  exists r',
    _promote_stereo_mode "sbs" false
      (<["stereo_mode" := JStr "tab"]> ∅) = (inr tt, r')
    /\ r' !! "stereo_mode" = Some (JStr "sbs")
    /\ r' !! "is_3d" = Some (JBool true).
Proof.
  destruct (promote_stereo_mode_priority
              (<["stereo_mode" := JStr "tab"]> ∅) "tab" "sbs" false)
    as (_ & H & _).
  - discriminate.
  - reflexivity.
  - exact H.
Defined.

(** ** The resolution override *)

Lemma sound_keeps P {A} (m : M A) r : sound P m -> P r -> P (m r).2.
Proof. intros Hm Hr. apply (Hm r Hr). Qed.

Lemma bind_getitem {B} k (f : json -> M B) r v :
  r !! k = Some v -> bind (getitem k) f r = f v r.
Proof. intros H. unfold bind, getitem. by rewrite H. Qed.

Lemma for_each_reaches P {A} (body : A -> M unit) (l : list A) x r r' :
  (forall y, sound P (body y)) ->
  (forall r0 r1, body x r0 = (inr tt, r1) -> P r1) ->
  x ∈ l -> for_each body l r = (inr tt, r') -> P r'.
Proof.
  intros Hs Hx. revert r.
  induction l as [| y l IH]; intros r Hin Hrun.
  - by apply elem_of_nil in Hin.
  - simpl in Hrun. unfold bind in Hrun.
    destruct (body y r) as [[e | []] r1] eqn:Hy; [discriminate |].
    apply elem_of_cons in Hin as [-> | Hin].
    + pose proof (sound_keeps P (for_each body l) r1
                    (sound_for_each P body l Hs) (Hx _ _ Hy)) as Hk.
      by rewrite Hrun in Hk.
    + by apply (IH r1).
Qed.

Lemma framepacked_size_detected w h :
  (w, h) ∈ framepacked_sizes -> is_framepacked (JInt w) (JInt h) = true.
Proof.
  unfold framepacked_sizes. intros Hin.
  repeat (apply elem_of_cons in Hin as [[= -> ->] | Hin]; [reflexivity |]).
  by apply elem_of_nil in Hin.
Qed.

(** A frame-packed video stream leaves the three entries set, whatever its
    other fields hold and whether or not inspecting them raises. *)
Lemma inspect_framepacked stream r :
  framepacked_video stream -> is_mvc_result (inspect_stream stream r).2.
Proof.
  intros (kvs & w & h & -> & Hct & Hw & Hh & Hsz).
  unfold inspect_stream. simpl Py.get. rewrite Hct, Hw, Hh. simpl default.
  rewrite bind_lift_inr.
  change (Py.eq_str (JStr "video") "video") with true. cbn [when].
  rewrite bind_lift_inr, bind_setitem, bind_lift_inr, bind_setitem.
  rewrite (bind_getitem "width" _ _ (JInt w)) by (by simplify_map_eq).
  rewrite (bind_getitem "height" _ _ (JInt h)) by (by simplify_map_eq).
  rewrite (framepacked_size_detected w h Hsz). cbn [when negb].
  unfold bind at 1. unfold bind at 1. unfold bind at 1. unfold setitem at 1 2 3.
  apply sound_keeps.
  - apply inspect_video_stream_sound, stable_is_mvc_result.
  - unfold is_mvc_result. split_and!; by simplify_map_eq.
Qed.

Lemma stable_True : stable (fun _ => True).
Proof. by split. Qed.

Lemma try_block_probe W file_path data :
  probe_returns W file_path data ->
  try_block W file_path = inspect_streams data.
Proof.
  intros (path & out & err & Hres & Hpath & Hrt & Hrun & Hjson).
  unfold try_block. rewrite Hres. simpl option_truthy.
  destruct (String.eqb_spec path ""); [contradiction |]. simpl negb.
  cbv iota. rewrite Hrt. simpl default.
  unfold run_checked. rewrite Hrun. simpl (0 =? 0). cbv iota.
  rewrite bind_lift_inr, Hjson, bind_lift_inr. reflexivity.
Qed.

Lemma analyze_file_probe W file_path data :
  probe_returns W file_path data ->
  Video3DAnalyzer.analyze_file W file_path =
    match inspect_streams data initial_result with
    | (inr _, r) => inr r
    | (inl e, _) => inl e
    end.
Proof.
  intros Hp. unfold Video3DAnalyzer.analyze_file.
  rewrite (try_block_probe _ _ _ Hp).
  destruct (inspect_streams_sound _ stable_True data initial_result I)
    as [_ He].
  destruct (inspect_streams data initial_result) as [[e | []] r];
    [| reflexivity].
  specialize (He e eq_refl). by destruct e.
Qed.

Lemma inspect_streams_reaches data streams stream r0 r :
  has_streams data streams -> stream ∈ streams ->
  framepacked_video stream ->
  inspect_streams data r0 = (inr tt, r) -> is_mvc_result r.
Proof.
  intros (kvs & -> & Hss) Hin Hfp. unfold inspect_streams.
  simpl Py.get. rewrite Hss. simpl default.
  rewrite bind_lift_inr. simpl Py.iter. rewrite !bind_lift_inr.
  unfold bind at 1.
  destruct (for_each inspect_stream streams r0) as [[e | []] r1] eqn:Hloop;
    [discriminate |].
  intros Hrest.
  assert (H1 : is_mvc_result r1).
  { apply (for_each_reaches is_mvc_result inspect_stream streams stream r0);
      try done.
    - intros y. apply inspect_stream_sound, stable_is_mvc_result.
    - intros ra rb Hab. pose proof (inspect_framepacked stream ra Hfp) as Hk.
      by rewrite Hab in Hk. }
  match type of Hrest with
  | ?m r1 = _ =>
      assert (Hs : sound is_mvc_result m)
  end.
  { repeat first [ apply find_mvc_stream_sound, stable_is_mvc_result
                 | sound_step is_mvc_result stable_is_mvc_result ]. }
  pose proof (sound_keeps _ _ r1 Hs H1) as Hk. by rewrite Hrest in Hk.
Qed.

(** *** Well-formed output is inspected without an exception *)

Lemma total_ret P {A} (a : A) : total P (ret a) any_value.
Proof. intros r Hr. exists a, r. split_and!; [done | exact I | done]. Qed.

Lemma total_bind P {A B} (m : M A) (f : A -> M B) Q :
  total P m any_value -> (forall a, total P (f a) Q) -> total P (bind m f) Q.
Proof.
  intros Hm Hf r Hr. destruct (Hm r Hr) as (a & r1 & E & _ & H1).
  unfold bind. rewrite E. by apply Hf.
Qed.

Lemma total_lift P {A} (x : res A) :
  (exists a, x = inr a) -> total P (lift x) any_value.
Proof.
  intros [a ->] r Hr. exists a, r. split_and!; [done | exact I | done].
Qed.

Lemma total_when P (c : bool) (body : M unit) :
  total P body any_value -> total P (when c body) any_value.
Proof. destruct c; [auto | intros _; apply total_ret]. Qed.

Lemma total_for_each P {A} (body : A -> M unit) (l : list A) :
  (forall x, In x l -> total P (body x) any_value) ->
  total P (for_each body l) any_value.
Proof.
  induction l as [| x l IH]; intros Hb; simpl.
  - apply total_ret.
  - apply total_bind; [apply Hb; by left |].
    intros _. apply IH. intros y Hy. apply Hb. by right.
Qed.

Lemma total_setitem (P : gmap string json -> Prop) k v :
  (forall r, P r -> P (<[k := v]> r)) -> total P (setitem k v) any_value.
Proof.
  intros H r Hr. exists tt, (<[k := v]> r). split_and!; [done | exact I | auto].
Qed.

Lemma total_getitem (P : gmap string json -> Prop) k :
  (forall r, P r -> is_Some (r !! k)) -> total P (getitem k) any_value.
Proof.
  intros H r Hr. destruct (H r Hr) as [v Hv]. exists v, r.
  unfold getitem. rewrite Hv. split_and!; [done | exact I | done].
Qed.

Lemma well_typed_has k r :
  well_typed r -> k ∈ result_keys -> is_Some (r !! k).
Proof. intros [Hd _] Hk. apply elem_of_dom. by rewrite Hd. Qed.

Lemma total_promote mode mark :
  total well_typed (_promote_stereo_mode mode mark) any_value.
Proof.
  intros r Hr.
  pose proof (stable_promote _ stable_well_typed mode mark r Hr) as Hk.
  destruct (String.eqb_spec mode "") as [-> | Hne].
  - exists tt, r. split_and!; [done | exact I | done].
  - destruct Hr as [_ [current Hcur]].
    rewrite (promote_typed mode mark r current Hne Hcur) in *.
    eexists tt, _. split_and!; [done | exact I | done].
Qed.

Lemma or_text a b :
  text_or_empty a = true -> (exists s, b = JStr s) ->
  exists s, Py.or a b = JStr s.
Proof.
  intros Ha [s ->]. unfold Py.or.
  destruct (Py.truthy a) eqn:Ht; [| by exists s].
  destruct a; simpl in Ha, Ht; try discriminate;
    try (by rewrite Ht in Ha); by eexists.
Qed.

Lemma lower_text a :
  text_or_empty a = true -> exists s, Py.lower (Py.or a (JStr "")) = inr s.
Proof.
  intros Ha. destruct (or_text a (JStr "") Ha) as [s ->]; by eexists.
Qed.

Lemma classify_text v :
  text_or_empty v = true -> exists c, _classify_stereo_mode v = inr c.
Proof.
  intros Hv. unfold _classify_stereo_mode.
  destruct (Py.truthy v) eqn:Ht; simpl; [| by eexists].
  destruct v; simpl in Hv, Ht; try discriminate;
    try (by rewrite Ht in Hv); by eexists.
Qed.

Lemma text_of_str s : text_or_empty (JStr s) = true.
Proof. reflexivity. Qed.

Ltac total_typed_set :=
  apply total_setitem; intros ? ?;
  first [ apply (stable_width _ stable_well_typed)
        | apply (stable_height _ stable_well_typed)
        | apply (stable_is_3d _ stable_well_typed)
        | apply (stable_has_mvc _ stable_well_typed)
        | apply (stable_mvc _ stable_well_typed) ]; assumption.

Lemma total_classified (classified : option string) :
  total well_typed
    (match classified with
     | Some c => _promote_stereo_mode c false
     | None => ret tt
     end) any_value.
Proof. destruct classified; [apply total_promote | apply total_ret]. Qed.

Lemma inspect_side_data_total side_data :
  wf_side_data side_data = true ->
  total well_typed (inspect_side_data side_data) any_value.
Proof.
  destruct side_data as [| | | | | | | kvs]; try discriminate.
  simpl. rewrite !andb_true_r, !andb_true_iff.
  intros (Ht & Hsdt & Hsm & Hl & Hv).
  unfold inspect_side_data. simpl Py.get. rewrite !bind_lift_inr.
  fold (field kvs "type") (field kvs "side_data_type").
  destruct (or_text (field kvs "side_data_type") (JStr "") Hsdt
              (ex_intro _ _ eq_refl)) as [s1 E1].
  destruct (or_text (field kvs "type")
              (Py.or (field kvs "side_data_type") (JStr "")) Ht
              (ex_intro _ _ E1)) as [s2 E2].
  rewrite E2. simpl Py.lower. rewrite bind_lift_inr.
  apply total_when. unfold detected_mode. simpl Py.get. simpl res_bind.
  rewrite bind_lift_inr.
  fold (field kvs "stereo_mode") (field kvs "type") (field kvs "layout")
    (field kvs "view").
  destruct (or_text (field kvs "view") (JStr "") Hv (ex_intro _ _ eq_refl))
    as [d1 D1].
  destruct (or_text (field kvs "layout") _ Hl (ex_intro _ _ D1)) as [d2 D2].
  destruct (or_text (field kvs "type") _ Ht (ex_intro _ _ D2)) as [d3 D3].
  destruct (or_text (field kvs "stereo_mode") _ Hsm (ex_intro _ _ D3))
    as [d4 D4].
  rewrite D4.
  destruct (classify_text (JStr d4) (text_of_str d4)) as [c ->].
  rewrite bind_lift_inr.
  destruct c as [c |]; [| apply total_ret].
  destruct (String.eqb c "mvc"); apply total_promote.
Qed.

Lemma inspect_tag_total kv :
  text_or_empty (snd kv) = true ->
  total well_typed (inspect_tag kv) any_value.
Proof.
  destruct kv as [key value]. simpl. intros Hv. apply total_when.
  destruct (classify_text value Hv) as [c ->]. rewrite bind_lift_inr.
  apply total_classified.
Qed.

Lemma inspect_stream_total stream :
  wf_stream stream = true ->
  total well_typed (inspect_stream stream) any_value.
Proof.
  destruct stream as [| | | | | | | kvs]; try discriminate.
  simpl. rewrite !andb_true_iff. intros [[[Hcn Hpf] Hsd] Htags].
  unfold inspect_stream. simpl Py.get. rewrite bind_lift_inr.
  apply total_when. rewrite bind_lift_inr.
  apply total_bind; [total_typed_set | intros _]. rewrite bind_lift_inr.
  apply total_bind; [total_typed_set | intros _].
  apply total_bind.
  { apply total_getitem. intros r Hr. apply well_typed_has; [done |].
    unfold result_keys. set_solver. }
  intros width. apply total_bind.
  { apply total_getitem. intros r Hr. apply well_typed_has; [done |].
    unfold result_keys. set_solver. }
  intros height. apply total_bind.
  { apply total_when. repeat (apply total_bind; [total_typed_set | intros _]).
    total_typed_set. }
  intros _. unfold inspect_video_stream. simpl Py.get.
  rewrite bind_lift_inr. fold (field kvs "codec_name").
  destruct (lower_text _ Hcn) as [codec_name ->]. rewrite bind_lift_inr.
  rewrite bind_lift_inr. fold (field kvs "profile").
  destruct (lower_text _ Hpf) as [profile ->]. rewrite bind_lift_inr.
  apply total_bind; [apply total_when, total_promote | intros _].
  rewrite bind_lift_inr.
  apply total_bind.
  { destruct (Py.or _ (JObj [])); simpl;
      first [ apply total_ret | apply total_lift; by eexists ]. }
  intros dependent.
  apply total_bind; [apply total_when, total_promote | intros _].
  apply total_when. rewrite bind_lift_inr.
  destruct (default (JArr []) (Py.assoc "side_data_list" kvs))
    as [| | | | | | entries |]; try discriminate.
  simpl Py.iter. rewrite bind_lift_inr.
  apply total_bind.
  { apply total_for_each. intros sd Hin. apply inspect_side_data_total.
    by apply (proj1 (forallb_forall _ _) Hsd). }
  intros _. rewrite bind_lift_inr. fold (field kvs "tags").
  unfold wf_tags in Htags. unfold Py.or.
  destruct (field kvs "tags") as [| | | | | | | tags] eqn:Etags;
    try (apply negb_true_iff in Htags; rewrite Htags);
    simpl Py.items; rewrite ?bind_lift_inr;
    try (apply total_for_each; intros ? []).
  destruct tags as [| kv0 tags]; simpl Py.items; rewrite bind_lift_inr.
  - apply total_for_each; intros ? [].
  - apply total_for_each. intros kv Hin. apply inspect_tag_total.
    by apply (proj1 (forallb_forall _ _) Htags).
Qed.

Lemma find_mvc_stream_total streams :
  forallb wf_stream streams = true ->
  total well_typed (find_mvc_stream streams) any_value.
Proof.
  induction streams as [| stream rest IH]; simpl.
  - intros _. apply total_ret.
  - rewrite andb_true_iff. intros [Hs Hrest].
    destruct stream as [| | | | | | | kvs]; try discriminate.
    simpl Py.get. rewrite bind_lift_inr.
    destruct (Py.eq_str _ "mvc"); [| by apply IH].
    repeat (apply total_bind; [total_typed_set | intros _]).
    total_typed_set.
Qed.

Lemma inspect_streams_total data :
  wf_probe data = true -> total well_typed (inspect_streams data) any_value.
Proof.
  destruct data as [| | | | | | | kvs]; try discriminate. simpl.
  destruct (default (JArr []) (Py.assoc "streams" kvs))
    as [| | | | | | streams |] eqn:Hss; try discriminate.
  intros Hwf. unfold inspect_streams. simpl Py.get. rewrite Hss.
  rewrite bind_lift_inr. simpl Py.iter. rewrite !bind_lift_inr.
  apply total_bind.
  { apply total_for_each. intros stream Hin. apply inspect_stream_total.
    by apply (proj1 (forallb_forall _ _) Hwf). }
  intros _. apply total_bind.
  { apply total_getitem. intros r Hr. apply well_typed_has; [done |].
    unfold result_keys. set_solver. }
  intros has_mvc. apply total_when. by apply find_mvc_stream_total.
Qed.

Lemma initial_result_dom : dom initial_result = result_keys.
Proof. reflexivity. Qed.

Lemma initial_result_well_typed : well_typed initial_result.
Proof. split; [exact initial_result_dom | by exists "none"]. Qed.

(** C1 — Resolution override.  When the probe returns metadata [data]
    whose streams contain a video stream of size 1920x2205, 1920x2160 or
    3840x4320, every result that [Video3DAnalyzer.analyze_file] returns
    has [is_3d] true, [stereo_mode] 'mvc' and [has_mvc_track] true,
    whatever the tags and side data of any stream hold; and when [data]
    has the shape of the probe's output, [Video3DAnalyzer.analyze_file]
    does return such a result. *)
Theorem resolution_override_is_absolute
    (W : World) (file_path : string) (data : json)
    (streams : list json) (stream : json) :
  probe_returns W file_path data ->
  has_streams data streams ->
  stream ∈ streams ->
  framepacked_video stream ->
  (forall r,
     Video3DAnalyzer.analyze_file W file_path = inr r -> is_mvc_result r)
  /\ (wf_probe data = true ->
      exists r,
        Video3DAnalyzer.analyze_file W file_path = inr r
        /\ is_mvc_result r).
Proof.
  intros Hp Hs Hin Hfp.
  assert (Hpart : forall r,
            Video3DAnalyzer.analyze_file W file_path = inr r ->
            is_mvc_result r).
  { intros r. rewrite (analyze_file_probe _ _ _ Hp).
    destruct (inspect_streams data initial_result) as [[e | []] r1] eqn:E;
      [discriminate |].
    intros [= <-]. by apply (inspect_streams_reaches data streams stream _ _
                               Hs Hin Hfp E). }
  split; [exact Hpart |]. intros Hwf.
  destruct (inspect_streams_total data Hwf initial_result
              initial_result_well_typed) as ([] & r & E & _ & _).
  exists r. assert (Hr : Video3DAnalyzer.analyze_file W file_path = inr r).
  { by rewrite (analyze_file_probe _ _ _ Hp), E. }
  split; [exact Hr | by apply Hpart].
Qed.

Lemma resolution_override_is_absolute_witness :
  exists r,
    Video3DAnalyzer.analyze_file (world_with_output framepacked_probe)
      "movie.mkv" = inr r
    /\ is_mvc_result r.
Proof.
  apply (resolution_override_is_absolute
           (world_with_output framepacked_probe) "movie.mkv"
           framepacked_probe
           [tagged_stream 1920 2205 stereo3d_entry_by_side_data_type;
            JObj [("codec_type", JStr "video"); ("width", JInt 1280);
                  ("height", JInt 720);
                  ("tags", JObj [("stereo_mode", JStr "side_by_side")])]]
           (tagged_stream 1920 2205 stereo3d_entry_by_side_data_type)).
  - exists "/usr/bin/ffprobe", "{...}", "". by vm_compute.
  - by eexists.
  - by left.
  - exists [("codec_type", JStr "video"); ("width", JInt 1920);
            ("height", JInt 2205);
            ("tags", JObj [("STEREO_MODE", JStr "top_bottom")]);
            ("side_data_list", JArr [stereo3d_entry_by_side_data_type])],
      1920, 2205.
    split_and!; try reflexivity. by left.
  - reflexivity.
Defined.

(** ** Side data and tags *)

Lemma bind_assoc {A B C} (m : M A) (f : A -> M B) (g : B -> M C) r :
  bind (bind m f) g r = bind m (fun a => bind (f a) g) r.
Proof. unfold bind. by destruct (m r) as [[e | a] r']. Qed.

(** A video stream whose size is not frame-packed: its size is recorded,
    and the rest of it is inspected. *)
Lemma inspect_stream_not_framepacked kvs w h r :
  Py.assoc "codec_type" kvs = Some (JStr "video") ->
  Py.assoc "width" kvs = Some (JInt w) ->
  Py.assoc "height" kvs = Some (JInt h) ->
  is_framepacked (JInt w) (JInt h) = false ->
  inspect_stream (JObj kvs) r =
    inspect_video_stream (JObj kvs) false
      (<["height" := JInt h]> (<["width" := JInt w]> r)).
Proof.
  intros Hct Hw Hh Hfp.
  unfold inspect_stream. simpl Py.get. rewrite Hct, Hw, Hh. simpl default.
  rewrite bind_lift_inr.
  change (Py.eq_str (JStr "video") "video") with true. cbn [when].
  rewrite bind_lift_inr, bind_setitem, bind_lift_inr, bind_setitem.
  rewrite (bind_getitem "width" _ _ (JInt w)) by (by simplify_map_eq).
  rewrite (bind_getitem "height" _ _ (JInt h)) by (by simplify_map_eq).
  rewrite Hfp. reflexivity.
Qed.

Lemma inspect_single_stream stream r :
  inspect_streams (probe_of [stream]) r =
    (inspect_stream stream ;;;
     let* has_mvc := getitem "has_mvc_track" in
     when (negb (Py.truthy has_mvc)) (find_mvc_stream [stream])) r.
Proof.
  unfold inspect_streams, probe_of. simpl Py.get. rewrite bind_lift_inr.
  simpl Py.iter. rewrite !bind_lift_inr. simpl for_each.
  rewrite bind_assoc. reflexivity.
Qed.

Lemma tagged_stream_inspected w h side_data r :
  is_framepacked (JInt w) (JInt h) = false ->
  inspect_streams (probe_of [tagged_stream w h side_data]) r =
    (inspect_video_stream (tagged_stream w h side_data) false ;;;
     let* has_mvc := getitem "has_mvc_track" in
     when (negb (Py.truthy has_mvc))
       (find_mvc_stream [tagged_stream w h side_data]))
      (<["height" := JInt h]> (<["width" := JInt w]> r)).
Proof.
  intros Hfp. rewrite inspect_single_stream. unfold bind at 1.
  unfold tagged_stream at 1.
  rewrite (inspect_stream_not_framepacked _ w h) by done.
  reflexivity.
Qed.

Lemma detected_mode_order kvs :
  detected_mode (JObj kvs) =
    inr (first_truthy
           [field kvs "stereo_mode"; field kvs "type"; field kvs "layout";
            field kvs "view"] (JStr "")).
Proof. reflexivity. Qed.

(** C3, as stated, fails: for the stream with the tag
    [STEREO_MODE = top_bottom] and the side-data entry
    [{type: 'Stereo3D', layout: 'side_by_side'}], the mode that
    [Video3DAnalyzer.analyze_file] returns is 'tab', not 'sbs'. *)
Lemma stereo3d_entry_not_sbs :
  entry "stereo_mode"
    (Video3DAnalyzer.analyze_file
       (world_with_output (probe_of [tagged_stream 1920 1080 stereo3d_entry]))
       "movie.mkv") = Some (JStr "tab")
  /\ ~ (exists r,
          Video3DAnalyzer.analyze_file
            (world_with_output
               (probe_of [tagged_stream 1920 1080 stereo3d_entry]))
            "movie.mkv" = inr r
          /\ r !! "stereo_mode" = Some (JStr "sbs")).
Proof.
  assert (Hmode :
    entry "stereo_mode"
      (Video3DAnalyzer.analyze_file
         (world_with_output
            (probe_of [tagged_stream 1920 1080 stereo3d_entry]))
         "movie.mkv") = Some (JStr "tab")) by reflexivity.
  split; [exact Hmode |].
  intros (r & Hr & Hsbs). rewrite Hr in Hmode. simpl in Hmode. congruence.
Qed.

(** A returned dictionary is known by its entries. *)
Lemma returned_entries x k1 v1 k2 v2 k3 v3 :
  entry k1 x = Some v1 -> entry k2 x = Some v2 -> entry k3 x = Some v3 ->
  exists r,
    x = inr r /\ r !! k1 = Some v1 /\ r !! k2 = Some v2 /\ r !! k3 = Some v3.
Proof. destruct x as [e | r]; simpl; [discriminate | eauto]. Qed.

(** C3, amended.  For a video stream whose size is not frame-packed, with
    the tag [STEREO_MODE = top_bottom] and the side-data entry
    [{type: 'Stereo3D', layout: 'side_by_side'}],
    [Video3DAnalyzer.analyze_file] returns [stereo_mode] 'tab': the mode
    string of a side-data entry is the first non-empty of [stereo_mode],
    [type], [layout], [view], here 'Stereo3D', which names no mode, so
    that only the tag promotes.  When the entry carries its kind under
    [side_data_type] instead, its mode string is the layout, and the
    result is 'sbs': priority 2 beats the tag's priority 1. *)
Theorem typed_side_data_entry_yields_tab
    (W : World) (file_path : string) (w h : Z) (side_data : json) :
  probe_returns W file_path (probe_of [tagged_stream w h side_data]) ->
  is_framepacked (JInt w) (JInt h) = false ->
  (forall kvs,
     detected_mode (JObj kvs) =
       inr (first_truthy
              [field kvs "stereo_mode"; field kvs "type";
               field kvs "layout"; field kvs "view"] (JStr "")))
  /\ (side_data = stereo3d_entry ->
      detected_mode side_data = inr (JStr "Stereo3D")
      /\ _classify_stereo_mode (JStr "Stereo3D") = inr None
      /\ exists r,
           Video3DAnalyzer.analyze_file W file_path = inr r
           /\ r !! "stereo_mode" = Some (JStr "tab")
           /\ r !! "is_3d" = Some (JBool true)
           /\ r !! "has_mvc_track" = Some (JBool false))
  /\ (side_data = stereo3d_entry_by_side_data_type ->
      detected_mode side_data = inr (JStr "side_by_side")
      /\ exists r,
           Video3DAnalyzer.analyze_file W file_path = inr r
           /\ r !! "stereo_mode" = Some (JStr "sbs")
           /\ r !! "is_3d" = Some (JBool true)
           /\ r !! "has_mvc_track" = Some (JBool false)).
Proof.
  intros Hp Hfp. split; [exact detected_mode_order |].
  rewrite (analyze_file_probe _ _ _ Hp).
  rewrite (tagged_stream_inspected _ _ _ _ Hfp).
  split; intros ->; (split; [reflexivity |]); try (split; [reflexivity |]);
    apply returned_entries; reflexivity.
Qed.

Lemma typed_side_data_entry_yields_tab_witness :
  exists r,
    Video3DAnalyzer.analyze_file
      (world_with_output (probe_of [tagged_stream 1920 1080 stereo3d_entry]))
      "movie.mkv" = inr r
    /\ r !! "stereo_mode" = Some (JStr "tab")
    /\ r !! "is_3d" = Some (JBool true)
    /\ r !! "has_mvc_track" = Some (JBool false).
Proof.
  destruct (typed_side_data_entry_yields_tab
              (world_with_output
                 (probe_of [tagged_stream 1920 1080 stereo3d_entry]))
              "movie.mkv" 1920 1080 stereo3d_entry)
    as (_ & H & _).
  - exists "/usr/bin/ffprobe", "{...}", "". by vm_compute.
  - reflexivity.
  - exact (proj2 (proj2 (H eq_refl))).
Defined.

(** Further runs of the classifier. *)

Example stereo_profile_is_mvc :
  entry "stereo_mode"
    (Video3DAnalyzer.analyze_file
       (world_with_output
          (probe_of [JObj [("codec_type", JStr "video");
                           ("codec_name", JStr "h264");
                           ("profile", JStr "High 10 Stereo High")]]))
       "movie.mkv") = Some (JStr "mvc").
Proof. reflexivity. Qed.

Example separate_mvc_stream_is_found :
  entry "has_mvc_track"
    (Video3DAnalyzer.analyze_file
       (world_with_output
          (probe_of [JObj [("codec_type", JStr "video");
                           ("codec_name", JStr "h264");
                           ("profile", JStr "High")];
                     JObj [("codec_type", JStr "data");
                           ("codec_name", JStr "mvc")]]))
       "movie.mkv") = Some (JBool true).
Proof. reflexivity. Qed.

Example later_tag_of_equal_priority_wins :
  entry "stereo_mode"
    (Video3DAnalyzer.analyze_file
       (world_with_output
          (probe_of [JObj [("codec_type", JStr "video");
                           ("tags",
                            JObj [("stereo_mode", JStr "top_bottom");
                                  ("STEREO_HINT", JStr "anaglyph_cyan_red")])]]))
       "movie.mkv") = Some (JStr "anaglyph").
Proof. reflexivity. Qed.

Example name_with_sbs_is_sbs :
  entry "stereo_mode"
    (Video3DAnalyzer.analyze_file world_without_tools "movie_3d_sbs.mkv")
  = Some (JStr "sbs").
Proof. reflexivity. Qed.

(** ** Failures of the probe and the filename heuristic *)

(** The [try] block raises before the streams are inspected, with the
    fresh dictionary or with the runtime diagnostic recorded, or goes on to
    inspect the parsed output. *)
Lemma try_block_cases W file_path :
  (option_truthy (_resolve_external_tool W "ffprobe") = false
   /\ try_block W file_path initial_result
      = (inl (FileNotFoundError ffprobe_not_found), initial_result))
  \/ (exists issue,
        try_block W file_path initial_result
        = (inl (FileNotFoundError issue),
           <["analysis_error" := JStr issue]> initial_result))
  \/ (exists e,
        try_block W file_path initial_result = (inl e, initial_result))
  \/ (exists data, try_block W file_path = inspect_streams data).
Proof.
  unfold try_block.
  destruct (option_truthy (_resolve_external_tool W "ffprobe")) eqn:Hres;
    simpl negb; cbv iota; [| by left].
  right.
  destruct (_check_ffmpeg_runtime W (_resolve_external_tool W "ffprobe"))
    as [issue |]; [left; by exists issue |].
  right. destruct (run_checked W _) as [e | stdout]; [left; by exists e |].
  rewrite bind_lift_inr.
  destruct (json_loads W _) as [e | data]; [left; by exists e |].
  right. exists data. by rewrite bind_lift_inr.
Qed.

(** When the [try] block raises an exception that is caught, the mode is
    still 'none' and nothing but the diagnostic has been written. *)
Lemma try_block_caught W file_path e r :
  try_block W file_path initial_result = (inl e, r) -> caught e ->
  r = initial_result
  \/ exists issue, r = <["analysis_error" := JStr issue]> initial_result.
Proof.
  intros Hrun Hc.
  destruct (try_block_cases W file_path)
    as [[_ H] | [[issue H] | [[e' H] | [data H]]]].
  - left. congruence.
  - right. exists issue. congruence.
  - left. congruence.
  - rewrite H in Hrun.
    destruct (inspect_streams_sound _ stable_True data initial_result I)
      as [_ He].
    rewrite Hrun in He. specialize (He e eq_refl). by destruct e.
Qed.

(** The heuristic leaves the dictionary as it is or reports 'sbs': its
    second branch is never taken. *)
Lemma guess_from_name_cases W file_path r :
  let filename := PyStr.lower (path_basename W file_path) in
  guess_from_name W file_path r =
    (inr tt,
     if PyStr.contains "3d" filename || PyStr.contains "sbs" filename
        || PyStr.contains "hsbs" filename
     then <["stereo_mode" := JStr "sbs"]> (<["is_3d" := JBool true]> r)
     else r).
Proof.
  intros filename. unfold guess_from_name. fold filename.
  destruct (PyStr.contains "3d" filename); simpl; [reflexivity |].
  destruct (PyStr.contains "sbs" filename || PyStr.contains "hsbs" filename);
    reflexivity.
Qed.

(** What [Video3DAnalyzer.analyze_file] returns when the [try] block
    raises an exception that is caught. *)
Lemma analyze_file_caught W file_path e r :
  try_block W file_path initial_result = (inl e, r) -> caught e ->
  Video3DAnalyzer.analyze_file W file_path =
    inr (guess_from_name W file_path
           (<["analysis_error" := JStr (diagnostic_of e)]> r)).2.
Proof.
  intros Hrun Hc. unfold Video3DAnalyzer.analyze_file. rewrite Hrun.
  destruct e; try contradiction.
  - unfold on_decode_or_not_found. rewrite bind_setitem.
    rewrite !guess_from_name_cases. reflexivity.
  - unfold on_decode_or_not_found. rewrite bind_setitem.
    rewrite !guess_from_name_cases. reflexivity.
  - unfold on_called_process_error, diagnostic_of.
    destruct (_describe_windows_returncode returncode);
      rewrite bind_setitem; rewrite !guess_from_name_cases; reflexivity.
Qed.

Lemma caught_mode_none r :
  r = initial_result
  \/ (exists issue, r = <["analysis_error" := JStr issue]> initial_result) ->
  r !! "stereo_mode" = Some (JStr "none")
  /\ r !! "is_3d" = Some (JBool false)
  /\ dom r = result_keys.
Proof.
  intros [-> | [issue ->]]; [by split_and! |].
  split_and!; [reflexivity | reflexivity |].
  rewrite dom_insert_present; [reflexivity |].
  apply elem_of_dom. by eexists.
Qed.

(** C10 — When probing fails, [Video3DAnalyzer.analyze_file] returns, and
    the mode of its result is 'sbs' or the default 'none', never 'tab':
    the heuristic either leaves the dictionary as it is or writes 'sbs',
    since a name that passes the test of the 'tab' branch, which asks for
    '3d', has already passed the test of the first branch. *)
Theorem filename_fallback_never_tab (W : World) (file_path : string) :
  probing_fails W file_path ->
  (exists r,
     Video3DAnalyzer.analyze_file W file_path = inr r
     /\ (r !! "stereo_mode" = Some (JStr "sbs")
         \/ r !! "stereo_mode" = Some (JStr "none"))
     /\ r !! "stereo_mode" <> Some (JStr "tab"))
  /\ (forall r0,
        guess_from_name W file_path r0 = (inr tt, r0)
        \/ guess_from_name W file_path r0
           = (inr tt,
              <["stereo_mode" := JStr "sbs"]> (<["is_3d" := JBool true]> r0)))
  /\ (forall filename,
        PyStr.contains "3d" filename
        && (PyStr.contains "tab" filename || PyStr.contains "htab" filename)
        = true ->
        PyStr.contains "3d" filename || PyStr.contains "sbs" filename
        || PyStr.contains "hsbs" filename = true).
Proof.
  intros (e & r1 & Hrun & Hc). split_and!.
  - rewrite (analyze_file_caught W file_path e r1 Hrun Hc).
    destruct (caught_mode_none r1 (try_block_caught _ _ _ _ Hrun Hc))
      as (Hmode & _ & _).
    eexists. split; [reflexivity |].
    rewrite guess_from_name_cases. simpl.
    destruct (_ || _ || _); simplify_map_eq; split; auto; discriminate.
  - intros r0. rewrite guess_from_name_cases. simpl.
    destruct (_ || _ || _); auto.
  - intros filename H. apply andb_true_iff in H as [-> _]. reflexivity.
Qed.

Lemma filename_fallback_never_tab_witness :
  exists r,
    Video3DAnalyzer.analyze_file world_without_tools "movie_3d_tab.mkv" = inr r
    /\ (r !! "stereo_mode" = Some (JStr "sbs")
        \/ r !! "stereo_mode" = Some (JStr "none"))
    /\ r !! "stereo_mode" <> Some (JStr "tab").
Proof.
  apply (filename_fallback_never_tab world_without_tools "movie_3d_tab.mkv").
  exists (FileNotFoundError ffprobe_not_found), initial_result.
  split; [reflexivity | exact I].
Defined.

(** C4 — evaluation at the failing input.  When probing fails for a file
    whose base name is [movie_3d_tab.mkv], [Video3DAnalyzer.analyze_file]
    reports 'sbs', not 'tab': the name contains '3d', which the first test
    of the heuristic accepts. *)
Theorem filename_3d_tab_is_reported_sbs (W : World) (file_path : string) :
  probing_fails W file_path ->
  path_basename W file_path = "movie_3d_tab.mkv" ->
  exists r,
    Video3DAnalyzer.analyze_file W file_path = inr r
    /\ r !! "is_3d" = Some (JBool true)
    /\ r !! "stereo_mode" = Some (JStr "sbs")
    /\ r !! "stereo_mode" <> Some (JStr "tab").
Proof.
  intros (e & r1 & Hrun & Hc) Hname.
  rewrite (analyze_file_caught W file_path e r1 Hrun Hc).
  eexists. split; [reflexivity |].
  rewrite guess_from_name_cases, Hname. simpl.
  split_and!; by simplify_map_eq.
Qed.

Lemma filename_3d_tab_is_reported_sbs_witness :
  exists r,
    Video3DAnalyzer.analyze_file world_without_tools "movie_3d_tab.mkv" = inr r
    /\ r !! "is_3d" = Some (JBool true)
    /\ r !! "stereo_mode" = Some (JStr "sbs")
    /\ r !! "stereo_mode" <> Some (JStr "tab").
Proof.
  apply (filename_3d_tab_is_reported_sbs world_without_tools
           "movie_3d_tab.mkv").
  - exists (FileNotFoundError ffprobe_not_found), initial_result.
    split; [reflexivity | exact I].
  - reflexivity.
Defined.

(** ** What leaves [Video3DAnalyzer.analyze_file] *)

Lemma analyze_file_uncaught W file_path e r :
  try_block W file_path initial_result = (inl e, r) -> uncaught e ->
  Video3DAnalyzer.analyze_file W file_path = inl e.
Proof.
  intros Hrun Hu. unfold Video3DAnalyzer.analyze_file. rewrite Hrun.
  by destruct e.
Qed.

Lemma caught_or_uncaught e : caught e \/ uncaught e.
Proof. destruct e; simpl; auto. Qed.

Lemma dom_guess W file_path r v :
  dom r = result_keys ->
  dom (guess_from_name W file_path (<["analysis_error" := v]> r)).2
  = result_keys.
Proof.
  intros Hd. rewrite guess_from_name_cases. simpl.
  destruct (_ || _ || _);
    rewrite ?dom_insert_present; try done;
    rewrite ?dom_insert_present; try done;
    rewrite ?dom_insert_present; try done;
    rewrite Hd; unfold result_keys; set_solver.
Qed.

Lemma check_runtime_nonempty W path issue :
  _check_ffmpeg_runtime W path = Some issue -> issue <> "".
Proof.
  unfold _check_ffmpeg_runtime.
  destruct (negb (win32 W) || negb (option_truthy path)); [discriminate |].
  destruct (List.filter _ _); [discriminate |]. by intros [= <-].
Qed.

Lemma describe_returncode_nonempty returncode hint :
  _describe_windows_returncode returncode = Some hint -> hint <> "".
Proof.
  unfold _describe_windows_returncode.
  destruct (_ || _); [by intros [= <-] |].
  destruct (_ || _); [by intros [= <-] | discriminate].
Qed.

(** Each failure of the probe makes the [try] block raise an exception
    that is caught, and fixes the diagnostic. *)
Lemma probe_failure_raises W file_path msg :
  probe_failure W file_path msg ->
  exists e r,
    try_block W file_path initial_result = (inl e, r)
    /\ caught e /\ diagnostic_of e = msg.
Proof.
  assert (Htruthy : forall path, path <> "" ->
            option_truthy (Some path) = true).
  { intros path Hne. simpl. by destruct (String.eqb_spec path ""). }
  unfold try_block.
  intros [Hres | path issue Hres Hne Hrt | path m Hres Hne Hrt Hrun
          | path rc out err Hres Hne Hrt Hrun Hrc
          | path out err m Hres Hne Hrt Hrun Hjson].
  - rewrite Hres. simpl. by eexists _, _.
  - rewrite Hres, (Htruthy _ Hne), Hrt. simpl. by eexists _, _.
  - rewrite Hres, (Htruthy _ Hne), Hrt. simpl.
    unfold run_checked. rewrite Hrun. by eexists _, _.
  - rewrite Hres, (Htruthy _ Hne), Hrt. simpl.
    unfold run_checked. rewrite Hrun.
    destruct (Z.eqb_spec rc 0); [contradiction |]. by eexists _, _.
  - rewrite Hres, (Htruthy _ Hne), Hrt. simpl.
    unfold run_checked. rewrite Hrun. simpl (0 =? 0). cbv iota.
    rewrite bind_lift_inr, Hjson. by eexists _, _.
Qed.

Lemma probe_failure_nonempty W file_path msg :
  probe_failure W file_path msg -> library_messages_nonempty W -> msg <> "".
Proof.
  intros Hf (Hcpe & Hrun & Hjson). destruct Hf.
  - discriminate.
  - by eapply check_runtime_nonempty.
  - by eapply Hrun.
  - unfold exit_diagnostic, diagnostic_of.
    destruct (_describe_windows_returncode returncode) eqn:Hd;
      [by eapply describe_returncode_nonempty |].
    cbv zeta.
    match goal with
    | |- context [String.eqb ?s ""] =>
        destruct (String.eqb_spec s ""); simpl; auto
    end.
  - by eapply Hjson.
Qed.

Lemma returned_has_keys W file_path r :
  Video3DAnalyzer.analyze_file W file_path = inr r -> dom r = result_keys.
Proof.
  intros Hr.
  destruct (try_block W file_path initial_result) as [[e | []] r1] eqn:Hrun.
  - destruct (caught_or_uncaught e) as [Hc | Hu].
    + rewrite (analyze_file_caught _ _ _ _ Hrun Hc) in Hr.
      injection Hr as <-. apply dom_guess.
      by apply caught_mode_none, (try_block_caught W file_path e).
    + rewrite (analyze_file_uncaught _ _ _ _ Hrun Hu) in Hr. discriminate.
  - unfold Video3DAnalyzer.analyze_file in Hr. rewrite Hrun in Hr.
    injection Hr as <-.
    destruct (try_block_cases W file_path)
      as [[_ H] | [[issue H] | [[e' H] | [data H]]]];
      try (rewrite H in Hrun; discriminate).
    rewrite H in Hrun.
    pose proof (sound_keeps _ _ initial_result
                  (inspect_streams_sound _ stable_well_typed data)
                  initial_result_well_typed) as [Hd _].
    by rewrite Hrun in Hd.
Qed.

(** C5, as stated, fails: output of the probing tool that is valid JSON but
    not an object, here the empty list, makes
    [Video3DAnalyzer.analyze_file] raise [AttributeError]. *)
Lemma non_object_output_raises :
  Video3DAnalyzer.analyze_file (world_with_output (JArr [])) "movie.mkv"
  = inl AttributeError
  /\ ~ exists r,
         Video3DAnalyzer.analyze_file (world_with_output (JArr []))
           "movie.mkv" = inr r.
Proof.
  split; [reflexivity |]. intros [r Hr]. vm_compute in Hr. discriminate.
Qed.

(** C5, amended.  [Video3DAnalyzer.analyze_file] returns a dictionary with
    the keys [is_3d], [stereo_mode], [has_mvc_track], [width], [height]
    and [analysis_error]
    - when probing fails because the tool is missing, its runtime
      libraries are missing, it cannot be started, it exits with a code
      other than 0, or its output is not JSON: [analysis_error] is then the
      diagnostic, which is not empty as long as the messages of the
      library exceptions are not;
    - when the output has the shape of the probe's output:
      [analysis_error] is then [None].
    Every dictionary that it returns has the six keys.  An exception
    raised while the parsed output is inspected leaves the function. *)
Theorem analyze_file_absorbs_probe_failures
    (W : World) (file_path : string) :
  (forall msg,
     probe_failure W file_path msg ->
     exists r,
       Video3DAnalyzer.analyze_file W file_path = inr r
       /\ dom r = result_keys
       /\ r !! "analysis_error" = Some (JStr msg)
       /\ (library_messages_nonempty W -> msg <> ""))
  /\ (forall data,
        probe_returns W file_path data -> wf_probe data = true ->
        exists r,
          Video3DAnalyzer.analyze_file W file_path = inr r
          /\ dom r = result_keys
          /\ r !! "analysis_error" = Some JNull)
  /\ (forall r,
        Video3DAnalyzer.analyze_file W file_path = inr r ->
        dom r = result_keys)
  /\ (forall data e r,
        probe_returns W file_path data ->
        inspect_streams data initial_result = (inl e, r) ->
        Video3DAnalyzer.analyze_file W file_path = inl e).
Proof.
  split_and!.
  - intros msg Hf.
    destruct (probe_failure_raises _ _ _ Hf) as (e & r1 & Hrun & Hc & <-).
    pose proof (analyze_file_caught _ _ _ _ Hrun Hc) as Ha.
    eexists. split; [exact Ha |]. split_and!.
    + by apply (returned_has_keys W file_path).
    + rewrite guess_from_name_cases. simpl.
      destruct (_ || _ || _); by simplify_map_eq.
    + by apply (probe_failure_nonempty W file_path).
  - intros data Hp Hwf.
    destruct (inspect_streams_total data Hwf initial_result
                initial_result_well_typed) as ([] & r & E & _ & _).
    assert (Hr : Video3DAnalyzer.analyze_file W file_path = inr r)
      by (by rewrite (analyze_file_probe _ _ _ Hp), E).
    exists r. split_and!; [done | by apply (returned_has_keys W file_path) |].
    pose proof (sound_keeps _ _ initial_result
                  (inspect_streams_sound _
                     (stable_analysis_error (Some JNull)) data) eq_refl)
      as Hk.
    by rewrite E in Hk.
  - apply returned_has_keys.
  - intros data e r Hp Hrun.
    by rewrite (analyze_file_probe _ _ _ Hp), Hrun.
Qed.

Lemma analyze_file_absorbs_probe_failures_witness :
  exists r,
    Video3DAnalyzer.analyze_file world_without_tools "movie.mkv" = inr r
    /\ dom r = result_keys
    /\ r !! "analysis_error" = Some (JStr ffprobe_not_found)
    /\ ffprobe_not_found <> "".
Proof.
  destruct (analyze_file_absorbs_probe_failures world_without_tools
              "movie.mkv") as (H & _).
  destruct (H ffprobe_not_found
              (tool_missing world_without_tools "movie.mkv" eq_refl))
    as (r & Hr & Hd & Ha & Hne).
  exists r. split_and!; [exact Hr | exact Hd | exact Ha |].
  apply Hne. split_and!.
  - discriminate.
  - by intros cmd msg [= <-].
  - by intros s msg [= <-].
Defined.

(** ** The frame extraction worker *)

(** C9 — [_extract_thumbnail_ffmpeg] never raises: it returns a path or
    [None].  It returns the path of the output file exactly when the tool
    is found, the process ends within the timeout with exit code 0 and the
    file exists; it returns [None] when the tool is not found, when
    [subprocess.run] raises (the timeout, or anything else), when the exit
    code is not 0, and when the file does not exist. *)
Theorem extract_thumbnail_is_silent
    (W : World) (video_file : string) (time_pos : Q) :
  (exists result,
     _extract_thumbnail_ffmpeg W video_file time_pos = inr result)
  /\ (forall temp_file,
        _extract_thumbnail_ffmpeg W video_file time_pos = inr (Some temp_file)
        <-> extraction_succeeds W video_file time_pos temp_file)
  /\ ((forall temp_file,
         ~ extraction_succeeds W video_file time_pos temp_file) ->
      _extract_thumbnail_ffmpeg W video_file time_pos = inr None)
  /\ (option_truthy (_resolve_external_tool W "ffmpeg") = false ->
      _extract_thumbnail_ffmpeg W video_file time_pos = inr None)
  /\ (forall ffmpeg_path tmp micros e,
        _resolve_external_tool W "ffmpeg" = Some ffmpeg_path ->
        gettempdir W = inr tmp -> time_micros W = inr micros ->
        run_extract W
          (extract_cmd ffmpeg_path video_file time_pos
             (temp_file_name W tmp micros)) = inl e ->
        _extract_thumbnail_ffmpeg W video_file time_pos = inr None)
  /\ (forall ffmpeg_path tmp micros returncode,
        _resolve_external_tool W "ffmpeg" = Some ffmpeg_path ->
        gettempdir W = inr tmp -> time_micros W = inr micros ->
        run_extract W
          (extract_cmd ffmpeg_path video_file time_pos
             (temp_file_name W tmp micros)) = inr returncode ->
        returncode <> 0
        \/ exists_after_run W (temp_file_name W tmp micros) = false ->
        _extract_thumbnail_ffmpeg W video_file time_pos = inr None).
Proof.
  assert (Hiff : forall temp_file,
            _extract_thumbnail_ffmpeg W video_file time_pos
            = inr (Some temp_file)
            <-> extraction_succeeds W video_file time_pos temp_file).
  { intros temp_file. unfold _extract_thumbnail_ffmpeg, extract_block,
      extraction_succeeds.
    destruct (_resolve_external_tool W "ffmpeg") as [path |] eqn:Hres;
      simpl option_truthy.
    2: { simpl. split; [discriminate | by intros (? & ? & ? & ? & _)]. }
    destruct (String.eqb_spec path "") as [-> | Hne]; simpl negb; cbv iota.
    { split; [discriminate |].
      by intros (? & ? & ? & [= <-] & ? & _). }
    destruct (gettempdir W) as [e | tmp]; simpl res_bind.
    { split; [discriminate | by intros (? & ? & ? & _ & _ & ? & _)]. }
    destruct (time_micros W) as [e | micros]; simpl res_bind.
    { split; [discriminate | by intros (? & ? & ? & _ & _ & _ & ? & _)]. }
    simpl default.
    destruct (run_extract W _) as [e | rc] eqn:Hrun; simpl res_bind.
    { split; [discriminate |].
      intros (p & t & m & [= <-] & _ & [= <-] & [= <-] & -> & Hr & _).
      rewrite Hrun in Hr. discriminate. }
    destruct (Z.eqb_spec rc 0) as [-> | Hrc]; simpl andb.
    - destruct (exists_after_run W _) eqn:Hex.
      + split.
        * intros [= <-]. by exists path, tmp, micros.
        * by intros (p & t & m & [= <-] & _ & [= <-] & [= <-] & -> & _).
      + split; [discriminate |].
        intros (p & t & m & [= <-] & _ & [= <-] & [= <-] & -> & _ & Hex').
        rewrite Hex in Hex'. discriminate.
    - split; [discriminate |].
      intros (p & t & m & [= <-] & _ & [= <-] & [= <-] & -> & Hr & _).
      rewrite Hrun in Hr. by injection Hr. }
  assert (Hret : exists result,
            _extract_thumbnail_ffmpeg W video_file time_pos = inr result).
  { unfold _extract_thumbnail_ffmpeg.
    destruct (extract_block W video_file time_pos); by eexists. }
  assert (Hnone : (forall temp_file,
                     ~ extraction_succeeds W video_file time_pos temp_file) ->
                  _extract_thumbnail_ffmpeg W video_file time_pos = inr None).
  { intros Hno. destruct Hret as [[temp_file |] Hr]; [| exact Hr].
    exfalso. by apply (Hno temp_file), Hiff. }
  split_and!; try done.
  - intros Hres. apply Hnone. intros temp_file (p & ? & ? & Hp & Hne & _).
    rewrite Hp in Hres. simpl in Hres.
    by destruct (String.eqb_spec p "").
  - intros p tmp micros e Hp Ht Hm Hrun. apply Hnone.
    intros temp_file (p' & t' & m' & Hp' & _ & Ht' & Hm' & -> & Hr & _).
    congruence.
  - intros p tmp micros rc Hp Ht Hm Hrun Hbad. apply Hnone.
    intros temp_file (p' & t' & m' & Hp' & _ & Ht' & Hm' & -> & Hr & Hex).
    assert (p' = p) as -> by congruence.
    assert (t' = tmp) as -> by congruence.
    assert (m' = micros) as -> by congruence.
    destruct Hbad as [Hrc | Hmiss]; congruence.
Qed.

Example extract_timeout :
  _extract_thumbnail_ffmpeg (extraction_world (inl TimeoutExpired) true)
    "movie.mkv" (10 # 1) = inr None.
Proof. reflexivity. Qed.

Example extract_success :
  _extract_thumbnail_ffmpeg (extraction_world (inr 0) true)
    "movie.mkv" (10 # 1) = inr (Some "/tmp/preview_1700000000000000.jpg").
Proof. by vm_compute. Qed.

(** ** The preview cache *)


Lemma dict_get_set {V} k (v : V) d : Dict.get k (Dict.set k v d) = Some v.
Proof.
  induction d as [| [k' v'] d IH]; simpl.
  - by rewrite Z.eqb_refl.
  - destruct (k' =? k) eqn:E; simpl; by rewrite E.
Qed.


(** C6 — evaluation at the failing input.  After the completions of the
    extractions for the 101 distinct seconds 0, 1, ..., 100 the cache of a
    freshly loaded slider holds 101 entries, the first-inserted key 0
    among them: the test [len > 100] precedes the insertion, so that
    nothing is evicted before the 102nd distinct key, which evicts key 0
    and again leaves 101 entries. *)
Theorem cache_holds_101_entries :
  let after n :=
    _preview_cache
      (run (extraction_world (inr 0) true) loaded_slider
         (completions (seconds n))).1 in
  length (after 101%nat) = 101%nat
  /\ Dict.mem 0 (after 101%nat) = true
  /\ forallb (fun k => Dict.mem k (after 101%nat)) (seconds 101) = true
  /\ length (after 102%nat) = 101%nat
  /\ Dict.mem 0 (after 102%nat) = false
  /\ Dict.mem 1 (after 102%nat) = true
  /\ Dict.mem 101 (after 102%nat) = true.
Proof. vm_compute. by repeat split. Qed.

(** ** Hovering and the debounce timer *)

Lemma py_round_whole t : py_round (inject_Z t) = t.
Proof.
  unfold py_round. rewrite Qfloor_Z.
  assert (H : Qcompare (inject_Z t - inject_Z t) (1 # 2) = Lt).
  { unfold Qcompare, Qminus, Qplus, Qopp, inject_Z. simpl.
    apply Z.compare_lt_iff. lia. }
  by rewrite H.
Qed.

(** The test [abs(hover_time - last_preview_time) > 0.5] on whole seconds:
    the two times differ. *)
Lemma half_second_threshold d :
  Qltb (1 # 2) (Qabs (inject_Z d)) = negb (d =? 0).
Proof.
  unfold Qltb, Qle_bool, Qabs, inject_Z. simpl.
  destruct (Z.eqb_spec d 0) as [-> | Hd]; simpl.
  - reflexivity.
  - apply negb_true_iff, Z.leb_gt. lia.
Qed.

Ltac slider_simpl :=
  cbn [set_hover set_hovering set_last_preview_time set_cache set_timer
       set_pending maximum _hover_time _is_hovering _last_preview_time
       _preview_cache _video_file _extraction_timer _pending_time
       _pending_mouse_x fst snd].

(** A hover on the second of the last request changes nothing but the
    hover time. *)
Lemma mouse_move_ignored s x pos :
  0 < maximum s ->
  hover_time_of s x = _last_preview_time s ->
  mouseMoveEvent s x pos =
    (set_hover s (hover_time_of s x),
     [SetToolTip (time_str (hover_time_of s x)); Update]).
Proof.
  intros Hmax Hlast. unfold mouseMoveEvent.
  apply Z.ltb_lt in Hmax. rewrite Hmax. fold (hover_time_of s x).
  slider_simpl. rewrite half_second_threshold, Hlast, Z.sub_diag.
  by rewrite andb_false_r.
Qed.

(** A hover on another second that misses the cache replaces the pending
    values and restarts the timer. *)
Lemma mouse_move_dispatched s x pos :
  0 < maximum s ->
  option_truthy (_video_file s) = true ->
  hover_time_of s x <> _last_preview_time s ->
  Dict.mem (hover_time_of s x) (_preview_cache s) = false ->
  mouseMoveEvent s x pos =
    ({| maximum := maximum s;
        _hover_time := hover_time_of s x;
        _is_hovering := true;
        _last_preview_time := hover_time_of s x;
        _preview_cache := _preview_cache s;
        _video_file := _video_file s;
        _extraction_timer := Some 100;
        _pending_time := inject_Z (hover_time_of s x);
        _pending_mouse_x := pos |},
     [SetToolTip (time_str (hover_time_of s x)); Update]).
Proof.
  intros Hmax Hvideo Hlast Hmiss. unfold mouseMoveEvent.
  apply Z.ltb_lt in Hmax. rewrite Hmax. fold (hover_time_of s x).
  slider_simpl. rewrite half_second_threshold, Hvideo.
  destruct (Z.eqb_spec (hover_time_of s x - _last_preview_time s) 0);
    [lia |].
  cbn [negb andb]. unfold _request_on_demand_preview. slider_simpl.
  rewrite py_round_whole, Hmiss. reflexivity.
Qed.

(** A burst of dispatched hovers followed by one more and by the firing of
    the timer submits one job, for the last hover. *)
Lemma burst_extracts_last W hovers : forall s x pos,
  0 < maximum s ->
  option_truthy (_video_file s) = true ->
  _preview_cache s = [] ->
  dispatching (maximum s) (_last_preview_time s)
    (hovers ++ [(x, pos, 0)]) ->
  jobs (run W s (burst hovers ++ [MouseMove x pos; Elapse 100])).2 =
    [{| job_video_file := _video_file s;
        job_time_pos := inject_Z (hover_time_of s x);
        job_mouse_x := pos |}].
Proof.
  induction hovers as [| [[x0 pos0] gap] rest IH];
    intros s x pos Hmax Hvideo Hcache Hd.
  - simpl in Hd. destruct Hd as (Hne & _ & _).
    simpl. rewrite mouse_move_dispatched; try done.
    by rewrite Hcache.
  - simpl in Hd. destruct Hd as (Hne & Hgap & Hrest).
    simpl. rewrite mouse_move_dispatched; try done; [| by rewrite Hcache].
    unfold elapse. simpl.
    destruct (Z.leb_spec 100 gap) as [| _]; [lia |].
    match goal with
    | |- context [run W ?s' _] =>
        specialize (IH s' x pos Hmax Hvideo Hcache Hrest);
        destruct (run W s' _) as [s'' effects'] eqn:Hrun
    end.
    simpl in *. exact IH.
Qed.

(** C7, as stated, fails: the hover events at 10.0, 10.05 and 10.09
    seconds, followed by the firing of the timer, submit one job, and its
    timestamp is 10, not 10.09. *)
Lemma close_hovers_extract_first :
  jobs (run (extraction_world (inr 0) true) loaded_slider close_hovers).2
  = [{| job_video_file := Some "movie.mkv";
        job_time_pos := 10 # 1;
        job_mouse_x := 100 # 1 |}]
  /\ ~ (exists job,
          jobs (run (extraction_world (inr 0) true) loaded_slider
                  close_hovers).2 = [job]
          /\ (job_time_pos job == 1009 # 100)%Q).
Proof.
  assert (H : jobs (run (extraction_world (inr 0) true) loaded_slider
                      close_hovers).2
              = [{| job_video_file := Some "movie.mkv";
                    job_time_pos := 10 # 1;
                    job_mouse_x := 100 # 1 |}]) by reflexivity.
  split; [exact H |]. intros (job & Hjob & Htime).
  rewrite H in Hjob. injection Hjob as <-. by vm_compute in Htime.
Qed.

(** C7, amended.  The hover events at 10.0, 10.05 and 10.09 seconds,
    followed by the firing of the timer, submit exactly one job, and its
    timestamp is 10, the time of the first event: the hover time is a
    whole number of seconds, and an event on the second of the last
    request changes neither the pending values nor the timer.  Every
    request that misses the cache replaces the pending values and restarts
    the timer, and an event on another second makes such a request; a
    burst of such events, each less than 100 milliseconds after the one
    before, followed by the firing of the timer submits exactly one job,
    for the last of them, as when the cursor passes 10, 11 and 12
    seconds. *)
Theorem debounce_extracts_last_dispatched (W : World) :
  jobs (run W loaded_slider close_hovers).2
  = [{| job_video_file := Some "movie.mkv";
        job_time_pos := 10 # 1;
        job_mouse_x := 100 # 1 |}]
  /\ jobs (run W loaded_slider distant_hovers).2
     = [{| job_video_file := Some "movie.mkv";
           job_time_pos := 12 # 1;
           job_mouse_x := 120 # 1 |}]
  /\ (forall s x pos,
        0 < maximum s ->
        hover_time_of s x = _last_preview_time s ->
        mouseMoveEvent s x pos =
          (set_hover s (hover_time_of s x),
           [SetToolTip (time_str (hover_time_of s x)); Update]))
  /\ (forall s time_pos mouse_x,
        Dict.mem (py_round time_pos) (_preview_cache s) = false ->
        _request_on_demand_preview s time_pos mouse_x =
          (set_timer (set_pending s time_pos mouse_x) (Some 100), []))
  /\ (forall s x pos,
        0 < maximum s ->
        option_truthy (_video_file s) = true ->
        hover_time_of s x <> _last_preview_time s ->
        Dict.mem (hover_time_of s x) (_preview_cache s) = false ->
        let s' := (mouseMoveEvent s x pos).1 in
        _pending_time s' = inject_Z (hover_time_of s x)
        /\ _pending_mouse_x s' = pos
        /\ _extraction_timer s' = Some 100
        /\ jobs (mouseMoveEvent s x pos).2 = [])
  /\ (forall s hovers x pos,
        0 < maximum s ->
        option_truthy (_video_file s) = true ->
        _preview_cache s = [] ->
        dispatching (maximum s) (_last_preview_time s)
          (hovers ++ [(x, pos, 0)]) ->
        jobs (run W s (burst hovers ++ [MouseMove x pos; Elapse 100])).2 =
          [{| job_video_file := _video_file s;
              job_time_pos := inject_Z (hover_time_of s x);
              job_mouse_x := pos |}]).
Proof.
  split_and!.
  - reflexivity.
  - reflexivity.
  - apply mouse_move_ignored.
  - intros s time_pos mouse_x Hmiss. unfold _request_on_demand_preview.
    by rewrite Hmiss.
  - intros s x pos Hmax Hvideo Hlast Hmiss.
    by rewrite mouse_move_dispatched.
  - intros s hovers. by apply burst_extracts_last.
Qed.

Lemma debounce_extracts_last_dispatched_witness :
  jobs (run (extraction_world (inr 0) true) loaded_slider
          (burst [(10 # 1, 100 # 1, 50); (11 # 1, 110 # 1, 40)]
           ++ [MouseMove (12 # 1) (120 # 1); Elapse 100])).2
  = [{| job_video_file := Some "movie.mkv";
        job_time_pos := inject_Z 12;
        job_mouse_x := 120 # 1 |}].
Proof.
  destruct (debounce_extracts_last_dispatched
              (extraction_world (inr 0) true)) as (_ & _ & _ & _ & _ & H).
  apply (H loaded_slider [(10 # 1, 100 # 1, 50); (11 # 1, 110 # 1, 40)]
           (12 # 1) (120 # 1)).
  - reflexivity.
  - reflexivity.
  - reflexivity.
  - simpl. repeat split; (discriminate || lia).
Defined.

(** ** Completion of an extraction *)

(** C8 — Staleness drop.  When an extraction for the time [time_pos]
    completes with an image that loads, and by then hovering has ended or
    the hover time is more than 3 seconds away from [time_pos], the
    completion handler shows nothing: what it does to the outside is to
    remove the temporary file.  It still stores the image in the cache
    under the key [round(time_pos)], and changes nothing else of the
    slider. *)
Theorem stale_result_is_cached_not_shown
    (W : World) (s : TimeSlider) (time_pos : Q) (temp_file : string) :
  temp_file <> "" ->
  isNull (load_pixmap W temp_file) = false ->
  _is_hovering s = false
  \/ (3 < Qabs (time_pos - inject_Z (_hover_time s)))%Q ->
  let done :=
    _handle_extraction_result W s (inr (Some temp_file)) time_pos in
  done.2 = [RemoveFile temp_file]
  /\ Dict.get (py_round time_pos) (_preview_cache done.1)
     = Some (load_pixmap W temp_file)
  /\ done.1 =
       set_cache s
         (cache_put (py_round time_pos) (load_pixmap W temp_file)
            (_preview_cache s)).
Proof.
  intros Hne Hload Hstale. unfold _handle_extraction_result.
  destruct (String.eqb_spec temp_file ""); [contradiction |]. cbn [negb].
  unfold _on_extraction_done. rewrite Hload. cbn [negb]. slider_simpl.
  assert (Hhide :
            _is_hovering s
            && Qltb (Qabs (time_pos - inject_Z (_hover_time s))) 3 = false).
  { destruct Hstale as [-> | Hfar]; [reflexivity |].
    apply andb_false_iff. right. unfold Qltb.
    apply negb_false_iff, Qle_bool_iff, Qlt_le_weak, Hfar. }
  rewrite Hhide. cbv zeta. slider_simpl. split_and!.
  - reflexivity.
  - unfold cache_put. apply dict_get_set.
  - reflexivity.
Qed.

Lemma stale_result_is_cached_not_shown_witness :
  let s := set_hover loaded_slider 40 in
  let done :=
    _handle_extraction_result (extraction_world (inr 0) true) s
      (inr (Some "/tmp/preview_5.jpg")) (5 # 1) in
  done.2 = [RemoveFile "/tmp/preview_5.jpg"]
  /\ Dict.get 5 (_preview_cache done.1) = Some (Pixmap "/tmp/preview_5.jpg").
Proof.
  destruct (stale_result_is_cached_not_shown
              (extraction_world (inr 0) true) (set_hover loaded_slider 40)
              (5 # 1) "/tmp/preview_5.jpg") as (H1 & H2 & _).
  - discriminate.
  - reflexivity.
  - right. reflexivity.
  - split; [exact H1 | exact H2].
Defined.

(** ** The external tools *)








(** ** The runtime check *)

(** X4 — [_check_ffmpeg_runtime] has no complaint exactly when the system
    is not Windows, or no path is given, or each of the three libraries
    has a file [base-*.dll] next to the executable.  Its complaint names
    the libraries that are missing, and only them. *)
Theorem runtime_check_names_missing_libraries
    (W : World) (executable_path : string) :
  (_check_ffmpeg_runtime W (Some executable_path) = None <->
   win32 W = false \/ executable_path = ""
   \/ forall base, base ∈ required_bases ->
        glob_any W (dll_pattern W executable_path base) = true)
  /\ (forall issue base,
        _check_ffmpeg_runtime W (Some executable_path) = Some issue ->
        base ∈ required_bases ->
        PyStr.contains base issue
        = negb (glob_any W (dll_pattern W executable_path base)))
  /\ _check_ffmpeg_runtime W None = None.
Proof.
  assert (Hmsg : _check_ffmpeg_runtime W (Some executable_path) =
    if negb (win32 W) || String.eqb executable_path "" then None
    else
      match
        List.filter
          (fun base => negb (glob_any W (dll_pattern W executable_path base)))
          required_bases
      with
      | [] => None
      | missing =>
          Some ("ffmpeg/ffprobe found but the following DLLs are missing in the same folder: "
                ++ PyStr.join ", " missing
                ++ ". Copy all DLLs provided with ffmpeg (from the /bin directory of the archive) "
                ++ "next to the executables, or install a full static build.")%string
      end).
  { unfold _check_ffmpeg_runtime. simpl option_truthy. rewrite negb_involutive.
    destruct (negb (win32 W) || String.eqb executable_path "");
      [reflexivity |].
    cbv zeta. unfold dll_pattern, required_bases. simpl default.
    by destruct (List.filter _ _). }
  assert (Hin : forall (P : string -> Prop),
            P "avcodec" -> P "avformat" -> P "avutil" ->
            forall base, base ∈ required_bases -> P base).
  { intros P ? ? ? base Hb. unfold required_bases in Hb.
    repeat (apply elem_of_cons in Hb as [-> | Hb]; [done |]).
    by apply elem_of_nil in Hb. }
  assert (M1 : "avcodec" ∈ required_bases) by (unfold required_bases; repeat constructor).
  assert (M2 : "avformat" ∈ required_bases) by (unfold required_bases; repeat constructor).
  assert (M3 : "avutil" ∈ required_bases) by (unfold required_bases; repeat constructor).
  rewrite Hmsg. unfold required_bases at 1 3. cbn [List.filter].
  split_and!.
  - destruct (win32 W); cbn [negb orb]; [| split; auto].
    destruct (String.eqb_spec executable_path "") as [Heq | Hne];
      [split; auto |].
    destruct (glob_any W (dll_pattern W executable_path "avcodec")) eqn:H1;
      destruct (glob_any W (dll_pattern W executable_path "avformat")) eqn:H2;
      destruct (glob_any W (dll_pattern W executable_path "avutil")) eqn:H3;
      cbn [negb]; cbv iota; (split; [try discriminate | ]).
    all: try (intros [Hf | [He | H]]; [discriminate | contradiction |];
              pose proof (H "avcodec" M1); pose proof (H "avformat" M2);
              pose proof (H "avutil" M3); congruence).
    all: try done.
    intros _. right. right. by apply Hin.
  - intros issue base.
    destruct (win32 W); cbn [negb orb]; [| discriminate].
    destruct (String.eqb_spec executable_path ""); [discriminate |].
    destruct (glob_any W (dll_pattern W executable_path "avcodec")) eqn:H1;
      destruct (glob_any W (dll_pattern W executable_path "avformat")) eqn:H2;
      destruct (glob_any W (dll_pattern W executable_path "avutil")) eqn:H3;
      cbn [negb]; cbv iota; intros [= <-] || discriminate;
      intros Hb; pattern base;
      apply (fun P a b c => Hin P a b c base Hb);
      rewrite ?H1, ?H2, ?H3; by vm_compute.
  - unfold _check_ffmpeg_runtime. by destruct (win32 W).
Qed.

(** ** Exit codes *)

(** X5 — [_describe_windows_returncode] explains exactly four codes, and
    reads a 32-bit exit code alike whether it comes as a signed or as an
    unsigned number. *)
Theorem returncode_is_read_modulo_32_bits (returncode : Z) :
  - 2 ^ 31 <= returncode < 2 ^ 32 ->
  _describe_windows_returncode returncode
  = _describe_windows_returncode (returncode mod 2 ^ 32)
  /\ (_describe_windows_returncode returncode <> None <->
      returncode mod 2 ^ 32 = 3221225781
      \/ returncode mod 2 ^ 32 = 3221225501).
Proof.
  intros Hrange.
  assert (Hmod : returncode mod 2 ^ 32 = returncode /\ 0 <= returncode
                 \/ returncode mod 2 ^ 32 = returncode + 2 ^ 32 /\
                    returncode < 0).
  { destruct (Z.lt_ge_cases returncode 0) as [Hneg | Hpos].
    - right. split; [| exact Hneg].
      rewrite <- (Z_mod_plus_full returncode 1 (2 ^ 32)).
      apply Z.mod_small. lia.
    - left. split; [| exact Hpos]. apply Z.mod_small. lia. }
  unfold _describe_windows_returncode.
  change (2 ^ 32) with 4294967296 in *. change (2 ^ 31) with 2147483648 in *.
  repeat match goal with
         | |- context [?a =? ?b] => destruct (Z.eqb_spec a b)
         end; simpl; split; try reflexivity; try lia;
    try (split; [intros _; lia | discriminate]);
    try (split; [congruence | lia]); try (exfalso; lia).
Qed.

Lemma returncode_is_read_modulo_32_bits_witness :
  _describe_windows_returncode (-1073741515)
  = _describe_windows_returncode ((-1073741515) mod 2 ^ 32)
  /\ (_describe_windows_returncode (-1073741515) <> None <->
      (-1073741515) mod 2 ^ 32 = 3221225781
      \/ (-1073741515) mod 2 ^ 32 = 3221225501).
Proof.
  apply (returncode_is_read_modulo_32_bits (-1073741515)). lia.
Defined.

(** ** Classification *)

Lemma lower_as_map s :
  PyStr.lower s = smap PyStr.lower_char s.
Proof.
  unfold smap. induction s as [| c s IH]; simpl; [done | by rewrite IH].
Qed.

Lemma replace_as_map a b s :
  PyStr.replace a b s = smap (fun c => if Ascii.eqb c a then b else c) s.
Proof.
  unfold smap. induction s as [| c s IH]; simpl; [done | by rewrite IH].
Qed.

Section CharMap.

Variable f : ascii -> ascii.
Hypothesis f_space : forall c, PyStr.is_space (f c) = PyStr.is_space c.

Lemma smap_cons c s : smap f (String c s) = String (f c) (smap f s).
Proof. reflexivity. Qed.

Lemma smap_lstrip s : smap f (PyStr.lstrip s) = PyStr.lstrip (smap f s).
Proof.
  induction s as [| c s IH]; [done |].
  rewrite smap_cons. simpl. rewrite f_space.
  destruct (PyStr.is_space c); [exact IH | by rewrite smap_cons].
Qed.

Lemma smap_reverse s : smap f (PyStr.reverse s) = PyStr.reverse (smap f s).
Proof.
  unfold smap, PyStr.reverse.
  by rewrite !list_ascii_of_string_of_list_ascii, map_rev.
Qed.

Lemma smap_strip s : smap f (PyStr.strip s) = PyStr.strip (smap f s).
Proof.
  unfold PyStr.strip.
  by rewrite smap_reverse, smap_lstrip, smap_reverse, smap_lstrip.
Qed.

End CharMap.

Lemma lower_char_space c :
  PyStr.is_space (PyStr.lower_char c) = PyStr.is_space c.
Proof. destruct c as [[] [] [] [] [] [] [] []]; reflexivity. Qed.

Lemma lower_char_idem c :
  PyStr.lower_char (PyStr.lower_char c) = PyStr.lower_char c.
Proof. destruct c as [[] [] [] [] [] [] [] []]; reflexivity. Qed.

Lemma lower_idem s : PyStr.lower (PyStr.lower s) = PyStr.lower s.
Proof.
  induction s as [| c s IH]; simpl; [done |].
  by rewrite lower_char_idem, IH.
Qed.

Lemma lower_strip s : PyStr.lower (PyStr.strip s) = PyStr.strip (PyStr.lower s).
Proof.
  rewrite !lower_as_map. apply (smap_strip _ lower_char_space).
Qed.

Lemma dash_space c :
  PyStr.is_space (if Ascii.eqb c "-" then "_"%char else c) = PyStr.is_space c.
Proof. destruct (Ascii.eqb_spec c "-") as [-> |]; reflexivity. Qed.

Lemma dash_strip s :
  PyStr.replace "-" "_" (PyStr.strip s)
  = PyStr.strip (PyStr.replace "-" "_" s).
Proof. rewrite !replace_as_map. apply (smap_strip _ dash_space). Qed.

Lemma lower_empty s : String.eqb (PyStr.lower s) "" = String.eqb s "".
Proof. by destruct s. Qed.

Lemma replace_empty a b s :
  String.eqb (PyStr.replace a b s) "" = String.eqb s "".
Proof. by destruct s. Qed.

(** The string that the tests of [_classify_stereo_mode] look at is a
    function of the lower-case form of the argument with [-] replaced. *)
Lemma classify_string_normal s :
  classify_string s
  = classify_string (PyStr.replace "-" "_" (PyStr.lower s)).
Proof.
  unfold classify_string.
  rewrite !lower_strip, !dash_strip.
  assert (H : forall t,
            PyStr.replace "-" "_" (PyStr.lower (PyStr.replace "-" "_" t))
            = PyStr.replace "-" "_" (PyStr.lower t)).
  { induction t as [| c t IH]; simpl; [done |]. rewrite IH. f_equal.
    destruct c as [[] [] [] [] [] [] [] []]; reflexivity. }
  by rewrite H, lower_idem.
Qed.

(** X6 — Two strings that differ only in the case of their letters and in
    [-] for [_] are classified alike by [_classify_stereo_mode]. *)
Theorem classification_ignores_case_and_dashes (s t : string) :
  PyStr.replace "-" "_" (PyStr.lower s)
  = PyStr.replace "-" "_" (PyStr.lower t) ->
  _classify_stereo_mode (JStr s) = _classify_stereo_mode (JStr t).
Proof.
  intros Heq. unfold _classify_stereo_mode. simpl Py.truthy.
  rewrite !negb_involutive.
  assert (He : String.eqb s "" = String.eqb t "").
  { rewrite <- (lower_empty s), <- (lower_empty t).
    rewrite <- (replace_empty "-" "_" (PyStr.lower s)).
    rewrite <- (replace_empty "-" "_" (PyStr.lower t)). by rewrite Heq. }
  rewrite He. destruct (String.eqb t ""); [reflexivity |].
  by rewrite (classify_string_normal s), (classify_string_normal t), Heq.
Qed.

Lemma classification_ignores_case_and_dashes_witness :
  _classify_stereo_mode (JStr "Side-By-Side")
  = _classify_stereo_mode (JStr "side_by_side").
Proof.
  apply (classification_ignores_case_and_dashes
           "Side-By-Side" "side_by_side").
  reflexivity.
Defined.

Lemma classify_string_range s m :
  classify_string s = Some m -> m ∈ classified_modes.
Proof.
  unfold classify_string, classified_modes.
  repeat match goal with
         | |- context [if ?c then _ else _] => destruct c
         end; intros [= <-] || discriminate; repeat constructor.
Qed.

Lemma classified_priority m : m ∈ classified_modes -> 1 <= priority m <= 3.
Proof.
  unfold classified_modes. intros H.
  repeat (apply elem_of_cons in H as [-> | H]; [by vm_compute |]).
  by apply elem_of_nil in H.
Qed.

(** X7 — [_classify_stereo_mode] returns [None] for every value that counts
    as false, raises [AttributeError] for every other value that is not a
    string, and for a string returns [None] or one of 'anaglyph', 'mvc',
    'tab', 'sbs': a mode that is in the priority table with a priority of
    at least 1, never 'none'. *)
Theorem classification_range (mode_str : json) :
  (Py.truthy mode_str = false -> _classify_stereo_mode mode_str = inr None)
  /\ (Py.truthy mode_str = true -> (forall s, mode_str <> JStr s) ->
      _classify_stereo_mode mode_str = inl AttributeError)
  /\ (forall s, mode_str = JStr s ->
      exists result, _classify_stereo_mode mode_str = inr result)
  /\ (forall m, _classify_stereo_mode mode_str = inr (Some m) ->
      m ∈ classified_modes /\ 1 <= priority m <= 3 /\ m <> "none").
Proof.
  unfold _classify_stereo_mode. split_and!.
  - by intros ->.
  - intros -> Hns. simpl. destruct mode_str; try reflexivity.
    by destruct (Hns s).
  - intros s ->. destruct (negb _); by eexists.
  - intros m. destruct (negb _); [discriminate |].
    destruct mode_str; try discriminate. intros [= H].
    apply classify_string_range in H.
    split; [done |]. split; [by apply classified_priority |].
    intros ->. apply classified_priority in H. vm_compute in H.
    destruct H as [H _]. by apply H.
Qed.

(** ** The outcomes of the detection *)

Lemma sound_bind_lift P {A B} (x : res A) (f : A -> M B) :
  (forall e, x = inl e -> uncaught e) ->
  (forall a, x = inr a -> sound P (f a)) ->
  sound P (bind (lift x) f).
Proof.
  intros Hx Hf r Hr. unfold bind, lift. destruct x as [e | a]; simpl.
  - split; [exact Hr | intros e' [= <-]; by apply Hx].
  - by apply Hf.
Qed.

Lemma classify_range v m :
  _classify_stereo_mode v = inr (Some m) -> m ∈ classified_modes.
Proof.
  unfold _classify_stereo_mode. destruct (negb _); [discriminate |].
  destruct v; try discriminate. intros [= H].
  by apply classify_string_range in H.
Qed.

Lemma mvc_classified : "mvc" ∈ classified_modes.
Proof. unfold classified_modes. repeat constructor. Qed.

(** Properties that the inspection of the streams keeps although single
    assignments break them: it is enough that the promotions to a
    classified mode and the block of three assignments that reports the
    multi-view mode keep them. *)
Section Detection.

Variable P : gmap string json -> Prop.

Hypothesis P_promote : forall mode mark r,
  mode ∈ classified_modes -> (mark = true -> mode = "mvc") ->
  P r -> P (_promote_stereo_mode mode mark r).2.

Lemma promote_classified_sound mode mark :
  mode ∈ classified_modes -> (mark = true -> mode = "mvc") ->
  sound P (_promote_stereo_mode mode mark).
Proof. intros Hm Hk. apply promote_sound. intros r. by apply P_promote. Qed.

Lemma classified_sound v (classified : option string) :
  _classify_stereo_mode v = inr classified ->
  sound P
    (match classified with
     | Some c => _promote_stereo_mode c false
     | None => ret tt
     end).
Proof.
  intros Hc. destruct classified as [c |]; [| apply sound_ret].
  apply promote_classified_sound; [by apply (classify_range v) | done].
Qed.

Lemma inspect_side_data_keeps sd : sound P (inspect_side_data sd).
Proof.
  unfold inspect_side_data.
  repeat (apply sound_bind_lift; [eauto with sound | intros ? _]).
  apply sound_when.
  apply sound_bind_lift; [eauto with sound | intros detected _].
  apply sound_bind_lift; [eauto with sound | intros classified Hc].
  destruct classified as [c |]; [| apply sound_ret].
  destruct (String.eqb_spec c "mvc").
  - apply promote_classified_sound; [apply mvc_classified | done].
  - apply promote_classified_sound; [by apply (classify_range detected) |].
    discriminate.
Qed.

Lemma inspect_tag_keeps kv : sound P (inspect_tag kv).
Proof.
  destruct kv as [key value]. unfold inspect_tag. apply sound_when.
  apply sound_bind_lift; [eauto with sound | intros classified Hc].
  by apply (classified_sound value).
Qed.

Lemma inspect_video_stream_keeps stream framepacked :
  sound P (inspect_video_stream stream framepacked).
Proof.
  unfold inspect_video_stream.
  repeat (apply sound_bind_lift; [eauto with sound | intros ? _]).
  apply sound_bind.
  { apply sound_when, promote_classified_sound;
      [apply mvc_classified | done]. }
  intros _. apply sound_bind_lift; [eauto with sound | intros d _].
  apply sound_bind.
  { destruct (Py.is_dict _);
      [apply sound_lift; eauto with sound | apply sound_ret]. }
  intros dependent. apply sound_bind.
  { apply sound_when, promote_classified_sound;
      [apply mvc_classified | done]. }
  intros _. apply sound_when.
  repeat (apply sound_bind_lift; [eauto with sound | intros ? _]).
  apply sound_bind.
  { apply sound_for_each. intros sd. apply inspect_side_data_keeps. }
  intros _.
  repeat (apply sound_bind_lift; [eauto with sound | intros ? _]).
  apply sound_for_each. intros kv. apply inspect_tag_keeps.
Qed.

Hypothesis P_width : forall v r, P r -> P (<["width" := v]> r).
Hypothesis P_height : forall v r, P r -> P (<["height" := v]> r).
Hypothesis P_mvc : forall r,
  P r ->
  P (<["stereo_mode" := JStr "mvc"]>
       (<["has_mvc_track" := JBool true]> (<["is_3d" := JBool true]> r))).

Lemma report_mvc_keeps :
  sound P
    (setitem "is_3d" (JBool true) ;;;
     setitem "has_mvc_track" (JBool true) ;;;
     setitem "stereo_mode" (JStr "mvc")).
Proof. intros r Hr. split; [by apply P_mvc | discriminate]. Qed.

Lemma inspect_stream_keeps stream : sound P (inspect_stream stream).
Proof.
  unfold inspect_stream.
  apply sound_bind_lift; [eauto with sound | intros codec_type _].
  apply sound_when.
  apply sound_bind_lift; [eauto with sound | intros w _].
  apply sound_bind; [apply sound_setitem; intros; by apply P_width |].
  intros _. apply sound_bind_lift; [eauto with sound | intros h _].
  apply sound_bind; [apply sound_setitem; intros; by apply P_height |].
  intros _. apply sound_bind; [apply sound_getitem | intros width].
  apply sound_bind; [apply sound_getitem | intros height].
  apply sound_bind; [apply sound_when, report_mvc_keeps | intros _].
  apply inspect_video_stream_keeps.
Qed.

Lemma find_mvc_stream_keeps streams : sound P (find_mvc_stream streams).
Proof.
  induction streams as [| stream rest IH]; simpl; [apply sound_ret |].
  apply sound_bind_lift; [eauto with sound | intros cn _].
  destruct (Py.eq_str cn "mvc"); [apply report_mvc_keeps | exact IH].
Qed.

Lemma inspect_streams_keeps data : sound P (inspect_streams data).
Proof.
  unfold inspect_streams.
  repeat (apply sound_bind_lift; [eauto with sound | intros ? _]).
  apply sound_bind.
  { apply sound_for_each. intros stream. apply inspect_stream_keeps. }
  intros _. apply sound_bind; [apply sound_getitem | intros has_mvc].
  apply sound_when.
  repeat (apply sound_bind_lift; [eauto with sound | intros ? _]).
  apply find_mvc_stream_keeps.
Qed.

End Detection.

Lemma consistent_mode r :
  consistent r -> exists current, r !! "stereo_mode" = Some (JStr current).
Proof.
  intros [(_ & _ & H) | [(_ & H & _) | (_ & _ & m & _ & H)]]; by eexists.
Qed.

Ltac consistent_finish :=
  first
    [ left; by split_and!
    | right; left; by split_and!
    | right; right; split_and!;
      [done | done | eexists; split; [| reflexivity]; repeat constructor] ].

Ltac mode_cases H :=
  repeat (apply elem_of_cons in H as [? | H]);
  [.. | by apply elem_of_nil in H]; try discriminate; subst.

Lemma consistent_promote mode mark r :
  mode ∈ classified_modes -> (mark = true -> mode = "mvc") ->
  consistent r -> consistent (_promote_stereo_mode mode mark r).2.
Proof.
  intros Hmode Hmark Hr.
  assert (Hne : mode <> "").
  { intros ->. apply classified_priority in Hmode.
    change (priority "") with 0 in Hmode. lia. }
  destruct (consistent_mode r Hr) as [current Hcur].
  rewrite (promote_typed mode mark r current Hne Hcur). simpl.
  assert (Hmk : mark || String.eqb mode "mvc" = String.eqb mode "mvc").
  { destruct mark; [| done]. by rewrite (Hmark eq_refl). }
  rewrite Hmk. unfold consistent, is_mvc_result.
  unfold classified_modes in Hmode.
  destruct Hr as [(H3 & Hm & Hc) | [(H3 & Hc & Hm) | (H3 & Hm & c & Hin & Hc)]];
    rewrite Hc in Hcur; injection Hcur as <-.
  - mode_cases Hmode;
      vm_compute (priority _ <=? priority _);
      cbn [String.eqb Ascii.eqb Bool.eqb id];
      simplify_map_eq; consistent_finish.
  - mode_cases Hmode;
      vm_compute (priority _ <=? priority _);
      cbn [String.eqb Ascii.eqb Bool.eqb id];
      simplify_map_eq; consistent_finish.
  - mode_cases Hin; mode_cases Hmode;
      vm_compute (priority _ <=? priority _);
      cbn [String.eqb Ascii.eqb Bool.eqb id];
      simplify_map_eq; consistent_finish.
Qed.

Lemma consistent_other k v r :
  k <> "is_3d" -> k <> "has_mvc_track" -> k <> "stereo_mode" ->
  consistent r -> consistent (<[k := v]> r).
Proof.
  intros H1 H2 H3. unfold consistent, is_mvc_result.
  by rewrite !lookup_insert_ne.
Qed.

Lemma consistent_mvc r :
  is_mvc_result
    (<["stereo_mode" := JStr "mvc"]>
       (<["has_mvc_track" := JBool true]> (<["is_3d" := JBool true]> r))).
Proof. unfold is_mvc_result. split_and!; by simplify_map_eq. Qed.

Lemma inspect_streams_consistent data :
  sound consistent (inspect_streams data).
Proof.
  apply inspect_streams_keeps.
  - apply consistent_promote.
  - intros v r. by apply consistent_other.
  - intros v r. by apply consistent_other.
  - intros r _. right. left. apply consistent_mvc.
Qed.

Lemma consistent_initial : consistent initial_result.
Proof. left. by split_and!. Qed.

Lemma consistent_guess W file_path r :
  consistent r -> r !! "stereo_mode" = Some (JStr "none") ->
  consistent (guess_from_name W file_path r).2.
Proof.
  intros Hr Hnone. rewrite guess_from_name_cases. simpl.
  destruct (_ || _ || _); [| exact Hr].
  destruct Hr as [(H3 & Hm & Hc) | [(_ & Hc & _) | (_ & _ & c & Hin & Hc)]].
  - right. right. split_and!; try by simplify_map_eq.
    exists "sbs". split; [repeat constructor | by simplify_map_eq].
  - congruence.
  - rewrite Hc in Hnone. injection Hnone as ->. mode_cases Hin.
Qed.

Lemma returned_consistent W file_path r :
  Video3DAnalyzer.analyze_file W file_path = inr r -> consistent r.
Proof.
  intros Hr.
  destruct (try_block W file_path initial_result) as [[e | []] r1] eqn:Hrun.
  - destruct (caught_or_uncaught e) as [Hc | Hu].
    + rewrite (analyze_file_caught _ _ _ _ Hrun Hc) in Hr.
      injection Hr as <-.
      pose proof (try_block_caught _ _ _ _ Hrun Hc) as Hr1.
      apply consistent_guess.
      * apply consistent_other; try discriminate.
        destruct Hr1 as [-> | [issue ->]];
          [| apply consistent_other; try discriminate];
          apply consistent_initial.
      * rewrite lookup_insert_ne by discriminate.
        by destruct (caught_mode_none r1 Hr1) as [? _].
    + rewrite (analyze_file_uncaught _ _ _ _ Hrun Hu) in Hr. discriminate.
  - unfold Video3DAnalyzer.analyze_file in Hr. rewrite Hrun in Hr.
    injection Hr as <-.
    destruct (try_block_cases W file_path)
      as [[_ H] | [[issue H] | [[e' H] | [data H]]]];
      try (rewrite H in Hrun; discriminate).
    rewrite H in Hrun.
    pose proof (sound_keeps _ _ initial_result
                  (inspect_streams_consistent data) consistent_initial)
      as Hk.
    by rewrite Hrun in Hk.
Qed.

(** X8 — In every dictionary that [Video3DAnalyzer.analyze_file] returns
    the three entries of the detection agree: either [is_3d] and
    [has_mvc_track] are false and the mode is 'none'; or both are true and
    the mode is 'mvc'; or [is_3d] is true, [has_mvc_track] is false and the
    mode is 'anaglyph', 'tab' or 'sbs'.  So [is_3d] holds exactly when the
    mode is not 'none', and [has_mvc_track] exactly when it is 'mvc'. *)
Theorem detection_flags_are_consistent
    (W : World) (file_path : string) (r : gmap string json) :
  Video3DAnalyzer.analyze_file W file_path = inr r ->
  consistent r
  /\ (r !! "is_3d" = Some (JBool true)
      <-> r !! "stereo_mode" <> Some (JStr "none"))
  /\ (r !! "has_mvc_track" = Some (JBool true)
      <-> r !! "stereo_mode" = Some (JStr "mvc")).
Proof.
  intros Hr. pose proof (returned_consistent _ _ _ Hr) as Hc.
  split; [exact Hc |].
  destruct Hc as [(H3 & Hm & Hc) | [(H3 & Hc & Hm) | (H3 & Hm & c & Hin & Hc)]];
    rewrite H3, Hm, Hc.
  - split; split; intros; congruence.
  - split; split; intros; congruence.
  - mode_cases Hin; (split; split; intros; congruence).
Qed.

Lemma detection_flags_are_consistent_witness :
  exists r,
    Video3DAnalyzer.analyze_file (world_with_output framepacked_probe)
      "movie.mkv" = inr r
    /\ consistent r
    /\ (r !! "is_3d" = Some (JBool true)
        <-> r !! "stereo_mode" <> Some (JStr "none"))
    /\ (r !! "has_mvc_track" = Some (JBool true)
        <-> r !! "stereo_mode" = Some (JStr "mvc")).
Proof.
  eexists. split; [reflexivity |].
  apply (detection_flags_are_consistent (world_with_output framepacked_probe)
           "movie.mkv").
  reflexivity.
Defined.

(** *** Streams of the codec 'mvc' *)

Lemma eq_str_true v s : Py.eq_str v s = true <-> v = JStr s.
Proof.
  destruct v; simpl; try (split; [discriminate | discriminate]).
  destruct (String.eqb_spec s0 s); split; congruence.
Qed.

Lemma find_mvc_stream_finds streams stream r r' :
  stream ∈ streams -> has_text "codec_name" "mvc" stream ->
  find_mvc_stream streams r = (inr tt, r') -> is_mvc_result r'.
Proof.
  intros Hin (kvs & -> & Hcn). revert r.
  induction streams as [| s rest IH]; intros r Hrun;
    [by apply elem_of_nil in Hin |].
  simpl in Hrun. unfold bind at 1, lift at 1 in Hrun.
  destruct (Py.get s "codec_name" JNull) as [e | cn] eqn:Hget;
    [discriminate |].
  destruct (Py.eq_str cn "mvc") eqn:Heq.
  - injection Hrun as <-. apply consistent_mvc.
  - apply elem_of_cons in Hin as [<- | Hin]; [| by apply (IH Hin r)].
    simpl in Hget. rewrite Hcn in Hget. injection Hget as <-.
    discriminate.
Qed.

Lemma streams_of_run data streams r :
  streams_of data streams ->
  inspect_streams data r =
    (for_each inspect_stream streams ;;;
     let* has_mvc := getitem "has_mvc_track" in
     when (negb (Py.truthy has_mvc)) (find_mvc_stream streams)) r.
Proof.
  intros (kvs & -> & Hss). unfold inspect_streams. simpl Py.get.
  rewrite Hss. by rewrite !bind_lift_inr.
Qed.

(** X9 — When one of the streams that the probing tool lists is of the
    codec 'mvc', whatever its type, and
    [Video3DAnalyzer.analyze_file] returns, then it reports the
    multi-view mode; for output of the probe's shape it returns. *)
Theorem stream_of_codec_mvc_is_reported
    (W : World) (file_path : string) (data : json)
    (streams : list json) (stream : json) :
  probe_returns W file_path data ->
  streams_of data streams ->
  stream ∈ streams -> has_text "codec_name" "mvc" stream ->
  (forall r,
     Video3DAnalyzer.analyze_file W file_path = inr r -> is_mvc_result r)
  /\ (wf_probe data = true ->
      exists r, Video3DAnalyzer.analyze_file W file_path = inr r).
Proof.
  intros Hprobe Hss Hin Hmvc. rewrite (analyze_file_probe _ _ _ Hprobe).
  split.
  - intros r Hr.
    destruct (inspect_streams data initial_result) as [[e | []] r'] eqn:Hrun;
      [discriminate |].
    injection Hr as ->.
    rewrite (streams_of_run _ _ _ Hss) in Hrun. unfold bind at 1 in Hrun.
    destruct (for_each inspect_stream streams initial_result)
      as [[e | []] r1] eqn:Hloop; [discriminate |].
    assert (H1 : consistent r1).
    { pose proof (sound_keeps consistent _ initial_result
                    (sound_for_each _ _ streams
                       (inspect_stream_keeps _ consistent_promote
                          (fun v r => consistent_other "width" v r
                             ltac:(discriminate) ltac:(discriminate)
                             ltac:(discriminate))
                          (fun v r => consistent_other "height" v r
                             ltac:(discriminate) ltac:(discriminate)
                             ltac:(discriminate))
                          (fun r _ => or_intror (or_introl (consistent_mvc r)))))
                    consistent_initial) as Hk.
      by rewrite Hloop in Hk. }
    unfold bind, getitem in Hrun.
    destruct H1 as [(H3 & Hm & Hc) | [H1 | (H3 & Hm & c & Hi & Hc)]].
    + rewrite Hm in Hrun. simpl in Hrun.
      by apply (find_mvc_stream_finds streams stream r1).
    + destruct H1 as (H3 & Hc & Hm). rewrite Hm in Hrun. simpl in Hrun.
      injection Hrun as <-. by split_and!.
    + rewrite Hm in Hrun. simpl in Hrun.
      by apply (find_mvc_stream_finds streams stream r1).
  - intros Hwf.
    destruct (inspect_streams_total data Hwf initial_result
                initial_result_well_typed) as ([] & r & -> & _).
    by exists r.
Qed.

Lemma stream_of_codec_mvc_is_reported_witness :
  (forall r,
     Video3DAnalyzer.analyze_file (world_with_output dependent_view_probe)
       "movie.mkv" = inr r ->
     is_mvc_result r)
  /\ (wf_probe dependent_view_probe = true ->
      exists r,
        Video3DAnalyzer.analyze_file (world_with_output dependent_view_probe)
          "movie.mkv" = inr r).
Proof.
  apply (stream_of_codec_mvc_is_reported
           (world_with_output dependent_view_probe) "movie.mkv"
           dependent_view_probe
           [JObj [("codec_type", JStr "video"); ("codec_name", JStr "h264");
                  ("width", JInt 1920); ("height", JInt 1080)];
            JObj [("codec_type", JStr "data"); ("codec_name", JStr "mvc")]]
           (JObj [("codec_type", JStr "data"); ("codec_name", JStr "mvc")])).
  - exists "/usr/bin/ffprobe", "{...}", "". by split_and!.
  - by eexists.
  - repeat constructor.
  - by eexists.
Defined.

(** *** Files without video *)

Lemma inspect_plain_stream stream r :
  plain_stream stream -> inspect_stream stream r = (inr tt, r).
Proof.
  intros (kvs & -> & Hct & _). unfold inspect_stream. simpl Py.get.
  rewrite bind_lift_inr.
  destruct (Py.eq_str _ "video") eqn:Heq; [| reflexivity].
  apply eq_str_true in Heq. destruct (Py.assoc "codec_type" kvs); simpl in *;
    congruence.
Qed.

Lemma inspect_plain_streams streams r :
  Forall plain_stream streams ->
  for_each inspect_stream streams r = (inr tt, r).
Proof.
  induction 1 as [| s rest Hs _ IH]; simpl; [reflexivity |].
  unfold bind. by rewrite (inspect_plain_stream s r Hs).
Qed.

Lemma find_mvc_plain_streams streams r :
  Forall plain_stream streams -> find_mvc_stream streams r = (inr tt, r).
Proof.
  induction 1 as [| s rest (kvs & -> & _ & Hcn) _ IH]; simpl;
    [reflexivity |].
  rewrite bind_lift_inr.
  destruct (Py.eq_str _ "mvc") eqn:Heq; [| exact IH].
  apply eq_str_true in Heq. destruct (Py.assoc "codec_name" kvs); simpl in *;
    congruence.
Qed.

(** X10 — A file none of whose streams is a video stream or of the codec
    'mvc' (a file without streams among them) is reported as 2D:
    [Video3DAnalyzer.analyze_file] returns the initial dictionary, with the
    mode 'none', the size 0 x 0 and no error. *)
Theorem file_without_video_is_2d
    (W : World) (file_path : string) (data : json) (streams : list json) :
  probe_returns W file_path data ->
  streams_of data streams ->
  Forall plain_stream streams ->
  Video3DAnalyzer.analyze_file W file_path = inr initial_result.
Proof.
  intros Hprobe Hss Hplain. rewrite (analyze_file_probe _ _ _ Hprobe).
  rewrite (streams_of_run _ _ _ Hss). unfold bind at 1.
  rewrite (inspect_plain_streams _ _ Hplain).
  rewrite (bind_getitem "has_mvc_track" _ _ (JBool false)) by reflexivity.
  simpl. by rewrite (find_mvc_plain_streams _ _ Hplain).
Qed.

Lemma file_without_video_is_2d_witness :
  Video3DAnalyzer.analyze_file (world_with_output audio_only_probe)
    "song.mka" = inr initial_result.
Proof.
  apply (file_without_video_is_2d (world_with_output audio_only_probe)
           "song.mka" audio_only_probe
           [JObj [("codec_type", JStr "audio"); ("codec_name", JStr "aac")];
            JObj [("codec_type", JStr "subtitle");
                  ("codec_name", JStr "subrip")];
            JObj [("codec_type", JStr "data")]]).
  - exists "/usr/bin/ffprobe", "{...}", "". by split_and!.
  - by eexists.
  - repeat constructor; eexists; (split; [reflexivity |]);
      split; discriminate.
Defined.

(** *** The reported frame size *)

Lemma for_each_app {A} (body : A -> M unit) (l1 l2 : list A) r :
  for_each body (l1 ++ l2) r = (for_each body l1 ;;; for_each body l2) r.
Proof.
  revert r. induction l1 as [| x l1 IH]; intros r; simpl; [reflexivity |].
  unfold bind in *. destruct (body x r) as [[e | []] r1]; [reflexivity |].
  apply IH.
Qed.

Lemma size_promote w h mode mark r :
  r !! "width" = w /\ r !! "height" = h ->
  (_promote_stereo_mode mode mark r).2 !! "width" = w
  /\ (_promote_stereo_mode mode mark r).2 !! "height" = h.
Proof.
  intros [Hw Hh].
  destruct (promote_cases mode mark r) as [-> | [-> | (p & Hp & _ & ->)]];
    simpl; [by split | by split |].
  destruct (mark || String.eqb mode "mvc"); destruct (p <=? priority mode);
    by simplify_map_eq.
Qed.

Lemma inspect_not_video stream r r' :
  ~ has_text "codec_type" "video" stream ->
  inspect_stream stream r = (inr tt, r') -> r' = r.
Proof.
  intros Hnv. unfold inspect_stream. unfold bind at 1, lift at 1.
  destruct (Py.get stream "codec_type" JNull) as [e | ct] eqn:Hget;
    [discriminate |].
  destruct (Py.eq_str ct "video") eqn:Heq; [| by intros [= <-]].
  exfalso. apply Hnv. apply eq_str_true in Heq as ->.
  destruct stream as [| | | | | | | kvs]; try discriminate.
  exists kvs. split; [reflexivity |]. simpl in Hget.
  destruct (Py.assoc "codec_type" kvs) as [v |]; simpl in Hget; congruence.
Qed.

Lemma inspect_no_video streams r r' :
  Forall (fun s => ~ has_text "codec_type" "video" s) streams ->
  for_each inspect_stream streams r = (inr tt, r') -> r' = r.
Proof.
  intros Hall. revert r. induction Hall as [| s rest Hs _ IH]; intros r; simpl.
  - by intros [= <-].
  - unfold bind. destruct (inspect_stream s r) as [[e | []] r1] eqn:Hrun;
      [discriminate |].
    rewrite (inspect_not_video s r r1 Hs Hrun). apply IH.
Qed.

(** X11 — The size that [Video3DAnalyzer.analyze_file] reports is that of
    the last video stream which the probing tool lists (0 for a dimension
    that the stream lacks), whatever the streams before it say. *)
Theorem reported_size_is_of_last_video_stream
    (W : World) (file_path : string) (data : json)
    (before after : list json) (kvs : list (string * json))
    (r : gmap string json) :
  probe_returns W file_path data ->
  streams_of data (before ++ JObj kvs :: after) ->
  Py.assoc "codec_type" kvs = Some (JStr "video") ->
  Forall (fun s => ~ has_text "codec_type" "video" s) after ->
  Video3DAnalyzer.analyze_file W file_path = inr r ->
  r !! "width" = Some (default (JInt 0) (Py.assoc "width" kvs))
  /\ r !! "height" = Some (default (JInt 0) (Py.assoc "height" kvs)).
Proof.
  intros Hprobe Hss Hvideo Hafter.
  rewrite (analyze_file_probe _ _ _ Hprobe).
  destruct (inspect_streams data initial_result) as [[e | []] r'] eqn:Hrun;
    [discriminate |].
  intros [= ->]. rewrite (streams_of_run _ _ _ Hss) in Hrun.
  set (w := Some (default (JInt 0) (Py.assoc "width" kvs))).
  set (h := Some (default (JInt 0) (Py.assoc "height" kvs))).
  set (P := fun r : gmap string json => r !! "width" = w /\ r !! "height" = h).
  assert (Hpromote : forall mode mark r0,
            mode ∈ classified_modes -> (mark = true -> mode = "mvc") ->
            P r0 -> P (_promote_stereo_mode mode mark r0).2).
  { intros mode mark r0 _ _. apply size_promote. }
  assert (Hmvc : forall r0, P r0 ->
            P (<["stereo_mode" := JStr "mvc"]>
                 (<["has_mvc_track" := JBool true]>
                    (<["is_3d" := JBool true]> r0)))).
  { intros r0 [Hw Hh]. split; by simplify_map_eq. }
  unfold bind at 1 in Hrun. rewrite for_each_app in Hrun.
  unfold bind at 1 in Hrun.
  destruct (for_each inspect_stream before initial_result)
    as [[e | []] r1]; [discriminate |].
  simpl for_each in Hrun. unfold bind at 1 in Hrun.
  destruct (inspect_stream (JObj kvs) r1) as [[e | []] r2] eqn:Hone;
    [discriminate |].
  assert (H2 : P r2).
  { revert Hone. unfold inspect_stream. simpl Py.get. rewrite Hvideo.
    simpl default. rewrite bind_lift_inr.
    change (Py.eq_str (JStr "video") "video") with true. cbn [when].
    rewrite bind_lift_inr, bind_setitem, bind_lift_inr, bind_setitem.
    rewrite (bind_getitem "width" _ _ (default (JInt 0) (Py.assoc "width" kvs)))
      by (by simplify_map_eq).
    rewrite (bind_getitem "height" _ _
               (default (JInt 0) (Py.assoc "height" kvs)))
      by (by simplify_map_eq).
    match goal with
    | |- (?m ;;; ?k) ?r0 = _ -> _ =>
        assert (Hs : sound P (m ;;; k));
        [| assert (H0 : P r0) by (split; by simplify_map_eq);
           intros Hone;
           pose proof (sound_keeps P _ r0 Hs H0) as Hk;
           by rewrite Hone in Hk]
    end.
    apply sound_bind; [apply sound_when, (report_mvc_keeps P Hmvc) |].
    intros _. apply (inspect_video_stream_keeps P Hpromote). }
  destruct (for_each inspect_stream after r2) as [[e | []] r3] eqn:Hrest;
    [discriminate |].
  rewrite (inspect_no_video after r2 r3 Hafter Hrest) in Hrun.
  match type of Hrun with
  | ?m r2 = _ => assert (Hs : sound P m)
  end.
  { apply sound_bind; [apply sound_getitem | intros has_mvc].
    apply sound_when, (find_mvc_stream_keeps P Hmvc). }
  pose proof (sound_keeps P _ r2 Hs H2) as Hk. by rewrite Hrun in Hk.
Qed.

Lemma reported_size_is_of_last_video_stream_witness :
  exists r,
    Video3DAnalyzer.analyze_file (world_with_output cover_art_probe)
      "movie.mkv" = inr r
    /\ r !! "width" = Some (JInt 600)
    /\ r !! "height" = Some (JInt 600).
Proof.
  eexists. split; [reflexivity |].
  apply (reported_size_is_of_last_video_stream
           (world_with_output cover_art_probe) "movie.mkv" cover_art_probe
           [JObj [("codec_type", JStr "video"); ("codec_name", JStr "h264");
                  ("width", JInt 1920); ("height", JInt 1080)];
            JObj [("codec_type", JStr "audio"); ("codec_name", JStr "aac")]]
           [JObj [("codec_type", JStr "subtitle")]]
           [("codec_type", JStr "video"); ("codec_name", JStr "mjpeg");
            ("width", JInt 600); ("height", JInt 600)]).
  - exists "/usr/bin/ffprobe", "{...}", "". by split_and!.
  - by eexists.
  - reflexivity.
  - repeat constructor. intros (kvs & [= <-] & Hct). discriminate.
  - reflexivity.
Defined.

(** ** The preview cache as a dictionary *)

Lemma dict_get_set_ne {V} k k' (v : V) d :
  k <> k' -> Dict.get k' (Dict.set k v d) = Dict.get k' d.
Proof.
  intros Hne. induction d as [| [k0 v0] d IH]; simpl.
  - destruct (Z.eqb_spec k k'); [contradiction | reflexivity].
  - destruct (Z.eqb_spec k0 k) as [-> | Hk]; simpl.
    + destruct (Z.eqb_spec k k'); [contradiction | reflexivity].
    + by rewrite IH.
Qed.

Lemma dict_mem_get {V} k (d : list (Z * V)) :
  Dict.mem k d = true <-> is_Some (Dict.get k d).
Proof.
  induction d as [| [k0 v0] d IH]; simpl.
  - split; [discriminate | by intros [? ?]].
  - destruct (k0 =? k); simpl; [by split; eauto | exact IH].
Qed.

Lemma dict_mem_keys {V} k (d : list (Z * V)) :
  Dict.mem k d = true <-> k ∈ keys d.
Proof.
  unfold keys. induction d as [| [k0 v0] d IH]; simpl.
  - split; [discriminate | by intros ?%elem_of_nil].
  - rewrite elem_of_cons, orb_true_iff, IH, Z.eqb_eq.
    split; intros [-> | ?]; auto.
Qed.

Lemma keys_set {V} k (v : V) d :
  keys (Dict.set k v d) = if Dict.mem k d then keys d else (keys d ++ [k])%list.
Proof.
  unfold keys. induction d as [| [k0 v0] d IH]; simpl; [reflexivity |].
  destruct (k0 =? k) eqn:E; simpl; [reflexivity |].
  rewrite IH. by destruct (Dict.mem k d).
Qed.

Lemma nodup_set {V} k (v : V) d :
  NoDup (keys d) -> NoDup (keys (Dict.set k v d)).
Proof.
  intros Hd. rewrite keys_set. destruct (Dict.mem k d) eqn:Hm; [exact Hd |].
  apply NoDup_app. split_and!; [exact Hd | | apply NoDup_singleton].
  intros x Hx ->%list_elem_of_singleton.
  apply dict_mem_keys in Hx. congruence.
Qed.


Lemma cache_put_eviction cache_key pixmap cache :
  cache_put cache_key pixmap cache
  = Dict.set cache_key pixmap (after_eviction cache).
Proof.
  unfold cache_put, after_eviction.
  destruct (100 <? Z.of_nat (length cache)); [| reflexivity].
  destruct cache as [| [k0 v0] rest]; simpl; [reflexivity |].
  by rewrite Z.eqb_refl.
Qed.

Lemma keys_tl {V} (d : list (Z * V)) : keys (tl d) = tl (keys d).
Proof. by destruct d. Qed.

Lemma nodup_after_eviction cache :
  NoDup (keys cache) -> NoDup (keys (after_eviction cache)).
Proof.
  unfold after_eviction. destruct (100 <? _); [| done].
  destruct cache as [| [k0 v0] rest]; simpl; [done |].
  by intros [_ ?]%NoDup_cons.
Qed.

Lemma get_after_eviction k cache :
  k ∈ keys (after_eviction cache) -> NoDup (keys cache) ->
  Dict.get k (after_eviction cache) = Dict.get k cache.
Proof.
  unfold after_eviction. destruct (100 <? _); [| done].
  destruct cache as [| [k0 v0] rest]; simpl; [done |].
  intros Hk [Hk0 _]%NoDup_cons.
  destruct (Z.eqb_spec k0 k) as [-> | _]; [contradiction | reflexivity].
Qed.

(** X12 — The insertion that [_on_extraction_done] makes into the cache:
    the frame is then found under its key; a frame under another key
    that the eviction spares is still found; from a cache of more than
    100 frames the frame that was inserted first is evicted, and from a
    smaller cache none; a key that is already present keeps its place
    among the keys, so that a frame is evicted by the age of its first
    insertion, not of its last use, and a new key goes last. *)
Theorem cache_is_first_in_first_out
    (cache_key : Z) (pixmap : QPixmap) (cache : list (Z * QPixmap)) :
  NoDup (keys cache) ->
  let cache' := cache_put cache_key pixmap cache in
  Dict.get cache_key cache' = Some pixmap
  /\ (forall k, k <> cache_key -> k ∈ keys (after_eviction cache) ->
        Dict.get k cache' = Dict.get k cache)
  /\ (forall oldest,
        (100 < length cache)%nat -> Dict.first_key cache = Some oldest ->
        after_eviction cache = tl cache
        /\ (oldest <> cache_key -> Dict.mem oldest cache' = false))
  /\ ((length cache <= 100)%nat -> after_eviction cache = cache)
  /\ keys cache' =
       (if Dict.mem cache_key (after_eviction cache)
        then keys (after_eviction cache)
        else keys (after_eviction cache) ++ [cache_key])%list
  /\ NoDup (keys cache').
Proof.
  intros Hd cache'. subst cache'. rewrite cache_put_eviction. split_and!.
  - apply dict_get_set.
  - intros k Hne Hk. rewrite dict_get_set_ne by done.
    by apply get_after_eviction.
  - intros oldest Hfull Hfirst.
    assert (Hev : after_eviction cache = tl cache).
    { unfold after_eviction.
      destruct (Z.ltb_spec 100 (Z.of_nat (length cache))); [done | lia]. }
    split; [exact Hev |]. intros Hne. rewrite Hev.
    destruct cache as [| [k0 v0] rest]; [discriminate |].
    simpl in *. injection Hfirst as ->.
    apply NoDup_cons in Hd as [Hk0 Hd].
    destruct (Dict.mem oldest (Dict.set cache_key pixmap rest)) eqn:Hm;
      [| reflexivity].
    apply dict_mem_keys in Hm. rewrite keys_set in Hm.
    destruct (Dict.mem cache_key rest); [contradiction |].
    apply elem_of_app in Hm as [Hm | Hm%list_elem_of_singleton]; done.
  - intros Hroom. unfold after_eviction.
    destruct (Z.ltb_spec 100 (Z.of_nat (length cache))); [lia | done].
  - apply keys_set.
  - by apply nodup_set, nodup_after_eviction.
Qed.

Lemma cache_is_first_in_first_out_witness :
  let cache' := cache_put 0 (Pixmap "frame 0 again") full_cache in
  Dict.get 0 cache' = Some (Pixmap "frame 0 again")
  /\ Dict.mem 1 cache' = true
  /\ keys cache' = (map Z.of_nat (seq 1 100) ++ [0])%list
  /\ length cache' = 101%nat.
Proof.
  destruct (cache_is_first_in_first_out 0 (Pixmap "frame 0 again") full_cache)
    as (H1 & _ & _ & _ & _ & _).
  - apply (bool_decide_unpack _). by vm_compute.
  - split; [exact H1 |]. by vm_compute.
Defined.

(** ** What holds of every state of the slider *)







(** ** Hovering over a cached second *)

(** X14 — A hover on a second other than that of the last request, whose
    frame is in the cache, shows the frame at once, at the position of
    the cursor, and starts nothing: no job is submitted, the cache is as it
    was (the hit does not renew the frame's place in it), and the timer and
    the pending values are as they were, so that an extraction that was
    pending for another second still takes place. *)
Theorem cached_second_is_shown_at_once
    (s : TimeSlider) (x pos : Q) (pixmap : QPixmap) :
  0 < maximum s ->
  option_truthy (_video_file s) = true ->
  hover_time_of s x <> _last_preview_time s ->
  Dict.get (hover_time_of s x) (_preview_cache s) = Some pixmap ->
  isNull pixmap = false ->
  let s' := (mouseMoveEvent s x pos).1 in
  (mouseMoveEvent s x pos).2
  = [SetToolTip (time_str (hover_time_of s x)); SetPixmap pixmap;
     ShowPreviewAt pos; Update]
  /\ s' = set_last_preview_time (set_hover s (hover_time_of s x))
            (hover_time_of s x)
  /\ _preview_cache s' = _preview_cache s
  /\ _extraction_timer s' = _extraction_timer s
  /\ pending_job s' = pending_job s.
Proof.
  intros Hmax Hvideo Hlast Hget Hnull.
  assert (Hmove : mouseMoveEvent s x pos =
            (set_last_preview_time (set_hover s (hover_time_of s x))
               (hover_time_of s x),
             [SetToolTip (time_str (hover_time_of s x)); SetPixmap pixmap;
              ShowPreviewAt pos; Update])).
  { unfold mouseMoveEvent. apply Z.ltb_lt in Hmax. rewrite Hmax.
    fold (hover_time_of s x). slider_simpl.
    rewrite half_second_threshold, Hvideo.
    destruct (Z.eqb_spec (hover_time_of s x - _last_preview_time s) 0);
      [lia |].
    cbn [negb andb]. unfold _request_on_demand_preview. slider_simpl.
    rewrite py_round_whole, Hget, Hnull.
    assert (Hm : Dict.mem (hover_time_of s x) (_preview_cache s) = true).
    { apply dict_mem_get. by rewrite Hget. }
    by rewrite Hm. }
  rewrite Hmove. by split_and!.
Qed.

Lemma cached_second_is_shown_at_once_witness :
  (mouseMoveEvent hovering_slider (20 # 1) (200 # 1)).2
  = [SetToolTip "00:00:20"; SetPixmap (Pixmap "frame 20");
     ShowPreviewAt (200 # 1); Update]
  /\ jobs (run (extraction_world (inr 0) true) hovering_slider
             [MouseMove (20 # 1) (200 # 1); Elapse 60]).2
     = [pending_job hovering_slider].
Proof.
  destruct (cached_second_is_shown_at_once hovering_slider (20 # 1) (200 # 1)
              (Pixmap "frame 20")) as (H1 & _); try done.
Defined.

(** ** What ends a pending extraction *)

(** X15 — Only the firing of the timer ends a pending extraction.  When the
    cursor leaves the slider while the timer runs, the job is still
    submitted once the time has passed; and when another file is loaded
    meanwhile, the job is submitted for the new file, at the time and
    position that were pending for the old one. *)
Theorem pending_extraction_is_not_cancelled
    (W : World) (s : TimeSlider) (remaining ms : Z)
    (video_path : option string) :
  _extraction_timer s = Some remaining -> remaining <= ms ->
  (run W s [Leave; Elapse ms]).2
  = [SetToolTip ""; HidePreview; Update; Submit (pending_job s)]
  /\ (run W s [Enter; Elapse ms]).2 = [Update; Submit (pending_job s)]
  /\ jobs (run W (set_video_file s video_path) [Elapse ms]).2
     = [{| job_video_file := video_path;
           job_time_pos := _pending_time s;
           job_mouse_x := _pending_mouse_x s |}]
  /\ _extraction_timer (run W s [Leave; Elapse ms]).1 = None.
Proof.
  intros Htimer Hms. apply Z.leb_le in Hms.
  simpl. unfold elapse. simpl. by rewrite Htimer, Hms.
Qed.

Lemma pending_extraction_is_not_cancelled_witness :
  (run (extraction_world (inr 0) true) hovering_slider [Leave; Elapse 60]).2
  = [SetToolTip ""; HidePreview; Update;
     Submit {| job_video_file := Some "movie.mkv"; job_time_pos := 10;
               job_mouse_x := 100 |}]
  /\ jobs (run (extraction_world (inr 0) true)
             (set_video_file hovering_slider (Some "other.mkv"))
             [Elapse 60]).2
     = [{| job_video_file := Some "other.mkv"; job_time_pos := 10;
           job_mouse_x := 100 |}].
Proof.
  destruct (pending_extraction_is_not_cancelled
              (extraction_world (inr 0) true) hovering_slider 60 60
              (Some "other.mkv")) as (H1 & _ & H3 & _);
    [reflexivity | lia |].
  split; [exact H1 | exact H3].
Defined.

(** ** The result of an extraction *)

Lemma Qltb_lt a b : Qltb a b = true <-> (a < b)%Q.
Proof.
  unfold Qltb. rewrite negb_true_iff. split.
  - intros H. apply Qnot_le_lt. intros Hle.
    apply Qle_bool_iff in Hle. congruence.
  - intros H. destruct (Qle_bool b a) eqn:E; [| reflexivity].
    apply Qle_bool_iff in E. exfalso. by apply (Qlt_not_le a b).
Qed.

(** X16 — What the completion of an extraction shows.  The file that the
    extraction delivers is removed in every case, as the last thing.  An
    image that does not load is neither cached nor shown.  An image that
    loads is shown exactly when the cursor is on the slider and the
    hover time is less than 3 seconds away; it is then shown at the
    position of the latest pending request, whichever request the job
    belongs to. *)
Theorem completed_extraction_is_shown_if_fresh
    (W : World) (s : TimeSlider) (job : ExtractionJob) (temp_file : string) :
  temp_file <> "" ->
  let done := step W s (JobDone job (inr (Some temp_file))) in
  let pixmap := load_pixmap W temp_file in
  let fresh :=
    _is_hovering s = true
    /\ (Qabs (job_time_pos job - inject_Z (_hover_time s)) < 3)%Q in
  (exists shown, done.2 = (shown ++ [RemoveFile temp_file])%list
                 /\ forall path, RemoveFile path ∉ shown)
  /\ (isNull pixmap = true -> done = (s, [RemoveFile temp_file]))
  /\ (isNull pixmap = false -> fresh ->
      done.2 = [SetPixmap pixmap; ShowPreviewAt (_pending_mouse_x s);
                RemoveFile temp_file])
  /\ (isNull pixmap = false -> ~ fresh -> done.2 = [RemoveFile temp_file])
  /\ (forall p, SetPixmap p ∈ done.2 -> isNull pixmap = false /\ fresh).
Proof.
  intros Hne done pixmap fresh. subst done. simpl step.
  unfold _handle_extraction_result.
  destruct (String.eqb_spec temp_file ""); [contradiction |]. cbn [negb].
  unfold _on_extraction_done. fold pixmap.
  destruct (isNull pixmap) eqn:Hnull; cbn [negb].
  - split_and!; try done.
    + exists []. split; [reflexivity |]. intros path H.
      by apply elem_of_nil in H.
    + intros p. simpl. intros H. apply elem_of_cons in H as [H | H];
        [discriminate | by apply elem_of_nil in H].
  - slider_simpl.
    destruct (_is_hovering s) eqn:Hhover; cbn [andb].
    + destruct (Qltb (Qabs (job_time_pos job - inject_Z (_hover_time s))) 3)
        eqn:Hnear.
      * apply Qltb_lt in Hnear. split_and!; try done.
        -- eexists [_; _]. split; [reflexivity |]. intros path H.
           repeat (apply elem_of_cons in H as [H | H]; [discriminate |]).
           by apply elem_of_nil in H.
        -- intros _ Hstale. destruct Hstale. by split.
      * assert (Hfar : ~ fresh).
        { intros [_ Hlt]. apply Qltb_lt in Hlt. congruence. }
        split_and!; try done.
        -- exists []. split; [reflexivity |]. intros path H.
           by apply elem_of_nil in H.
        -- intros p. simpl. intros H. apply elem_of_cons in H as [H | H];
             [discriminate | by apply elem_of_nil in H].
    + assert (Hfar : ~ fresh) by (by intros [? _]).
      split_and!; try done.
      * exists []. split; [reflexivity |]. intros path H.
        by apply elem_of_nil in H.
      * intros p. simpl. intros H. apply elem_of_cons in H as [H | H];
          [discriminate | by apply elem_of_nil in H].
Qed.

Lemma completed_extraction_is_shown_if_fresh_witness :
  (step (extraction_world (inr 0) true) hovering_slider
     (JobDone {| job_video_file := Some "movie.mkv"; job_time_pos := 12;
                 job_mouse_x := 120 |}
        (inr (Some "/tmp/preview_12.jpg")))).2
  = [SetPixmap (Pixmap "/tmp/preview_12.jpg"); ShowPreviewAt 100;
     RemoveFile "/tmp/preview_12.jpg"].
Proof.
  destruct (completed_extraction_is_shown_if_fresh
              (extraction_world (inr 0) true) hovering_slider
              {| job_video_file := Some "movie.mkv"; job_time_pos := 12;
                 job_mouse_x := 120 |} "/tmp/preview_12.jpg")
    as (_ & _ & H & _); [discriminate |].
  apply H; [reflexivity |]. split; reflexivity.
Defined.

(** ** A click on the slider *)

Lemma mouse_move_hover s x pos :
  0 < maximum s ->
  _hover_time (mouseMoveEvent s x pos).1 = hover_time_of s x
  /\ exists rest,
       (mouseMoveEvent s x pos).2
       = SetToolTip (time_str (hover_time_of s x)) :: rest.
Proof.
  intros Hmax. unfold mouseMoveEvent. apply Z.ltb_lt in Hmax. rewrite Hmax.
  fold (hover_time_of s x). slider_simpl.
  destruct (_ && _); [| split; [reflexivity | by eexists]].
  unfold _request_on_demand_preview. slider_simpl.
  destruct (Dict.mem _ _); [| split; [reflexivity | by eexists]].
  destruct (Dict.get _ _) as [pm |]; [| split; [reflexivity | by eexists]].
  destruct (negb (isNull pm)); split; (reflexivity || by eexists).
Qed.

(** X17 — A click with the left button on a slider whose range is not empty
    seeks to the time that the tool tip shows at that place: the position
    that [sliderMoved] carries is the hover time that [mouseMoveEvent]
    stores for the same place, and lies within the range; any other click
    emits nothing. *)
Theorem click_seeks_to_the_time_of_the_tool_tip
    (s : TimeSlider) (left_button : bool) (x pos : Q) :
  (left_button = true -> 0 < maximum s ->
   exists value,
     mousePressEvent s left_button x = Some value
     /\ 0 <= value <= maximum s
     /\ value = _hover_time (mouseMoveEvent s x pos).1
     /\ SetToolTip (time_str value) ∈ (mouseMoveEvent s x pos).2)
  /\ (left_button = false \/ maximum s <= 0 ->
      mousePressEvent s left_button x = None).
Proof.
  unfold mousePressEvent. split.
  - intros -> Hmax. pose proof Hmax as Hlt. apply Z.ltb_lt in Hlt.
    rewrite Hlt. simpl. eexists. split; [reflexivity |].
    unfold bounded_value. split; [lia |].
    assert (Hb : Z.max 0 (Z.min (Z.max 0 (Z.min (py_int x) (maximum s)))
                            (maximum s))
                 = hover_time_of s x)
      by (unfold hover_time_of; lia).
    rewrite Hb.
    destruct (mouse_move_hover s x pos Hmax) as [Hh [rest ->]].
    split; [by rewrite Hh | by left].
  - intros [-> | Hmax]; [reflexivity |].
    destruct (Z.ltb_spec 0 (maximum s)); [lia |]. by rewrite andb_false_r.
Qed.

(** ** Time labels *)

Lemma pad2_small n : 0 <= n < 100 -> String.length (pad2 n) = 2%nat.
Proof.
  intros Hn.
  assert (H : forallb (fun k => Nat.eqb (String.length (pad2 (Z.of_nat k))) 2)
                (seq 0 100) = true) by (by vm_compute).
  rewrite forallb_forall in H.
  specialize (H (Z.to_nat n)). rewrite Z2Nat.id in H by lia.
  apply Nat.eqb_eq, H, in_seq. lia.
Qed.

(** X18 — The labels that [format_time] makes.  Without a time it gives
    "00:00:00", as for the time 0.  For a time of less than 100 hours the
    label has 8 characters, [hh:mm:ss], and whole seconds that differ get
    labels that differ.  The label of a time is the tool tip that the
    slider shows for its whole seconds. *)
Theorem time_label_format (seconds : Q) :
  0 <= py_int seconds < 360000 ->
  String.length (format_time (Some seconds)) = 8%nat
  /\ String.get 2 (format_time (Some seconds)) = Some ":"%char
  /\ String.get 5 (format_time (Some seconds)) = Some ":"%char
  /\ format_time (Some seconds) = time_str (py_int seconds)
  /\ format_time None = format_time (Some (0 # 1))
  /\ (forall other,
        0 <= py_int other < 360000 ->
        format_time (Some other) = format_time (Some seconds) ->
        py_int other = py_int seconds).
Proof.
  assert (Hparts : forall t, 0 <= t < 360000 ->
            exists a b c d e f : ascii,
              time_str t = String a (String b (String ":" (String c (String d
                             (String ":" (String e (String f ""))))))) /\
              pad2 (t / 3600) = String a (String b "") /\
              pad2 (t mod 3600 / 60) = String c (String d "") /\
              pad2 (t mod 3600 mod 60) = String e (String f "")).
  { intros t Ht.
    assert (Hh : 0 <= t / 3600 < 100).
    { split; [apply Z.div_pos; lia |].
      apply Z.div_lt_upper_bound; lia. }
    assert (Hm : 0 <= t mod 3600 / 60 < 100).
    { pose proof (Z.mod_pos_bound t 3600 ltac:(lia)).
      split; [apply Z.div_pos; lia |].
      apply Z.div_lt_upper_bound; lia. }
    assert (Hs : 0 <= t mod 3600 mod 60 < 100).
    { pose proof (Z.mod_pos_bound (t mod 3600) 60 ltac:(lia)). lia. }
    apply pad2_small in Hh, Hm, Hs. unfold time_str.
    destruct (pad2 (t / 3600)) as [| a [| b [| ? ?]]]; try discriminate.
    destruct (pad2 (t mod 3600 / 60)) as [| c [| d [| ? ?]]];
      try discriminate.
    destruct (pad2 (t mod 3600 mod 60)) as [| e [| f [| ? ?]]];
      try discriminate.
    by exists a, b, c, d, e, f. }
  assert (Hpad : forall n n', 0 <= n < 100 -> 0 <= n' < 100 ->
            pad2 n = pad2 n' -> n = n').
  { intros n n' Hn Hn' Heq.
    assert (H : forallb
                  (fun k =>
                     forallb
                       (fun k' =>
                          implb
                            (String.eqb (pad2 (Z.of_nat k))
                               (pad2 (Z.of_nat k')))
                            (Nat.eqb k k'))
                       (seq 0 100))
                  (seq 0 100) = true) by (by vm_compute).
    rewrite forallb_forall in H.
    specialize (H (Z.to_nat n) ltac:(apply in_seq; lia)).
    rewrite forallb_forall in H.
    specialize (H (Z.to_nat n') ltac:(apply in_seq; lia)).
    rewrite !Z2Nat.id in H by lia. rewrite Heq, String.eqb_refl in H.
    apply Nat.eqb_eq in H. lia. }
  intros Ht. change (format_time (Some seconds)) with (time_str (py_int seconds)).
  destruct (Hparts _ Ht) as (a & b & c & d & e & f & Hstr & Hh & Hm & Hs).
  rewrite Hstr. split_and!; try reflexivity.
  intros other Ho.
  change (format_time (Some other)) with (time_str (py_int other)).
  destruct (Hparts _ Ho) as (a' & b' & c' & d' & e' & f' & Hstr' & Hh' & Hm' & Hs').
  rewrite Hstr'. intros [= -> -> -> -> -> ->].
  rewrite <- Hh in Hh'. rewrite <- Hm in Hm'. rewrite <- Hs in Hs'.
  set (t := py_int seconds) in *. set (t' := py_int other) in *.
  assert (B1 : 0 <= t / 3600 < 100 /\ 0 <= t' / 3600 < 100).
  { split; (split; [apply Z.div_pos; lia |
                    apply Z.div_lt_upper_bound; lia]). }
  pose proof (Z.mod_pos_bound t 3600 ltac:(lia)).
  pose proof (Z.mod_pos_bound t' 3600 ltac:(lia)).
  pose proof (Z.mod_pos_bound (t mod 3600) 60 ltac:(lia)).
  pose proof (Z.mod_pos_bound (t' mod 3600) 60 ltac:(lia)).
  assert (B2 : 0 <= t mod 3600 / 60 < 100 /\ 0 <= t' mod 3600 / 60 < 100).
  { split; (split; [apply Z.div_pos; lia |
                    apply Z.div_lt_upper_bound; lia]). }
  apply Hpad in Hh', Hm', Hs'; try lia.
  rewrite (Z.div_mod t 3600), (Z.div_mod t' 3600) by lia.
  rewrite (Z.div_mod (t mod 3600) 60), (Z.div_mod (t' mod 3600) 60) by lia.
  lia.
Qed.

Lemma time_label_format_witness :
  String.length (format_time (Some (36615 # 10))) = 8%nat
  /\ format_time (Some (36615 # 10)) = "01:01:01".
Proof.
  destruct (time_label_format (36615 # 10)) as (H & _);
    [by vm_compute |].
  split; [exact H | reflexivity].
Defined.

(** ** Audio tracks *)

Lemma add_items_blocked tracks : forall c,
  combo_items c <> [] ->
  combo_for
    (fun t : option Z * string * string =>
       let '(track_id, title, lang) := t in
       addItem (track_name title lang) track_id) tracks c
  = ({| combo_items := (combo_items c ++ map track_item tracks)%list;
        combo_index := combo_index c; combo_enabled := combo_enabled c;
        combo_blocked := combo_blocked c |}, []).
Proof.
  induction tracks as [| [[track_id title] lang] rest IH]; intros c Hne.
  - simpl. rewrite app_nil_r. by destruct c.
  - simpl. unfold combo_then, addItem at 1.
    destruct (combo_items c) as [| item items] eqn:Hitems; [done |].
    rewrite IH by (simpl; discriminate). simpl.
    by rewrite <- app_assoc.
Qed.

(** The combo box after [update_audio_tracks]. *)
Lemma update_audio_tracks_result tracks c :
  update_audio_tracks tracks c =
    (match tracks with
     | [] =>
         {| combo_items := [("Audio: No track", None)]; combo_index := 0;
            combo_enabled := false; combo_blocked := false |}
     | _ =>
         {| combo_items :=
              ("Audio: Select a track", None) :: map track_item tracks;
            combo_index := 1; combo_enabled := true;
            combo_blocked := false |}
     end, []).
Proof.
  unfold update_audio_tracks.
  destruct tracks as [| t rest]; [reflexivity |].
  unfold combo_then at 1 2. cbn [blockSignals clear change_index combo_items
    combo_index combo_enabled combo_blocked negb andb app].
  unfold combo_then at 1 2. unfold addItem at 1.
  cbn [combo_items change_index combo_index combo_enabled combo_blocked
       negb andb app].
  unfold combo_then at 1. rewrite add_items_blocked by (simpl; discriminate).
  cbn [combo_items combo_index combo_enabled combo_blocked app].
  unfold combo_then, setEnabled, setCurrentIndex.
  cbn [combo_items combo_index combo_enabled combo_blocked].
  assert (Hlen : (0 <=? 1)
                 && (1 <? Z.of_nat
                            (length (("Audio: Select a track", None)
                                     :: map track_item (t :: rest))))
                 = true).
  { apply andb_true_iff. split; [reflexivity |]. apply Z.ltb_lt.
    simpl length. lia. }
  rewrite Hlen. reflexivity.
Qed.

(** X19 — The combo box of the audio tracks after [update_audio_tracks] and
    after [_fetch_audio_tracks].  While it is filled nothing is announced,
    although the current item changes.  Without tracks it holds the single
    item "Audio: No track" and is disabled.  With tracks its item [i], for
    [i] from 1 on, is track [i - 1]; item 1 is current; the choice of an
    item other than the current one announces the track of this item, if
    the track has an id, and the choice of item 0 or of the current item 1
    announces nothing.  When reading the track list raises, the combo box
    stays as it was. *)
Theorem audio_combo_follows_the_tracks
    (tracks : list (option Z * string * string)) (c : ComboBox) :
  tracks <> [] ->
  let c' := (update_audio_tracks tracks c).1 in
  (update_audio_tracks tracks c).2 = []
  /\ combo_index c' = 1 /\ combo_enabled c' = true /\ combo_blocked c' = false
  /\ length (combo_items c') = S (length tracks)
  /\ (forall i track_id title lang,
        nth_error tracks i = Some (track_id, title, lang) ->
        itemText c' (Z.of_nat (S i)) = track_name title lang
        /\ itemData c' (Z.of_nat (S i)) = track_id
        /\ (i <> 0%nat ->
            (setCurrentIndex (Z.of_nat (S i)) c').2
            = match track_id with Some n => [n] | None => [] end))
  /\ (setCurrentIndex 1 c').2 = []
  /\ (setCurrentIndex 0 c').2 = []
  /\ (update_audio_tracks [] c).1
     = {| combo_items := [("Audio: No track", None)]; combo_index := 0;
          combo_enabled := false; combo_blocked := false |}
  /\ (forall e, _fetch_audio_tracks (inl e) c = (c, []))
  /\ (forall track_list,
        _fetch_audio_tracks (inr track_list) c
        = update_audio_tracks (audio_tracks_of track_list) c).
Proof.
  intros Hne c'. subst c'. rewrite !update_audio_tracks_result.
  destruct tracks as [| t rest]; [done |]. cbn [fst snd].
  split_and!; try reflexivity.
  - simpl. by rewrite length_map.
  - intros i track_id title lang Hi.
    assert (Hnth : nth_error
                     (("Audio: Select a track", None)
                      :: map track_item (t :: rest)) (S i)
                   = Some (track_name title lang, track_id)).
    { cbn [nth_error]. by rewrite nth_error_map, Hi. }
    assert (Hlt : (i < length (t :: rest))%nat).
    { apply nth_error_Some. by rewrite Hi. }
    unfold itemText, itemData, setCurrentIndex, change_index,
      _on_audio_track_changed, itemData.
    cbn [combo_items combo_index combo_enabled combo_blocked].
    rewrite Nat2Z.id.
    destruct (Z.ltb_spec (Z.of_nat (S i)) 0) as [| _]; [lia |].
    rewrite Hnth. split_and!; try reflexivity.
    intros Hi0.
    destruct (Z.leb_spec 0 (Z.of_nat (S i))) as [_ |]; [| lia].
    destruct (Z.ltb_spec (Z.of_nat (S i))
                (Z.of_nat (length (("Audio: Select a track", None : option Z)
                                   :: map track_item (t :: rest)))))
      as [_ | Hge]; [| simpl in Hge; rewrite length_map in Hge; simpl in *; lia].
    cbn [andb negb].
    destruct (Z.eqb_spec 1 (Z.of_nat (S i))) as [| _]; [lia |].
    destruct (Z.ltb_spec 0 (Z.of_nat (S i))) as [_ |]; [| lia].
    reflexivity.
  - unfold setCurrentIndex. by destruct (_ && _).
Qed.

Lemma audio_combo_follows_the_tracks_witness :
  let c' :=
    (_fetch_audio_tracks (inr sample_tracks) audio_track_combo).1 in
  combo_items c'
  = [("Audio: Select a track", None); ("Audio: Surround (eng)", Some 1);
     ("Audio: Track 2", Some 2)]
  /\ (_fetch_audio_tracks (inr sample_tracks) audio_track_combo).2 = []
  /\ (setCurrentIndex 2 c').2 = [2]
  /\ (setCurrentIndex 1 c').2 = [].
Proof.
  destruct (audio_combo_follows_the_tracks (audio_tracks_of sample_tracks)
              audio_track_combo) as (H1 & _); [discriminate |].
  split_and!; [reflexivity | exact H1 | reflexivity | reflexivity].
Defined.

(** ** The window: the 3D modes *)

(** *** What a statement block keeps *)

Lemma window_after_bind {A B} (m : G A) (f : A -> G B) w :
  window_after (gbind m f w)
  = match fst (fst (m w)) with
    | inl _ => window_after (m w)
    | inr a => window_after (f a (window_after (m w)))
    end.
Proof.
  unfold gbind, window_after.
  destruct (m w) as [[[e | a] w'] actions]; [reflexivity |]. simpl.
  by destruct (f a w') as [[b w''] actions'].
Qed.

Lemma keeps_ret P {A} (a : A) : keeps P (gret a).
Proof. by intros w. Qed.

Lemma keeps_lift P {A} (x : res A) : keeps P (glift x).
Proof. by intros w. Qed.

Lemma keeps_self P : keeps P self.
Proof. by intros w. Qed.

Lemma keeps_act P a : keeps P (act a).
Proof. by intros w. Qed.

Lemma keeps_update P f : (forall w, P w -> P (f w)) -> keeps P (update f).
Proof. intros Hf w. apply Hf. Qed.

Lemma keeps_bind P {A B} (m : G A) (f : A -> G B) :
  keeps P m -> (forall a, keeps P (f a)) -> keeps P (gbind m f).
Proof.
  intros Hm Hf w Hw. rewrite window_after_bind.
  destruct (fst (fst (m w))); [by apply Hm | by apply Hf, Hm].
Qed.

Lemma leads_try P Q (body : G unit) : leads P body Q -> leads P (gtry body) Q.
Proof.
  intros Hb w Hw. specialize (Hb w Hw). unfold gtry, window_after in *.
  by destruct (body w) as [[[e | []] w'] actions].
Qed.

Lemma keeps_try P (body : G unit) : keeps P body -> keeps P (gtry body).
Proof. apply leads_try. Qed.

Lemma keeps_when P c (body : G unit) : keeps P body -> keeps P (gwhen c body).
Proof. intros Hb. destruct c; [exact Hb | apply keeps_ret]. Qed.

Lemma leads_update_then P R Q f (k : G unit) :
  (forall w, P w -> R (f w)) -> leads R k Q -> leads P (update f ;;+ k) Q.
Proof. intros Hf Hk w Hw. rewrite window_after_bind. by apply Hk, Hf. Qed.

Lemma leads_self_then P Q {A} (k : PlayerWindow -> G A) :
  (forall w, leads (fun w' => w' = w /\ P w) (k w) Q) ->
  leads P (let+ w := self in k w) Q.
Proof. intros Hk w Hw. rewrite window_after_bind. by apply Hk. Qed.

Lemma leads_bind P Q {A B} (m : G A) (f : A -> G B) :
  leads P m Q -> (forall a, keeps Q (f a)) -> leads P (gbind m f) Q.
Proof.
  intros Hm Hf w Hw. rewrite window_after_bind.
  destruct (fst (fst (m w))); [by apply Hm | by apply Hf, Hm].
Qed.

Lemma leads_weaken (P Q R : PlayerWindow -> Prop) {A} (m : G A) :
  leads P m Q -> (forall w, Q w -> R w) -> leads P m R.
Proof. intros Hm HQ w Hw. by apply HQ, Hm. Qed.

(** The steps of a statement block, with [tac] for the methods that it
    calls. *)
Ltac keeps_with tac :=
  repeat first
    [ solve [tac]
    | apply keeps_bind; [| intros ? ]
    | apply keeps_try
    | apply keeps_when
    | apply keeps_ret | apply keeps_lift | apply keeps_self | apply keeps_act
    | match goal with |- keeps _ (if ?c then _ else _) => destruct c end
    | match goal with |- keeps _ (match ?x with _ => _ end) => destruct x end ].

(** A notification changes the label only. *)
Lemma show_3d_notification_label P message success permanent :
  (forall w text shown, P w -> P (set_label w text shown)) ->
  (forall w s, P w -> P (set_label_style w s)) ->
  keeps P (show_3d_notification message success permanent).
Proof.
  intros Hl Hs. unfold show_3d_notification, set_3d_info.
  keeps_with ltac:(apply keeps_update; intros; first [by apply Hl | by apply Hs]).
Qed.

Section DisplayFree.

Variable H : Host.
Variable off : bool.
Variable P : PlayerWindow -> Prop.
Hypothesis P_free : display_free off P.

Lemma assign_keeps name value :
  (name, value) ∈ assignments off -> keeps P (assign H name value).
Proof.
  intros Hin w Hw. unfold assign, window_after.
  destruct (mpv_accepts H name value); [| exact Hw].
  by apply (free_player off P P_free).
Qed.

Lemma set_3d_info_keeps text : keeps P (set_3d_info text).
Proof.
  unfold set_3d_info. destruct (negb _); apply keeps_update; intros w Hw;
    by apply (free_label off P P_free).
Qed.

Lemma show_3d_notification_keeps message success permanent :
  keeps P (show_3d_notification message success permanent).
Proof.
  unfold show_3d_notification.
  keeps_with ltac:(first
    [ apply set_3d_info_keeps
    | apply keeps_update; intros w Hw; by apply (free_style off P P_free) ]).
Qed.

Lemma configure_3d_output_keeps enable_3d stereo_mode :
  enable_3d || off = true ->
  keeps P (configure_3d_output H enable_3d stereo_mode).
Proof.
  intros Hoff. unfold configure_3d_output. destruct enable_3d; simpl.
  - keeps_with ltac:(first
      [ apply assign_keeps; unfold assignments; apply elem_of_app; right;
        repeat constructor
      | apply show_3d_notification_keeps ]).
  - simpl in Hoff. apply keeps_try, assign_keeps. unfold assignments.
    rewrite Hoff. repeat constructor.
Qed.

(** What [toggle_3d_mode] does after its first assignment. *)
Lemma toggle_3d_mode_keeps enabled :
  enabled || off = true ->
  (forall w, P w -> P (set_3d_enabled w enabled)) ->
  keeps P (toggle_3d_mode H enabled).
Proof.
  intros Hoff He. unfold toggle_3d_mode.
  keeps_with ltac:(first
    [ by apply configure_3d_output_keeps | apply show_3d_notification_keeps
    | apply keeps_update; exact He ]).
Qed.

Lemma change_stereo_mode_keeps mode :
  (forall w, P w -> P (set_stereo_mode w mode)) ->
  keeps P (change_stereo_mode H mode).
Proof.
  intros He. unfold change_stereo_mode.
  keeps_with ltac:(first
    [ by apply configure_3d_output_keeps | apply keeps_update; exact He ]).
Qed.

End DisplayFree.

(** *** The widgets and the fields *)

Lemma in_step_free : display_free true in_step.
Proof. by split. Qed.

Lemma choose_stereo_mode_keeps H index :
  keeps in_step (choose_stereo_mode H index).
Proof.
  unfold choose_stereo_mode.
  set (i := if _ && _ then index else -1).
  set (mode := default "auto" (mode_map !! stereo_mode_text i)).
  apply leads_self_then. intros w0.
  destruct (stereo_mode_combo w0 =? i); simpl; [by intros w [-> Hw] |].
  set (Q := fun w : PlayerWindow =>
              stereo_mode_combo w = i /\ current_stereo_mode w = mode
              /\ is_3d_enabled w = mode_3d_button w).
  assert (HQ : display_free true Q) by by split.
  apply (leads_weaken _ Q); [| by intros w (Hi & Hm & Hb); split;
    [unfold chosen_mode; rewrite Hi, Hm |] ].
  apply (leads_update_then _
           (fun w => stereo_mode_combo w = i
                     /\ is_3d_enabled w = mode_3d_button w)).
  { by intros w [-> [_ Hb]]. }
  apply leads_try. unfold change_stereo_mode. fold mode.
  apply (leads_update_then _ Q); [by intros w [Hi Hb] |].
  keeps_with ltac:(by apply (configure_3d_output_keeps _ true)).
Qed.

Lemma setChecked_keeps H checked : keeps in_step (setChecked H checked).
Proof.
  unfold setChecked. apply leads_self_then. intros w0.
  destruct (Bool.eqb (mode_3d_button w0) checked); simpl;
    [by intros w [-> Hw] |].
  set (Q := fun w : PlayerWindow =>
              current_stereo_mode w = chosen_mode w
              /\ is_3d_enabled w = checked /\ mode_3d_button w = checked).
  assert (HQ : display_free true Q) by by split.
  apply (leads_weaken _ Q);
    [| intros w (Hm & He & Hb); split; [exact Hm | congruence] ].
  apply (leads_update_then _
           (fun w => current_stereo_mode w = chosen_mode w
                     /\ mode_3d_button w = checked)).
  { by intros w [-> [Hm _]]. }
  apply leads_try. unfold toggle_3d_mode.
  apply (leads_update_then _ Q); [by intros w [Hm Hb] |].
  keeps_with ltac:(first
    [ apply (configure_3d_output_keeps _ true);
      [done | apply orb_true_r]
    | by apply (show_3d_notification_keeps true) ]).
Qed.

Lemma analyze_and_configure_3d_keeps W H file_path :
  keeps in_step (analyze_and_configure_3d W H file_path).
Proof.
  unfold analyze_and_configure_3d, enable_3d_controls.
  keeps_with ltac:(first
    [ apply choose_stereo_mode_keeps | apply setChecked_keeps
    | apply (show_3d_notification_keeps true), in_step_free
    | by apply keeps_update ]).
Qed.

Lemma play_file_keeps W H file_path :
  keeps in_step (play_file W H file_path).
Proof.
  unfold play_file, load_audio_tracks.
  keeps_with ltac:(first
    [ apply analyze_and_configure_3d_keeps
    | by apply (configure_3d_output_keeps _ true), in_step_free
    | apply (assign_keeps _ true);
      [apply in_step_free | repeat constructor]
    | by apply keeps_update
    | intros w Hw; unfold load, window_after;
      by destruct (mpv_loads _ _) ]).
Qed.

Lemma handle_keeps W H e : keeps in_step (handle W H e).
Proof.
  destruct e; simpl.
  - apply choose_stereo_mode_keeps.
  - apply keeps_bind; [apply keeps_self | intros w; apply setChecked_keeps].
  - apply keeps_bind; [apply keeps_self | intros w; apply setChecked_keeps].
  - apply play_file_keeps.
  - apply (set_3d_info_keeps true), in_step_free.
Qed.

(** X20 — The widgets and the fields of the window stay in step, whatever
    the user does and whatever mpv and the analysis of a file make of it:
    the mode of the window is the one that the current item of the combo
    box stands for ('auto' when no item is current), and 3D is enabled
    exactly when the 3D button is checked.  This holds for the window that
    [__init__] makes. *)
Theorem widgets_and_fields_stay_in_step
    (W : World) (H : Host) (events : list ui_event) (w : PlayerWindow) :
  in_step w ->
  in_step (handle_all W H w events) /\ in_step new_window.
Proof.
  intros Hw. split; [| by split].
  revert w Hw. induction events as [| e rest IH]; intros w Hw; [exact Hw |].
  simpl. by apply IH, handle_keeps.
Qed.

Lemma widgets_and_fields_stay_in_step_witness :
  in_step new_window
  /\ in_step (handle_all (world_with_files framepacked_probe) sample_host
               new_window [OpenFile "movie.mkv"; Key3; ChooseMode 2])
  /\ in_step new_window.
Proof.
  split; [by split |].
  apply (widgets_and_fields_stay_in_step
           (world_with_files framepacked_probe) sample_host
           [OpenFile "movie.mkv"; Key3; ChooseMode 2] new_window).
  by split.
Defined.

(** *** The display *)

Section ControlFree.

Variable W : World.
Variable H : Host.
Variable off : bool.
Variable P : PlayerWindow -> Prop.
Hypothesis P_display : display_free off P.
Hypothesis P_control : control_free P.

Lemma choose_stereo_mode_free index : keeps P (choose_stereo_mode H index).
Proof.
  unfold choose_stereo_mode, _on_stereo_mode_changed.
  keeps_with ltac:(first
    [ apply (change_stereo_mode_keeps _ off);
      [done | intros; by apply (free_stereo_mode P P_control)]
    | apply keeps_update; intros; by apply (free_combo P P_control) ]).
Qed.

Lemma setChecked_free checked :
  checked || off = true -> keeps P (setChecked H checked).
Proof.
  intros Hoff. unfold setChecked.
  keeps_with ltac:(first
    [ apply (toggle_3d_mode_keeps _ off);
      [done | done | intros; by apply (free_3d_enabled P P_control)]
    | apply keeps_update; intros; by apply (free_button P P_control) ]).
Qed.

Lemma analyze_and_configure_3d_free file_path :
  keeps P (analyze_and_configure_3d W H file_path).
Proof.
  unfold analyze_and_configure_3d, enable_3d_controls.
  keeps_with ltac:(first
    [ apply choose_stereo_mode_free | by apply setChecked_free
    | by apply (show_3d_notification_keeps off)
    | apply keeps_update; intros; by apply (free_info P P_control)
    | apply keeps_update; intros;
      by apply (free_controls_enabled P P_control) ]).
Qed.

Lemma play_file_free file_path : keeps P (play_file W H file_path).
Proof.
  unfold play_file, load_audio_tracks.
  keeps_with ltac:(first
    [ apply analyze_and_configure_3d_free
    | by apply (configure_3d_output_keeps _ off)
    | apply (assign_keeps _ off); [done |];
      unfold assignments; apply elem_of_app; right; repeat constructor
    | apply keeps_update; intros; by apply (free_media P P_control)
    | intros w Hw; unfold load, window_after;
      by destruct (mpv_loads _ _) ]).
Qed.

(** The button of the 3D mode is the only widget that switches 3D off. *)
Lemma handle_free e :
  off = true \/ (e <> ClickMode3D /\ e <> Key3) -> keeps P (handle W H e).
Proof.
  intros Hoff. destruct e; simpl.
  - apply choose_stereo_mode_free.
  - destruct Hoff as [Hoff | [? ?]]; [| done].
    apply keeps_bind; [apply keeps_self | intros w].
    apply setChecked_free. rewrite Hoff. apply orb_true_r.
  - destruct Hoff as [Hoff | [? ?]]; [| done].
    apply keeps_bind; [apply keeps_self | intros w].
    apply setChecked_free. rewrite Hoff. apply orb_true_r.
  - apply play_file_free.
  - by apply (set_3d_info_keeps off).
Qed.

Lemma handle_all_free events w :
  off = true \/ Forall (fun e => e <> ClickMode3D /\ e <> Key3) events ->
  P w -> P (handle_all W H w events).
Proof.
  revert w. induction events as [| e rest IH]; intros w Hoff Hw; [exact Hw |].
  simpl. apply IH.
  - destruct Hoff as [-> | Hall]; [by left | right].
    by inversion Hall.
  - apply handle_free; [| exact Hw].
    destruct Hoff as [-> | Hall]; [by left | right].
    by inversion Hall.
Qed.

End ControlFree.

Lemma mvc_configured_display : display_free true mvc_configured.
Proof.
  split; [| done | done].
  intros w name value Hin Hw k v Hk. simpl.
  destruct (decide (name = k)) as [-> | Hne];
    [| rewrite lookup_insert_ne by done; by apply Hw].
  rewrite lookup_insert. unfold mvc_properties, assignments in *.
  simpl in Hin.
  repeat (apply elem_of_cons in Hin as [Hin | Hin]);
    try (by apply elem_of_nil in Hin);
    repeat (apply elem_of_cons in Hk as [Hk | Hk]);
    try (by apply elem_of_nil in Hk);
    by simplify_eq.
Qed.

Lemma mvc_configured_control : control_free mvc_configured.
Proof. by split. Qed.

Lemma notification_shown message success permanent w :
  message <> "" ->
  show_3d_notification message success permanent w
  = (inr tt, set_label_style (set_label w message true) success,
     if permanent then [] else [SingleShot 5000 ClearInfo]).
Proof.
  intros Hm. unfold show_3d_notification, set_3d_info.
  destruct (String.eqb_spec message "") as [-> | _]; [done |].
  by destruct permanent.
Qed.

Lemma mvc_enabled_message_shown : mvc_enabled_message <> "".
Proof. discriminate. Qed.

(** The multi-view branch of [configure_3d_output] when mpv takes the
    three assignments. *)
Lemma configure_mvc_accepted H stereo_mode w :
  accepts H ["hwdec"; "override-display-fps"; "vf"] ->
  String.eqb stereo_mode "mvc"
  || String.eqb stereo_mode "auto" && detected w "mvc" = true ->
  configure_3d_output H true stereo_mode w
  = (inr tt,
     set_label_style
       (set_label
          (set_player w
             (<["vf" := JStr "scale=1920:2205"]>
                (<["override-display-fps" := JInt 24]>
                   (<["hwdec" := JStr "no"]> (player w)))))
          mvc_enabled_message true) true,
     [SingleShot 5000 ClearInfo]).
Proof.
  intros Hacc Hmode.
  assert (H1 : mpv_accepts H "hwdec" (JStr "no") = true)
    by (apply Hacc; repeat constructor).
  assert (H2 : mpv_accepts H "override-display-fps" (JInt 24) = true)
    by (apply Hacc; repeat constructor).
  assert (H3 : mpv_accepts H "vf" (JStr "scale=1920:2205") = true)
    by (apply Hacc; repeat constructor).
  unfold configure_3d_output, gbind, self.
  cbn -[show_3d_notification detected]. rewrite Hmode.
  unfold gtry, gbind, assign. rewrite H1, H2, H3.
  cbn -[show_3d_notification].
  by rewrite notification_shown by apply mvc_enabled_message_shown.
Qed.

(** X21 — Nothing in the window undoes the multi-view configuration.  Once
    [configure_3d_output] has assigned [hwdec], [override-display-fps]
    and [vf] for the mode 'mvc', they keep these values whatever the user
    does afterwards: when 3D is switched off, when another mode is chosen,
    and when another file is played, a 2D file among them.  Nor does the
    multi-view configuration touch the filter [lavfi-complex] that a
    side-by-side or top-bottom mode has left. *)
Theorem mvc_configuration_is_never_undone
    (W : World) (H : Host) (w : PlayerWindow) (events : list ui_event) :
  accepts H ["hwdec"; "override-display-fps"; "vf"] ->
  let w' := window_after (configure_3d_output H true "mvc" w) in
  mvc_configured w'
  /\ mvc_configured (handle_all W H w' events)
  /\ player w' !! "lavfi-complex" = player w !! "lavfi-complex".
Proof.
  intros Hacc w'.
  assert (Hw' : mvc_configured w').
  { subst w'. rewrite (configure_mvc_accepted H "mvc" w Hacc eq_refl).
    intros k v Hk. unfold mvc_properties in Hk. simpl.
    repeat (apply elem_of_cons in Hk as [Hk | Hk]);
      try (by apply elem_of_nil in Hk); simplify_eq;
      by simplify_map_eq. }
  split; [exact Hw' |]. split.
  - apply (handle_all_free _ _ true);
      [ apply mvc_configured_display | apply mvc_configured_control
      | by left | exact Hw' ].
  - subst w'. rewrite (configure_mvc_accepted H "mvc" w Hacc eq_refl).
    simpl. by simplify_map_eq.
Qed.

Lemma mvc_configuration_is_never_undone_witness :
  accepts sample_host ["hwdec"; "override-display-fps"; "vf"]
  /\ let w' :=
       window_after (configure_3d_output sample_host true "mvc" new_window) in
     mvc_configured w'
     /\ mvc_configured
          (handle_all (world_with_files audio_only_probe) sample_host w'
             [Key3; Key3; ChooseMode 2; OpenFile "song.mkv"])
     /\ player w' !! "lavfi-complex" = player new_window !! "lavfi-complex".
Proof.
  assert (Hacc : accepts sample_host ["hwdec"; "override-display-fps"; "vf"])
    by done.
  split; [exact Hacc |].
  exact (mvc_configuration_is_never_undone
           (world_with_files audio_only_probe) sample_host new_window
           [Key3; Key3; ChooseMode 2; OpenFile "song.mkv"] Hacc).
Defined.

(** *** The mode 'auto' *)

Lemma detected_info w mode :
  detected w mode = true ->
  exists info,
    video_3d_info w = Some info /\ info !! "stereo_mode" = Some (JStr mode).
Proof.
  unfold detected. destruct (video_3d_info w) as [info |];
    [| by rewrite andb_false_r]. intros [_ Hd]%andb_prop.
  exists info. split; [done |].
  destruct (info !! "stereo_mode") as [[] |]; try discriminate.
  by apply String.eqb_eq in Hd as ->.
Qed.

Lemma detected_other w mode other :
  detected w mode = true -> other <> mode -> detected w other = false.
Proof.
  intros (info & Hi & Hm)%detected_info Hne. unfold detected.
  rewrite Hi, Hm. simpl. apply andb_false_intro2.
  by apply String.eqb_neq.
Qed.

(** X22 — What [configure_3d_output] makes of the mode 'auto': when the
    analysis of the file has found 'mvc', 'sbs' or 'tab', exactly what it
    does for that mode; when there is no analysis, or the analysis has
    found none of the three (a 2D file, an anaglyph file), nothing at all.
    It does nothing either for a mode that is none of 'auto', 'mvc', 'sbs'
    and 'tab', so for 'mono': the properties of mpv and the label stay as
    the mode before has left them. *)
Theorem auto_mode_follows_the_detection
    (H : Host) (w : PlayerWindow) (mode : string) :
  (mode ∈ ["mvc"; "sbs"; "tab"] -> detected w mode = true ->
   configure_3d_output H true "auto" w = configure_3d_output H true mode w)
  /\ (video_3d_info w = None
      \/ (exists info found,
            video_3d_info w = Some info
            /\ info !! "stereo_mode" = Some (JStr found)
            /\ found ∉ ["mvc"; "sbs"; "tab"]) ->
      configure_3d_output H true "auto" w = (inr tt, w, []))
  /\ (mode ∉ ["auto"; "mvc"; "sbs"; "tab"] ->
      configure_3d_output H true mode w = (inr tt, w, [])).
Proof.
  split; [| split].
  - intros Hin Hd. unfold configure_3d_output, gbind, self.
    cbn -[show_3d_notification detected assign gtry].
    repeat (apply elem_of_cons in Hin as [-> | Hin]);
      [.. | by apply elem_of_nil in Hin];
      rewrite ?Hd, ?(detected_other w _ "mvc" Hd), ?(detected_other w _ "sbs" Hd)
        by discriminate;
      cbn -[show_3d_notification detected assign gtry];
      by destruct (gtry _ w) as [[? ?] ?].
  - intros Hno.
    assert (Hd : forall m, m ∈ ["mvc"; "sbs"; "tab"] -> detected w m = false).
    { intros m Hm. unfold detected.
      destruct Hno as [-> | (info & found & -> & Hf & Hnot)];
        [by rewrite andb_false_r |].
      rewrite Hf. simpl. apply andb_false_intro2, String.eqb_neq.
      by intros ->. }
    unfold configure_3d_output, gbind, self.
    cbn -[show_3d_notification detected assign gtry].
    by rewrite !Hd by repeat constructor.
  - intros Hnot. repeat apply not_elem_of_cons in Hnot as [? Hnot].
    unfold configure_3d_output, gbind, self.
    cbn -[show_3d_notification detected assign gtry].
    by repeat (rewrite (proj2 (String.eqb_neq mode _)) by done).
Qed.

(** *** The filter of the side-by-side and top-bottom modes *)

Lemma filter_on_display : display_free false filter_on.
Proof.
  split; [| done | done].
  intros w name value Hin (filter & Hf & Hw). unfold filter_on. simpl.
  destruct (decide (name = "lavfi-complex")) as [-> | Hne];
    [| exists filter; by rewrite lookup_insert_ne].
  rewrite lookup_insert. unfold assignments in Hin. simpl in Hin.
  repeat (apply elem_of_cons in Hin as [Hin | Hin]);
    try (by apply elem_of_nil in Hin);
    simplify_eq; eexists; (split; [| reflexivity]); discriminate.
Qed.

Lemma filter_on_control : control_free filter_on.
Proof. by split. Qed.

Lemma assign_accepted H name value w :
  mpv_accepts H name value = true ->
  assign H name value w
  = (inr tt, set_player w (<[name := value]> (player w)), []).
Proof. intros Ha. unfold assign. by rewrite Ha. Qed.

(** X23 — The filter that the side-by-side and the top-bottom mode assign to
    [lavfi-complex] stays in place until the 3D button is unchecked, by a
    click or by the key [3]: the choice of another mode (of '2D (Mono)'
    too) and the playing of another file, whatever it is, leave a filter
    in place.  Unchecking the button while a file is loaded assigns the
    empty filter. *)
Theorem filter_stays_until_3d_is_switched_off
    (W : World) (H : Host) (w : PlayerWindow) (events : list ui_event) :
  filter_on w ->
  Forall (fun e => e <> ClickMode3D /\ e <> Key3) events ->
  filter_on (handle_all W H w events)
  /\ (accepts H ["lavfi-complex"] ->
      (forall mode w0,
         mode ∈ ["sbs"; "tab"] ->
         filter_on (window_after (configure_3d_output H true mode w0)))
      /\ (has_media w = true -> mode_3d_button w = true ->
          player (window_after (key_3 H w)) !! "lavfi-complex"
          = Some (JStr ""))).
Proof.
  intros Hw Hev. split.
  { apply (handle_all_free _ _ false);
      [apply filter_on_display | apply filter_on_control | by right | done]. }
  intros Hacc.
  assert (Ha : forall value, mpv_accepts H "lavfi-complex" value = true)
    by (intros value; apply Hacc; repeat constructor).
  split.
  - intros mode w0 Hin. unfold configure_3d_output, gbind, self.
    repeat (apply elem_of_cons in Hin as [-> | Hin]);
      [.. | by apply elem_of_nil in Hin];
      cbn -[show_3d_notification assign]; unfold gtry, gbind;
      rewrite assign_accepted by apply Ha;
      rewrite notification_shown by discriminate;
      eexists; (split; [| by simplify_map_eq]); discriminate.
  - intros Hmedia Hbutton.
    set (Q := fun w' : PlayerWindow =>
                player w' !! "lavfi-complex" = Some (JStr "")).
    change (Q (window_after (key_3 H w))).
    unfold key_3. rewrite window_after_bind. cbn [self fst snd window_after].
    rewrite Hbutton. unfold setChecked.
    rewrite window_after_bind. cbn [self fst snd window_after].
    rewrite Hbutton. cbn [negb Bool.eqb gwhen].
    apply (leads_update_then
             (fun w' => w' = w) (fun w' => has_media w' = true));
      [by intros ? -> | | done].
    apply leads_try. unfold toggle_3d_mode.
    apply (leads_update_then _ (fun w' => has_media w' = true));
      [done |].
    apply leads_self_then. intros w1 w2 [-> Hm]. rewrite Hm.
    cbn [gwhen].
    apply (leads_bind (fun _ => True) Q); [| | done].
    + intros w' _. unfold configure_3d_output. cbn [negb]. unfold gtry.
      rewrite assign_accepted by apply Ha. unfold Q. simpl.
      by rewrite lookup_insert.
    + intros _.
      keeps_with ltac:(by apply show_3d_notification_label).
Qed.

Lemma filter_stays_until_3d_is_switched_off_witness :
  let w :=
    window_after (configure_3d_output sample_host true "sbs" new_window) in
  let events := [ChooseMode 4; OpenFile "song.mkv"; ChooseMode 1] in
  filter_on w
  /\ Forall (fun e => e <> ClickMode3D /\ e <> Key3) events
  /\ filter_on
       (handle_all (world_with_files audio_only_probe) sample_host w events)
  /\ (accepts sample_host ["lavfi-complex"] ->
      (forall mode w0,
         mode ∈ ["sbs"; "tab"] ->
         filter_on
           (window_after (configure_3d_output sample_host true mode w0)))
      /\ (has_media w = true -> mode_3d_button w = true ->
          player (window_after (key_3 sample_host w)) !! "lavfi-complex"
          = Some (JStr ""))).
Proof.
  intros w events.
  assert (Hw : filter_on w).
  { eexists. split; [| reflexivity]. discriminate. }
  assert (Hev : Forall (fun e => e <> ClickMode3D /\ e <> Key3) events).
  { by repeat constructor. }
  split; [exact Hw |]. split; [exact Hev |].
  exact (filter_stays_until_3d_is_switched_off
           (world_with_files audio_only_probe) sample_host w events Hw Hev).
Defined.

(** *** What a method returns and leaves *)

Lemma gives_ret P {A} (a : A) (Q : A -> PlayerWindow -> Prop) :
  (forall w, P w -> Q a w) -> gives P (gret a) Q.
Proof. intros HQ w Hw. exists a. split; [reflexivity | by apply HQ]. Qed.

Lemma gives_bind P {A B} (m : G A) (f : A -> G B) R Q :
  gives P m R -> (forall a, gives (R a) (f a) Q) -> gives P (gbind m f) Q.
Proof.
  intros Hm Hf w Hw. destruct (Hm w Hw) as (a & Ha & HR).
  destruct (Hf a _ HR) as (b & Hb & HQ). exists b.
  rewrite window_after_bind, Ha. split; [| exact HQ].
  unfold gbind, window_after in *.
  destruct (m w) as [[x w'] actions]. simpl in Ha. subst x. simpl in *.
  by destruct (f a w') as [[y w''] actions'].
Qed.

Lemma gives_bind_lift P {A B} (x : res A) a (f : A -> G B) Q :
  x = inr a -> gives P (f a) Q -> gives P (gbind (glift x) f) Q.
Proof.
  intros -> Hf. apply (gives_bind _ _ _ (fun a' w => a' = a /\ P w)).
  - intros w Hw. by exists a.
  - intros a' w [-> Hw]. by apply Hf.
Qed.

Lemma gives_bind_update P R f {B} (k : G B) Q :
  (forall w, P w -> R (f w)) -> gives R k Q -> gives P (update f ;;+ k) Q.
Proof.
  intros Hf Hk. apply (gives_bind _ _ _ (fun _ => R)); [| done].
  intros w Hw. exists tt. split; [reflexivity | by apply Hf].
Qed.

Lemma gives_bind_self P {B} (k : PlayerWindow -> G B) Q :
  (forall w0, P w0 -> gives (fun w => w = w0) (k w0) Q) ->
  gives P (let+ w := self in k w) Q.
Proof.
  intros Hk. apply (gives_bind _ _ _ (fun a w => w = a /\ P a)).
  - intros w Hw. by exists w.
  - intros a w [-> Ha]. by apply (Hk a Ha).
Qed.

Lemma gives_bind_act P a {B} (k : G B) Q :
  gives P k Q -> gives P (act a ;;+ k) Q.
Proof.
  intros Hk. apply (gives_bind _ _ _ (fun _ => P)); [| done].
  intros w Hw. by exists tt.
Qed.

Lemma gives_weaken (P P' : PlayerWindow -> Prop) {A} (m : G A)
    (Q Q' : A -> PlayerWindow -> Prop) :
  gives P m Q -> (forall w, P' w -> P w) -> (forall a w, Q a w -> Q' a w) ->
  gives P' m Q'.
Proof.
  intros Hm HP HQ w Hw. destruct (Hm w (HP w Hw)) as (a & Ha & Hq).
  exists a. split; [exact Ha | by apply HQ].
Qed.

(** A method that always returns *)
Lemma gives_of_leads P Q (m : G unit) :
  (forall w, returned (m w)) -> leads P m Q -> gives P m (fun _ => Q).
Proof.
  intros Hr Hl w Hw. destruct (Hr w) as [[] Ha]. exists tt.
  split; [exact Ha | by apply Hl].
Qed.

Lemma returned_try body w : returned (gtry body w).
Proof.
  unfold returned, gtry. destruct (body w) as [[[e | []] w'] actions];
    by exists tt.
Qed.

Lemma returned_notification message success permanent w :
  returned (show_3d_notification message success permanent w).
Proof.
  exists tt. unfold show_3d_notification, set_3d_info.
  by destruct (negb _), permanent.
Qed.

Lemma returned_self {A} (k : PlayerWindow -> G A) w :
  returned (k w w) -> returned ((let+ w0 := self in k w0) w).
Proof.
  unfold returned, gbind, self. intros [a Ha].
  destruct (k w w) as [[x w'] actions]. by exists a.
Qed.

Lemma returned_update {A} f (k : G A) w :
  returned (k (f w)) -> returned ((update f ;;+ k) w).
Proof.
  unfold returned, gbind, update. intros [a Ha].
  destruct (k (f w)) as [[x w'] actions]. by exists a.
Qed.

Lemma returned_when c body w :
  (c = true -> returned (body w)) -> returned (gwhen c body w).
Proof. destruct c; [by intros Hb; apply Hb | by exists tt]. Qed.

Lemma returned_configure H enable_3d stereo_mode w :
  returned (configure_3d_output H enable_3d stereo_mode w).
Proof.
  unfold configure_3d_output.
  destruct enable_3d; cbn [negb]; [| apply returned_try].
  apply returned_self.
  repeat match goal with
         | |- context [if ?c then _ else _] => destruct c
         end;
    try apply returned_try; by exists tt.
Qed.

Lemma returned_choose H index w : returned (choose_stereo_mode H index w).
Proof.
  unfold choose_stereo_mode. apply returned_self, returned_when. intros _.
  apply returned_update, returned_try.
Qed.

Lemma returned_setChecked H checked w : returned (setChecked H checked w).
Proof.
  unfold setChecked. apply returned_self, returned_when. intros _.
  apply returned_update, returned_try.
Qed.

Lemma gives_pure (phi : Prop) P {A} (m : G A) Q :
  (phi -> gives P m Q) -> gives (fun w => phi /\ P w) m Q.
Proof. intros Hm w [Hphi Hw]. by apply Hm. Qed.

Lemma controls_display_free c : display_free true (controls_are c).
Proof. by split. Qed.

(** A method that leaves the fields and the widgets alone *)
Lemma gives_display c (m : G unit) :
  (forall w, returned (m w)) -> keeps (controls_are c) m ->
  gives (controls_are c) m (fun _ => controls_are c).
Proof. apply gives_of_leads. Qed.

Lemma gives_notification c message success permanent :
  gives (controls_are c) (show_3d_notification message success permanent)
    (fun _ => controls_are c).
Proof.
  apply gives_display; [intros w; apply returned_notification |].
  apply (show_3d_notification_keeps true), controls_display_free.
Qed.

Lemma gives_notification_label c message success permanent :
  message <> "" ->
  gives (controls_are c) (show_3d_notification message success permanent)
    (fun _ w => controls_are c w /\ label_is message success w).
Proof.
  intros Hm w Hw. exists tt. rewrite notification_shown by done.
  split; [reflexivity |]. split; [exact Hw | done].
Qed.

Lemma gives_configure H c enable_3d stereo_mode :
  gives (controls_are c) (configure_3d_output H enable_3d stereo_mode)
    (fun _ => controls_are c).
Proof.
  apply gives_display; [intros w; apply returned_configure |].
  apply (configure_3d_output_keeps _ true);
    [apply controls_display_free | apply orb_true_r].
Qed.

Lemma gives_choose H index c :
  gives (controls_are c) (choose_stereo_mode H index)
    (fun _ => controls_are (chosen index c)).
Proof.
  apply gives_of_leads; [intros w; apply returned_choose |].
  unfold choose_stereo_mode, chosen.
  set (i := if _ && _ then index else -1).
  set (mode := default "auto" (mode_map !! stereo_mode_text i)).
  apply leads_self_then. intros w0 w [-> Hc].
  assert (Hi : stereo_mode_combo w0 = stereo_mode_combo c) by by rewrite <- Hc.
  rewrite Hi. destruct (stereo_mode_combo c =? i); [exact Hc |].
  cbn [negb gwhen].
  apply (leads_update_then (fun w => w = w0) (controls_are (set_combo c i)));
    [by intros ? ->; rewrite <- Hc | | reflexivity].
  apply leads_try. unfold change_stereo_mode. fold mode.
  apply (leads_update_then _
           (controls_are (set_stereo_mode (set_combo c i) mode)));
    [by intros w <- |].
  keeps_with ltac:(apply (configure_3d_output_keeps _ true);
                     [apply controls_display_free | apply orb_true_r]).
Qed.

Lemma gives_checked H b c :
  gives (controls_are c) (setChecked H b) (fun _ => controls_are (checked b c)).
Proof.
  apply gives_of_leads; [intros w; apply returned_setChecked |].
  unfold setChecked, checked.
  apply leads_self_then. intros w0 w [-> Hc].
  assert (Hi : mode_3d_button w0 = mode_3d_button c) by by rewrite <- Hc.
  rewrite Hi. destruct (Bool.eqb (mode_3d_button c) b); [exact Hc |].
  cbn [negb gwhen].
  apply (leads_update_then (fun w => w = w0) (controls_are (set_button c b)));
    [by intros ? ->; rewrite <- Hc | | reflexivity].
  apply leads_try. unfold toggle_3d_mode.
  apply (leads_update_then _
           (controls_are (set_3d_enabled (set_button c b) b)));
    [by intros w <- |].
  keeps_with ltac:(first
    [ apply (configure_3d_output_keeps _ true);
      [apply controls_display_free | apply orb_true_r]
    | apply (show_3d_notification_keeps true), controls_display_free ]).
Qed.

Lemma chosen_capable index c :
  is_3d_capable (chosen index c) = is_3d_capable c.
Proof. unfold chosen. by destruct (_ =? _). Qed.

(** *** The analysis of a file *)

Lemma analyze_2d_label W H file_path r c :
  Video3DAnalyzer.analyze_file W file_path = inr r ->
  r !! "is_3d" = Some (JBool false) ->
  gives (controls_are c) (analyze_and_configure_3d W H file_path)
    (fun _ w =>
       controls_are (set_controls_enabled (set_info c (Some r)) false) w
       /\ label_is "2D content detected" true w).
Proof.
  intros Hr H3. unfold analyze_and_configure_3d.
  apply (gives_bind_lift _ _ r); [exact Hr |].
  apply (gives_bind_update _ (controls_are (set_info c (Some r))));
    [by intros w <- |].
  eapply gives_bind.
  { apply gives_display; [intros w; apply returned_when; intros _;
                          apply returned_notification |].
    apply keeps_when, (show_3d_notification_keeps true),
      controls_display_free. }
  intros ?.
  apply (gives_bind_lift _ _ (JBool false)); [unfold item; by rewrite H3 |].
  cbn [Py.truthy]. unfold gbind at 1. cbn [gret].
  change (gives (controls_are (set_info c (Some r)))
            (enable_3d_controls false ;;+
             show_3d_notification "2D content detected" true true)
            (fun _ w =>
               controls_are
                 (set_controls_enabled (set_info c (Some r)) false) w
               /\ label_is "2D content detected" true w)).
  unfold enable_3d_controls.
  apply (gives_bind_update _
           (controls_are (set_controls_enabled (set_info c (Some r)) false)));
    [by intros w <- |].
  by apply gives_notification_label.
Qed.

Lemma analyze_2d W H file_path r c :
  Video3DAnalyzer.analyze_file W file_path = inr r ->
  r !! "is_3d" = Some (JBool false) ->
  gives (controls_are c) (analyze_and_configure_3d W H file_path)
    (fun _ => controls_are (set_controls_enabled (set_info c (Some r)) false)).
Proof.
  intros Hr H3.
  eapply gives_weaken; [by apply analyze_2d_label | done |].
  by intros ? w [Hw _].
Qed.

Lemma analyze_3d_label W H file_path r mode c :
  Video3DAnalyzer.analyze_file W file_path = inr r ->
  r !! "is_3d" = Some (JBool true) ->
  r !! "stereo_mode" = Some (JStr mode) -> mode <> "none" ->
  gives (controls_are c) (analyze_and_configure_3d W H file_path)
    (fun _ w =>
       controls_are
         (let c' :=
            chosen (default 0 (mode_indices !! mode))
              (set_controls_enabled (set_info c (Some r)) true) in
          if String.eqb mode "mvc" && is_3d_capable c
          then checked true c' else c') w
       /\ (String.eqb mode "mvc" && is_3d_capable c = false ->
           label_is
             ("3D File: "
              ++ default (str_upper H mode) (mode_names !! mode))%string
             true w)).
Proof.
  intros Hr H3 Hm Hnone. unfold analyze_and_configure_3d.
  apply (gives_bind_lift _ _ r); [exact Hr |].
  apply (gives_bind_update _ (controls_are (set_info c (Some r))));
    [by intros w <- |].
  eapply gives_bind.
  { apply gives_display; [intros w; apply returned_when; intros _;
                          apply returned_notification |].
    apply keeps_when, (show_3d_notification_keeps true),
      controls_display_free. }
  intros ?.
  apply (gives_bind_lift _ _ (JBool true)); [unfold item; by rewrite H3 |].
  cbn [Py.truthy].
  apply (gives_bind _ _ _
           (fun a w => a = true
                       /\ controls_are (set_info c (Some r)) w)).
  { apply (gives_bind_lift _ _ (JStr mode)); [unfold item; by rewrite Hm |].
    apply gives_ret. intros w Hw. split; [| exact Hw].
    simpl. by apply negb_true_iff, String.eqb_neq. }
  intros is_3d_mode. apply gives_pure. intros ->.
  apply (gives_bind_lift _ _ (JStr mode)); [unfold item; by rewrite Hm |].
  unfold enable_3d_controls.
  set (c1 := set_controls_enabled (set_info c (Some r)) true).
  apply (gives_bind_update _ (controls_are c1));
    [intros w Hw; unfold c1; by rewrite <- Hw |].
  apply (gives_bind_lift _ _ (default 0 (mode_indices !! mode)));
    [reflexivity |].
  eapply gives_bind; [apply gives_choose |]. intros ?.
  apply (gives_bind_lift _ _ (default (str_upper H mode) (mode_names !! mode)));
    [reflexivity |].
  eapply gives_bind; [by apply gives_notification_label |]. intros ?.
  apply gives_bind_self. intros w0 [Hw0 Hl0].
  assert (Hcap : is_3d_capable w0 = is_3d_capable c).
  { transitivity
      (is_3d_capable (chosen (default 0 (mode_indices !! mode)) c1));
      [by rewrite <- Hw0 | by rewrite chosen_capable]. }
  rewrite Hcap. cbn [Py.eq_str]. cbn zeta.
  destruct (String.eqb mode "mvc" && is_3d_capable c).
  - cbn [gwhen].
    apply (gives_weaken
             (controls_are (chosen (default 0 (mode_indices !! mode)) c1)) _ _
             (fun _ => controls_are
                         (checked true
                            (chosen (default 0 (mode_indices !! mode)) c1))));
      [apply gives_checked | by intros w -> | by intros ? w Hw].
  - apply gives_ret. by intros w ->.
Qed.

Lemma analyze_3d W H file_path r mode c :
  Video3DAnalyzer.analyze_file W file_path = inr r ->
  r !! "is_3d" = Some (JBool true) ->
  r !! "stereo_mode" = Some (JStr mode) -> mode <> "none" ->
  gives (controls_are c) (analyze_and_configure_3d W H file_path)
    (fun _ =>
       controls_are
         (let c' :=
            chosen (default 0 (mode_indices !! mode))
              (set_controls_enabled (set_info c (Some r)) true) in
          if String.eqb mode "mvc" && is_3d_capable c
          then checked true c' else c')).
Proof.
  intros Hr H3 Hm Hnone.
  eapply gives_weaken;
    [by apply (analyze_3d_label W H file_path r mode c) | done |].
  by intros ? w [Hw _].
Qed.

Lemma controls_fields c w :
  controls_are c w ->
  has_media w = has_media c
  /\ video_3d_info w = video_3d_info c
  /\ is_3d_enabled w = is_3d_enabled c
  /\ current_stereo_mode w = current_stereo_mode c
  /\ is_3d_capable w = is_3d_capable c
  /\ stereo_mode_combo w = stereo_mode_combo c
  /\ stereo_mode_combo_enabled w = stereo_mode_combo_enabled c
  /\ mode_3d_button w = mode_3d_button c
  /\ mode_3d_button_enabled w = mode_3d_button_enabled c
  /\ current_file_path w = current_file_path c.
Proof. intros <-. by split_and!. Qed.

(** What the choice of the item of a detected mode and the check of the
    button make of a window that is in step. *)
Lemma chosen_in_step index c :
  0 <= index < 4 ->
  current_stereo_mode c = chosen_mode c ->
  stereo_mode_combo (chosen index c) = index
  /\ current_stereo_mode (chosen index c)
     = default "auto" (mode_map !! stereo_mode_text index)
  /\ is_3d_enabled (chosen index c) = is_3d_enabled c
  /\ mode_3d_button (chosen index c) = mode_3d_button c.
Proof.
  intros Hi Hc. unfold chosen.
  assert (E0 : (0 <=? index)
                && (index <? Z.of_nat (length stereo_mode_items)) = true)
    by (apply andb_true_intro;
        split; [apply Z.leb_le | apply Z.ltb_lt]; simpl; lia).
  rewrite E0.
  destruct (stereo_mode_combo c =? index) eqn:E; [| done].
  apply Z.eqb_eq in E. unfold chosen_mode in Hc. rewrite E in Hc.
  by rewrite Hc.
Qed.

Lemma checked_fields b c :
  is_3d_enabled c = mode_3d_button c ->
  is_3d_enabled (checked b c) = b /\ mode_3d_button (checked b c) = b
  /\ stereo_mode_combo (checked b c) = stereo_mode_combo c
  /\ current_stereo_mode (checked b c) = current_stereo_mode c.
Proof.
  intros Hc. unfold checked.
  destruct (Bool.eqb (mode_3d_button c) b) eqn:E; [| done].
  apply Bool.eqb_prop in E. by rewrite Hc, E.
Qed.

(** X24 — What [analyze_and_configure_3d] makes of a file for which the
    analysis returns a result, in a window whose widgets and fields are in
    step.  It returns, and the window holds the result.  The 3D button and
    the combo box of the modes are enabled exactly when the result says
    3D.  For a 2D file the mode, the current item and the 3D button stay
    as the file before has left them.  For a 3D file the current item
    becomes the one of the mode that was found, the first item, 'Auto',
    for the anaglyph mode, and the mode of the window follows; 3D is
    switched on for the mode 'mvc' on a display that is 3D capable, and is
    left as it is otherwise. *)
Theorem analysis_sets_the_controls
    (W : World) (H : Host) (file_path : string) (r : gmap string json)
    (w : PlayerWindow) :
  Video3DAnalyzer.analyze_file W file_path = inr r ->
  in_step w ->
  let w' := window_after (analyze_and_configure_3d W H file_path w) in
  returned (analyze_and_configure_3d W H file_path w)
  /\ video_3d_info w' = Some r
  /\ r !! "is_3d" = Some (JBool (stereo_mode_combo_enabled w'))
  /\ mode_3d_button_enabled w' = stereo_mode_combo_enabled w'
  /\ (r !! "is_3d" = Some (JBool false) ->
      stereo_mode_combo w' = stereo_mode_combo w
      /\ current_stereo_mode w' = current_stereo_mode w
      /\ is_3d_enabled w' = is_3d_enabled w
      /\ mode_3d_button w' = mode_3d_button w)
  /\ (forall mode,
        r !! "is_3d" = Some (JBool true) ->
        r !! "stereo_mode" = Some (JStr mode) ->
        stereo_mode_combo w' = default 0 (mode_indices !! mode)
        /\ current_stereo_mode w'
           = (if bool_decide (mode = "anaglyph") then "auto" else mode)
        /\ is_3d_enabled w'
           = (String.eqb mode "mvc" && is_3d_capable w) || is_3d_enabled w
        /\ mode_3d_button w' = is_3d_enabled w').
Proof.
  intros Hr [Hmode Hbutton] w'.
  pose proof (returned_consistent _ _ _ Hr) as Hc.
  assert (H2d : r !! "is_3d" = Some (JBool false) ->
                returned (analyze_and_configure_3d W H file_path w)
                /\ controls_are
                     (set_controls_enabled
                        (set_info (without_display w) (Some r)) false) w').
  { intros H3.
    destruct (analyze_2d W H file_path r (without_display w) Hr H3 w eq_refl)
      as ([] & Ha & Hw'). split; [by exists tt | exact Hw']. }
  assert (H3d : forall mode,
            r !! "is_3d" = Some (JBool true) ->
            r !! "stereo_mode" = Some (JStr mode) -> mode <> "none" ->
            returned (analyze_and_configure_3d W H file_path w)
            /\ controls_are
                 (let c' :=
                    chosen (default 0 (mode_indices !! mode))
                      (set_controls_enabled
                         (set_info (without_display w) (Some r)) true) in
                  if String.eqb mode "mvc" && is_3d_capable w
                  then checked true c' else c') w').
  { intros mode H3 Hm Hnone.
    destruct (analyze_3d W H file_path r mode (without_display w)
                Hr H3 Hm Hnone w eq_refl) as ([] & Ha & Hw').
    split; [by exists tt | exact Hw']. }
  assert (H3d' : forall mode,
            mode ∈ ["mvc"; "anaglyph"; "tab"; "sbs"] ->
            r !! "is_3d" = Some (JBool true) ->
            r !! "stereo_mode" = Some (JStr mode) ->
            returned (analyze_and_configure_3d W H file_path w)
            /\ video_3d_info w' = Some r
            /\ stereo_mode_combo_enabled w' = true
            /\ mode_3d_button_enabled w' = true
            /\ stereo_mode_combo w' = default 0 (mode_indices !! mode)
            /\ current_stereo_mode w'
               = (if bool_decide (mode = "anaglyph") then "auto" else mode)
            /\ is_3d_enabled w'
               = (String.eqb mode "mvc" && is_3d_capable w) || is_3d_enabled w
            /\ mode_3d_button w' = is_3d_enabled w').
  { intros mode Hin H3 Hm.
    assert (Hnone : mode <> "none").
    { intros ->. repeat (apply elem_of_cons in Hin as [? | Hin]);
        [.. | by apply elem_of_nil in Hin]; discriminate. }
    destruct (H3d mode H3 Hm Hnone) as [Hret Hw'].
    set (c1 := set_controls_enabled
                 (set_info (without_display w) (Some r)) true) in *.
    assert (Hidx : 0 <= default 0 (mode_indices !! mode) < 4
                   /\ default "auto"
                        (mode_map
                         !! stereo_mode_text (default 0 (mode_indices !! mode)))
                      = (if bool_decide (mode = "anaglyph")
                         then "auto" else mode)).
    { repeat (apply elem_of_cons in Hin as [-> | Hin]);
        [.. | by apply elem_of_nil in Hin]; (split; [done | reflexivity]). }
    destruct Hidx as [Hidx Hname].
    destruct (chosen_in_step (default 0 (mode_indices !! mode)) c1 Hidx Hmode)
      as (C1 & C2 & C3 & C4).
    rewrite Hname in C2.
    assert (C5 : is_3d_enabled (chosen (default 0 (mode_indices !! mode)) c1)
                 = mode_3d_button
                     (chosen (default 0 (mode_indices !! mode)) c1))
      by (rewrite C3, C4; exact Hbutton).
    destruct (checked_fields true _ C5) as (K1 & K2 & K3 & K4).
    destruct (controls_fields _ _ Hw')
      as (F1 & F2 & F3 & F4 & F5 & F6 & F7 & F8 & F9 & F10).
    cbn zeta in *.
    split; [exact Hret |].
    destruct (String.eqb mode "mvc" && is_3d_capable w).
    - rewrite F2, F3, F4, F6, F7, F8, F9, K1, K2, K3, K4, C1, C2.
      unfold chosen, checked.
      by repeat match goal with
                | |- context [if ?c then _ else _] => destruct c
                end.
    - rewrite F2, F3, F4, F6, F7, F8, F9, C1, C2, C3, C4.
      unfold chosen.
      split_and!; try done;
        by repeat match goal with
                  | |- context [if ?c then _ else _] => destruct c
                  end. }
  destruct Hc as [(H3 & _ & Hm) | [(H3 & Hm & _) | (H3 & _ & mode & Hin & Hm)]].
  - destruct (H2d H3) as [Hret Hw'].
    destruct (controls_fields _ _ Hw')
      as (F1 & F2 & F3 & F4 & F5 & F6 & F7 & F8 & F9 & F10).
    simpl in *. rewrite F2, F3, F4, F6, F7, F8, F9.
    split_and!; try done. intros mode. congruence.
  - destruct (H3d' "mvc" ltac:(repeat constructor) H3 Hm)
      as (R1 & R2 & R3 & R4 & R5).
    split; [exact R1 |]. split; [exact R2 |]. rewrite R3, R4.
    split; [exact H3 |]. split; [done |]. split; [intros; congruence |].
    intros mode _ Hm'. rewrite Hm in Hm'. by injection Hm' as <-.
  - assert (Hin' : mode ∈ ["mvc"; "anaglyph"; "tab"; "sbs"])
      by (apply elem_of_cons; by right).
    destruct (H3d' mode Hin' H3 Hm) as (R1 & R2 & R3 & R4 & R5).
    split; [exact R1 |]. split; [exact R2 |]. rewrite R3, R4.
    split; [exact H3 |]. split; [done |]. split; [intros; congruence |].
    intros mode' _ Hm'. rewrite Hm in Hm'. by injection Hm' as <-.
Qed.

Lemma analysis_sets_the_controls_witness :
  exists r,
    Video3DAnalyzer.analyze_file (world_with_output framepacked_probe)
      "movie.mkv" = inr r
    /\ in_step new_window
    /\ let w' :=
         window_after
           (analyze_and_configure_3d (world_with_output framepacked_probe)
              sample_host "movie.mkv" new_window) in
       returned
         (analyze_and_configure_3d (world_with_output framepacked_probe)
            sample_host "movie.mkv" new_window)
       /\ video_3d_info w' = Some r
       /\ r !! "is_3d" = Some (JBool (stereo_mode_combo_enabled w'))
       /\ mode_3d_button_enabled w' = stereo_mode_combo_enabled w'
       /\ (r !! "is_3d" = Some (JBool false) ->
           stereo_mode_combo w' = stereo_mode_combo new_window
           /\ current_stereo_mode w' = current_stereo_mode new_window
           /\ is_3d_enabled w' = is_3d_enabled new_window
           /\ mode_3d_button w' = mode_3d_button new_window)
       /\ (forall mode,
             r !! "is_3d" = Some (JBool true) ->
             r !! "stereo_mode" = Some (JStr mode) ->
             stereo_mode_combo w' = default 0 (mode_indices !! mode)
             /\ current_stereo_mode w'
                = (if bool_decide (mode = "anaglyph") then "auto" else mode)
             /\ is_3d_enabled w'
                = (String.eqb mode "mvc" && is_3d_capable new_window)
                  || is_3d_enabled new_window
             /\ mode_3d_button w' = is_3d_enabled w').
Proof.
  eexists. split; [reflexivity |]. split; [by split |].
  apply (analysis_sets_the_controls (world_with_output framepacked_probe)
           sample_host "movie.mkv" _ new_window); [reflexivity | by split].
Defined.

(** *** Playing a file *)

Lemma play_file_gives W H file_path c c1 :
  path_exists W file_path = true ->
  mpv_loads H file_path = true ->
  mpv_accepts H "pause" (JBool false) = true ->
  gives (controls_are c) (analyze_and_configure_3d W H file_path)
    (fun _ => controls_are c1) ->
  gives (controls_are c) (play_file W H file_path)
    (fun _ w' =>
       controls_are (set_media c1 file_path) w'
       /\ exists w1,
            controls_are (set_media c1 file_path) w1
            /\ w' = if is_3d_enabled c1
                    then window_after
                           (configure_3d_output H true
                              (current_stereo_mode c1) w1)
                    else w1).
Proof.
  intros Hpath Hload Hpause Han. unfold play_file. rewrite Hpath.
  cbn [negb].
  eapply gives_bind; [exact Han |]. intros ?.
  set (c2 := set_media c1 file_path).
  apply (gives_bind_update _ (controls_are c2));
    [intros w Hw; unfold c2; by rewrite <- Hw |].
  apply (gives_bind _ _ _ (fun _ => controls_are c2)).
  { intros w Hw. exists tt. unfold load. by rewrite Hload. }
  intros ?.
  apply (gives_bind _ _ _ (fun _ => controls_are c2)).
  { intros w Hw. exists tt. rewrite assign_accepted by done.
    split; [reflexivity | exact Hw]. }
  intros ?.
  do 2 apply gives_bind_act.
  apply (gives_bind _ _ _ (fun _ => controls_are c2)).
  { intros w Hw. exists tt. unfold load_audio_tracks, gbind, self.
    by destruct (has_media w). }
  intros ?.
  apply gives_bind_self. intros w0 Hw0 w ->.
  assert (He : is_3d_enabled w0 = is_3d_enabled c1)
    by (transitivity (is_3d_enabled c2); [by rewrite <- Hw0 | done]).
  assert (Hm : current_stereo_mode w0 = current_stereo_mode c1)
    by (transitivity (current_stereo_mode c2); [by rewrite <- Hw0 | done]).
  rewrite He, Hm. destruct (is_3d_enabled c1); cbn [gwhen].
  - destruct (gives_configure H c2 true (current_stereo_mode c1) w0 Hw0)
      as ([] & Ha & Hw'). exists tt. split; [exact Ha |].
    split; [exact Hw' | by exists w0].
  - exists tt. split; [reflexivity |]. split; [exact Hw0 | by exists w0].
Qed.

Lemma configure_filter_accepted H mode w :
  accepts H ["lavfi-complex"] -> mode ∈ ["sbs"; "tab"] ->
  filter_on (window_after (configure_3d_output H true mode w)).
Proof.
  intros Hacc Hin.
  assert (Ha : forall value, mpv_accepts H "lavfi-complex" value = true)
    by (intros value; apply Hacc; repeat constructor).
  unfold configure_3d_output, gbind, self.
  repeat (apply elem_of_cons in Hin as [-> | Hin]);
    [.. | by apply elem_of_nil in Hin];
    cbn -[show_3d_notification assign]; unfold gtry, gbind;
    rewrite assign_accepted by apply Ha;
    rewrite notification_shown by discriminate;
    eexists; (split; [| by simplify_map_eq]); discriminate.
Qed.

Lemma configure_mvc_result H w :
  accepts H ["hwdec"; "override-display-fps"; "vf"] ->
  let w' := window_after (configure_3d_output H true "mvc" w) in
  mvc_configured w'
  /\ info_3d_label w' = mvc_enabled_message
  /\ info_3d_label_shown w' = true.
Proof.
  intros Hacc. cbn zeta.
  rewrite (configure_mvc_accepted H "mvc" w Hacc eq_refl).
  split; [| done].
  intros k v Hk. unfold mvc_properties in Hk. simpl.
  repeat (apply elem_of_cons in Hk as [Hk | Hk]);
    try (by apply elem_of_nil in Hk); simplify_eq;
    by simplify_map_eq.
Qed.

Lemma accepts_sub H names names' :
  accepts H names -> names' ⊆ names -> accepts H names'.
Proof. intros Ha Hs name value Hin. by apply Ha, Hs. Qed.

(** X25 — A file in which the analysis finds the mode 'mvc', played on a
    display that is 3D capable, from a window whose widgets and fields
    are in step, and with an mpv that takes the file and the assignments:
    [play_file] returns with the file loaded, the item 'MVC' current, the
    3D button checked, 3D enabled in the mode 'mvc', the multi-view
    configuration assigned to mpv and its notice in the label, whatever
    mode and whatever state of the button the window had before. *)
Theorem mvc_file_switches_3d_on
    (W : World) (H : Host) (file_path : string) (r : gmap string json)
    (w : PlayerWindow) :
  path_exists W file_path = true ->
  Video3DAnalyzer.analyze_file W file_path = inr r ->
  r !! "stereo_mode" = Some (JStr "mvc") ->
  mpv_loads H file_path = true ->
  accepts H ["hwdec"; "override-display-fps"; "vf"; "pause"] ->
  in_step w -> is_3d_capable w = true ->
  let w' := window_after (play_file W H file_path w) in
  returned (play_file W H file_path w)
  /\ has_media w' = true /\ current_file_path w' = Some file_path
  /\ video_3d_info w' = Some r
  /\ stereo_mode_combo w' = 1 /\ current_stereo_mode w' = "mvc"
  /\ mode_3d_button w' = true /\ is_3d_enabled w' = true
  /\ mvc_configured w'
  /\ info_3d_label w' = mvc_enabled_message
  /\ info_3d_label_shown w' = true.
Proof.
  intros Hpath Hr Hm Hload Hacc [Hmode Hbutton] Hcap w'.
  assert (H3 : r !! "is_3d" = Some (JBool true)).
  { destruct (returned_consistent _ _ _ Hr)
      as [(_ & _ & E) | [(E & _) | (E & _)]]; [congruence | done | done]. }
  pose proof (analyze_3d W H file_path r "mvc" (without_display w)
                Hr H3 Hm ltac:(discriminate)) as Han.
  cbn zeta in Han.
  change (is_3d_capable (without_display w)) with (is_3d_capable w) in Han.
  rewrite Hcap in Han. cbn [String.eqb Ascii.eqb Bool.eqb andb] in Han.
  set (c0 := set_controls_enabled (set_info (without_display w) (Some r)) true)
    in Han.
  change (default 0 (mode_indices !! "mvc")) with 1 in Han.
  destruct (chosen_in_step 1 c0 ltac:(lia) Hmode) as (C1 & C2 & C3 & C4).
  change (default "auto" (mode_map !! stereo_mode_text 1)) with "mvc" in C2.
  assert (C5 : is_3d_enabled (chosen 1 c0) = mode_3d_button (chosen 1 c0))
    by (rewrite C3, C4; exact Hbutton).
  destruct (checked_fields true _ C5) as (K1 & K2 & K3 & K4).
  destruct (play_file_gives W H file_path (without_display w) _ Hpath Hload
              ltac:(apply Hacc; repeat constructor) Han w eq_refl)
    as ([] & Ha & Hw' & w1 & Hw1 & Heq).
  fold w' in Hw', Heq.
  rewrite K1, K4, C2 in Heq.
  destruct (configure_mvc_result H w1) as (M1 & M2 & M3).
  { eapply accepts_sub; [exact Hacc |]. intros x Hx.
    repeat (apply elem_of_cons in Hx as [-> | Hx]);
      [.. | by apply elem_of_nil in Hx]; repeat constructor. }
  rewrite <- Heq in M1, M2, M3.
  destruct (controls_fields _ _ Hw')
    as (F1 & F2 & F3 & F4 & F5 & F6 & F7 & F8 & F9 & F10).
  split; [by exists tt |].
  rewrite F1, F2, F3, F4, F6, F8, F10. cbn [has_media set_media video_3d_info
    is_3d_enabled current_stereo_mode stereo_mode_combo mode_3d_button
    current_file_path].
  rewrite K1, K2, K3, K4, C1, C2.
  split_and!; try done.
  unfold checked, chosen.
  by repeat match goal with
            | |- context [if ?c then _ else _] => destruct c
            end.
Qed.

Lemma mvc_file_switches_3d_on_witness :
  exists r,
    path_exists (world_with_files framepacked_probe) "movie.mkv" = true
    /\ Video3DAnalyzer.analyze_file (world_with_files framepacked_probe)
         "movie.mkv" = inr r
    /\ r !! "stereo_mode" = Some (JStr "mvc")
    /\ mpv_loads sample_host "movie.mkv" = true
    /\ accepts sample_host ["hwdec"; "override-display-fps"; "vf"; "pause"]
    /\ in_step window_on_3d_display
    /\ is_3d_capable window_on_3d_display = true
    /\ let w' :=
         window_after
           (play_file (world_with_files framepacked_probe) sample_host
              "movie.mkv" window_on_3d_display) in
       returned
         (play_file (world_with_files framepacked_probe) sample_host
            "movie.mkv" window_on_3d_display)
       /\ has_media w' = true /\ current_file_path w' = Some "movie.mkv"
       /\ video_3d_info w' = Some r
       /\ stereo_mode_combo w' = 1 /\ current_stereo_mode w' = "mvc"
       /\ mode_3d_button w' = true /\ is_3d_enabled w' = true
       /\ mvc_configured w'
       /\ info_3d_label w' = mvc_enabled_message
       /\ info_3d_label_shown w' = true.
Proof.
  assert (Hacc : accepts sample_host
                   ["hwdec"; "override-display-fps"; "vf"; "pause"]) by done.
  assert (Hstep : in_step window_on_3d_display) by by split.
  eexists. split; [reflexivity |]. split; [reflexivity |].
  split; [reflexivity |]. split; [reflexivity |]. split; [exact Hacc |].
  split; [exact Hstep |]. split; [reflexivity |].
  exact (mvc_file_switches_3d_on (world_with_files framepacked_probe)
           sample_host "movie.mkv" _ window_on_3d_display
           eq_refl eq_refl eq_refl eq_refl Hacc Hstep eq_refl).
Defined.

(** X26 — The 3D mode outlives the file.  When 3D is enabled and a file is
    played in which the analysis finds nothing of 3D, [play_file] disables
    the 3D button and the combo box of the modes, leaves 3D enabled in the
    mode that was current, and configures the output for this mode: in the
    mode 'mvc' the 2D file gets the multi-view configuration with its
    notice in the label, in the modes 'sbs' and 'tab' it gets a filter. *)
Theorem enabled_3d_is_applied_to_a_2d_file
    (W : World) (H : Host) (file_path : string) (r : gmap string json)
    (w : PlayerWindow) :
  path_exists W file_path = true ->
  Video3DAnalyzer.analyze_file W file_path = inr r ->
  r !! "is_3d" = Some (JBool false) ->
  mpv_loads H file_path = true ->
  mpv_accepts H "pause" (JBool false) = true ->
  is_3d_enabled w = true ->
  let w' := window_after (play_file W H file_path w) in
  returned (play_file W H file_path w)
  /\ has_media w' = true /\ video_3d_info w' = Some r
  /\ is_3d_enabled w' = true
  /\ current_stereo_mode w' = current_stereo_mode w
  /\ mode_3d_button w' = mode_3d_button w
  /\ mode_3d_button_enabled w' = false
  /\ stereo_mode_combo_enabled w' = false
  /\ (current_stereo_mode w = "mvc" ->
      accepts H ["hwdec"; "override-display-fps"; "vf"] ->
      mvc_configured w'
      /\ info_3d_label w' = mvc_enabled_message
      /\ info_3d_label_shown w' = true)
  /\ (current_stereo_mode w ∈ ["sbs"; "tab"] ->
      accepts H ["lavfi-complex"] -> filter_on w').
Proof.
  intros Hpath Hr H3 Hload Hpause Hon w'.
  destruct (play_file_gives W H file_path (without_display w) _ Hpath Hload
              Hpause (analyze_2d W H file_path r _ Hr H3) w eq_refl)
    as ([] & Ha & Hw' & w1 & Hw1 & Heq).
  fold w' in Hw', Heq. cbn [is_3d_enabled set_controls_enabled set_info
    set_media without_display set_label_style set_label set_player
    current_stereo_mode] in Heq.
  rewrite Hon in Heq.
  destruct (controls_fields _ _ Hw')
    as (F1 & F2 & F3 & F4 & F5 & F6 & F7 & F8 & F9 & F10).
  split; [by exists tt |].
  rewrite F1, F2, F3, F4, F7, F8, F9. split_and!; try done.
  - intros Hm Hacc. rewrite Heq, Hm. by apply configure_mvc_result.
  - intros Hm Hacc. rewrite Heq. by apply configure_filter_accepted.
Qed.

Lemma enabled_3d_is_applied_to_a_2d_file_witness :
  let W := world_with_files audio_only_probe in
  let w :=
    window_after
      (play_file (world_with_files framepacked_probe) sample_host
         "movie.mkv" window_on_3d_display) in
  exists r,
    path_exists W "song.mkv" = true
    /\ Video3DAnalyzer.analyze_file W "song.mkv" = inr r
    /\ r !! "is_3d" = Some (JBool false)
    /\ mpv_loads sample_host "song.mkv" = true
    /\ mpv_accepts sample_host "pause" (JBool false) = true
    /\ is_3d_enabled w = true
    /\ let w' := window_after (play_file W sample_host "song.mkv" w) in
       returned (play_file W sample_host "song.mkv" w)
       /\ has_media w' = true /\ video_3d_info w' = Some r
       /\ is_3d_enabled w' = true
       /\ current_stereo_mode w' = current_stereo_mode w
       /\ mode_3d_button w' = mode_3d_button w
       /\ mode_3d_button_enabled w' = false
       /\ stereo_mode_combo_enabled w' = false
       /\ (current_stereo_mode w = "mvc" ->
           accepts sample_host ["hwdec"; "override-display-fps"; "vf"] ->
           mvc_configured w'
           /\ info_3d_label w' = mvc_enabled_message
           /\ info_3d_label_shown w' = true)
       /\ (current_stereo_mode w ∈ ["sbs"; "tab"] ->
           accepts sample_host ["lavfi-complex"] -> filter_on w').
Proof.
  intros W w.
  assert (Hon : is_3d_enabled w = true) by reflexivity.
  eexists. split; [reflexivity |]. split; [reflexivity |].
  split; [reflexivity |]. split; [reflexivity |]. split; [reflexivity |].
  split; [exact Hon |].
  exact (enabled_3d_is_applied_to_a_2d_file W sample_host "song.mkv" _ w
           eq_refl eq_refl eq_refl eq_refl eq_refl Hon).
Defined.

(** *** The actions of a method *)

Lemma actions_bind {A B} (m : G A) (f : A -> G B) w :
  actions_of (gbind m f w)
  = match fst (fst (m w)) with
    | inl _ => actions_of (m w)
    | inr a => (actions_of (m w) ++ actions_of (f a (window_after (m w))))%list
    end.
Proof.
  unfold gbind, actions_of, window_after.
  destruct (m w) as [[[e | a] w'] actions]; [reflexivity |]. simpl.
  by destruct (f a w') as [[b w''] actions'].
Qed.

Lemma emits_bind A {B C} (m : G B) (f : B -> G C) :
  emits A m -> (forall b, emits A (f b)) -> emits A (gbind m f).
Proof.
  intros Hm Hf w. rewrite actions_bind.
  destruct (fst (fst (m w))); [apply Hm |].
  apply Forall_app. split; [apply Hm | apply Hf].
Qed.

Lemma emits_nothing A {B} (m : G B) :
  (forall w, actions_of (m w) = []) -> emits A m.
Proof. intros Hm w. rewrite Hm. constructor. Qed.

Lemma emits_act (A : action -> Prop) a : A a -> emits A (act a).
Proof. intros Ha w. by repeat constructor. Qed.

Lemma emits_try A (body : G unit) : emits A body -> emits A (gtry body).
Proof.
  intros Hb w. specialize (Hb w). unfold gtry, actions_of in *.
  by destruct (body w) as [[[e | []] w'] actions].
Qed.

Lemma emits_when A c (body : G unit) : emits A body -> emits A (gwhen c body).
Proof. intros Hb. destruct c; [exact Hb | by apply emits_nothing]. Qed.

Lemma emits_assign A H name value : emits A (assign H name value).
Proof.
  apply emits_nothing. intros w. unfold assign.
  by destruct (mpv_accepts _ _ _).
Qed.

Ltac emits_with tac :=
  repeat first
    [ solve [tac]
    | apply emits_bind; [| intros ? ]
    | apply emits_try
    | apply emits_when
    | apply emits_assign
    | apply emits_nothing; reflexivity
    | match goal with |- emits _ (if ?c then _ else _) => destruct c end
    | match goal with |- emits _ (match ?x with _ => _ end) => destruct x end ].

Section Timers.

Variable W : World.
Variable H : Host.
Variable A : action -> Prop.
Hypothesis A_timer : A (SingleShot 5000 ClearInfo).

Lemma emits_notification message success permanent :
  emits A (show_3d_notification message success permanent).
Proof.
  unfold show_3d_notification, set_3d_info.
  emits_with ltac:(by apply emits_act).
Qed.

Lemma emits_configure enable_3d stereo_mode :
  emits A (configure_3d_output H enable_3d stereo_mode).
Proof.
  unfold configure_3d_output. emits_with ltac:(apply emits_notification).
Qed.

Lemma emits_choose index : emits A (choose_stereo_mode H index).
Proof.
  unfold choose_stereo_mode, _on_stereo_mode_changed, change_stereo_mode.
  emits_with ltac:(apply emits_configure).
Qed.

Lemma emits_setChecked checked : emits A (setChecked H checked).
Proof.
  unfold setChecked, toggle_3d_mode.
  emits_with ltac:(first [apply emits_configure | apply emits_notification]).
Qed.

Lemma emits_analyze file_path :
  emits A (analyze_and_configure_3d W H file_path).
Proof.
  unfold analyze_and_configure_3d, enable_3d_controls.
  emits_with ltac:(first
    [ apply emits_choose | apply emits_setChecked
    | apply emits_notification ]).
Qed.

End Timers.

(** The results that come with an error: those of the guess from the
    name of the file. *)
Lemma failed_analysis_result W file_path r :
  Video3DAnalyzer.analyze_file W file_path = inr r ->
  Py.truthy (default JNull (r !! "analysis_error")) = true ->
  r !! "is_3d" = Some (JBool false)
  \/ (r !! "is_3d" = Some (JBool true)
      /\ r !! "stereo_mode" = Some (JStr "sbs")).
Proof.
  intros Hr Herr.
  destruct (try_block W file_path initial_result) as [[e | []] r1] eqn:Hrun.
  - destruct (caught_or_uncaught e) as [Hc | Hu].
    + rewrite (analyze_file_caught _ _ _ _ Hrun Hc) in Hr.
      injection Hr as <-.
      destruct (caught_mode_none r1 (try_block_caught _ _ _ _ Hrun Hc))
        as (Hm & H3 & _).
      rewrite guess_from_name_cases. simpl.
      destruct (_ || _ || _); [right; by simplify_map_eq |].
      left. by rewrite lookup_insert_ne.
    + rewrite (analyze_file_uncaught _ _ _ _ Hrun Hu) in Hr. discriminate.
  - unfold Video3DAnalyzer.analyze_file in Hr. rewrite Hrun in Hr.
    injection Hr as <-.
    destruct (try_block_cases W file_path)
      as [[_ H] | [[issue H] | [[e' H] | [data H]]]];
      try (rewrite H in Hrun; discriminate).
    rewrite H in Hrun.
    pose proof (sound_keeps _ _ initial_result
                  (inspect_streams_sound _
                     (stable_analysis_error (Some JNull)) data) eq_refl)
      as Hk.
    rewrite Hrun in Hk. simpl in Hk. by rewrite Hk in Herr.
Qed.

Lemma chosen_combo index c :
  0 <= index < 5 -> stereo_mode_combo (chosen index c) = index.
Proof.
  intros Hi. unfold chosen.
  assert (E0 : (0 <=? index)
                && (index <? Z.of_nat (length stereo_mode_items)) = true)
    by (apply andb_true_intro;
        split; [apply Z.leb_le | apply Z.ltb_lt]; simpl; lia).
  rewrite E0. destruct (stereo_mode_combo c =? index) eqn:E; [| done].
  by apply Z.eqb_eq in E.
Qed.

(** X27 — When the analysis of a file comes with an error (the probing tool
    is missing or fails), [analyze_and_configure_3d] returns; its notice
    of the failure, which says that the mode is switched to 'Auto', does
    not stay: the label ends with "2D content detected" or, when the name
    of the file made the guess of a 3D file, with "3D File: Side-by-Side",
    in the style of a success.  The current item of the combo box is not
    switched to 'Auto': it stays as it was, or becomes 'Side-by-Side'.
    The timer of the notice is started, the only kind of action of the
    method, and when it fires it hides the label with the message that was
    meant to stay. *)
Theorem failed_analysis_notice_is_replaced
    (W : World) (H : Host) (file_path : string) (r : gmap string json)
    (w : PlayerWindow) :
  Video3DAnalyzer.analyze_file W file_path = inr r ->
  Py.truthy (default JNull (r !! "analysis_error")) = true ->
  let result := analyze_and_configure_3d W H file_path w in
  let w' := window_after result in
  returned result
  /\ SingleShot 5000 ClearInfo ∈ actions_of result
  /\ Forall (fun a => a = SingleShot 5000 ClearInfo) (actions_of result)
  /\ ((label_is "2D content detected" true w'
       /\ stereo_mode_combo w' = stereo_mode_combo w)
      \/ (label_is "3D File: Side-by-Side" true w'
          /\ stereo_mode_combo w' = 2))
  /\ info_3d_label_shown (window_after (handle W H ClearInfoFires w')) = false.
Proof.
  intros Hr Herr result w'.
  assert (Hin : SingleShot 5000 ClearInfo ∈ actions_of result).
  { subst result. unfold analyze_and_configure_3d. rewrite Hr.
    rewrite actions_bind. cbn [glift fst snd window_after actions_of].
    rewrite actions_bind. cbn [update fst snd window_after actions_of].
    rewrite actions_bind. rewrite Herr. cbn [gwhen].
    rewrite notification_shown by discriminate.
    cbn [fst snd window_after actions_of app].
    apply elem_of_cons. by left. }
  assert (Hall : Forall (fun a => a = SingleShot 5000 ClearInfo)
                   (actions_of result)) by by apply emits_analyze.
  assert (Hmain :
    returned result
    /\ ((label_is "2D content detected" true w'
         /\ stereo_mode_combo w' = stereo_mode_combo w)
        \/ (label_is "3D File: Side-by-Side" true w'
            /\ stereo_mode_combo w' = 2))).
  { destruct (failed_analysis_result W file_path r Hr Herr)
      as [H3 | [H3 Hm]].
    - destruct (analyze_2d_label W H file_path r (without_display w) Hr H3
                  w eq_refl) as ([] & Ha & Hw' & Hl).
      split; [by exists tt |]. left. split; [exact Hl |].
      transitivity
        (stereo_mode_combo
           (set_controls_enabled
              (set_info (without_display w) (Some r)) false));
        [by rewrite <- Hw' | reflexivity].
    - destruct (analyze_3d_label W H file_path r "sbs" (without_display w)
                  Hr H3 Hm ltac:(discriminate) w eq_refl)
        as ([] & Ha & Hw' & Hl).
      split; [by exists tt |]. right. split; [by apply Hl |].
      cbn zeta in Hw'. cbn [String.eqb Ascii.eqb Bool.eqb andb] in Hw'.
      transitivity
        (stereo_mode_combo
           (chosen (default 0 (mode_indices !! "sbs"))
              (set_controls_enabled
                 (set_info (without_display w) (Some r)) true)));
        [by rewrite <- Hw' | by apply chosen_combo]. }
  destruct Hmain as [Hret Hlabel].
  split; [exact Hret |]. split; [exact Hin |]. split; [exact Hall |].
  split; [exact Hlabel | reflexivity].
Qed.

Lemma failed_analysis_notice_is_replaced_witness :
  exists r,
    Video3DAnalyzer.analyze_file world_without_tools "movie_3d_tab.mkv"
    = inr r
    /\ Py.truthy (default JNull (r !! "analysis_error")) = true
    /\ let result :=
         analyze_and_configure_3d world_without_tools sample_host
           "movie_3d_tab.mkv" new_window in
       let w' := window_after result in
       returned result
       /\ SingleShot 5000 ClearInfo ∈ actions_of result
       /\ Forall (fun a => a = SingleShot 5000 ClearInfo) (actions_of result)
       /\ ((label_is "2D content detected" true w'
            /\ stereo_mode_combo w' = stereo_mode_combo new_window)
           \/ (label_is "3D File: Side-by-Side" true w'
               /\ stereo_mode_combo w' = 2))
       /\ info_3d_label_shown
            (window_after
               (handle world_without_tools sample_host ClearInfoFires w'))
          = false.
Proof.
  eexists. split; [reflexivity |]. split; [reflexivity |].
  exact (failed_analysis_notice_is_replaced world_without_tools sample_host
           "movie_3d_tab.mkv" _ new_window eq_refl eq_refl).
Defined.

Lemma analyze_returns W H file_path r w :
  Video3DAnalyzer.analyze_file W file_path = inr r ->
  exists w1 actions,
    analyze_and_configure_3d W H file_path w = (inr tt, w1, actions)
    /\ Forall (fun a => a = SingleShot 5000 ClearInfo) actions
    /\ video_3d_info w1 = Some r.
Proof.
  intros Hr.
  assert (Hg : exists c1,
            video_3d_info c1 = Some r
            /\ gives (controls_are (without_display w))
                 (analyze_and_configure_3d W H file_path)
                 (fun _ => controls_are c1)).
  { destruct (returned_consistent _ _ _ Hr)
      as [(H3 & _ & Hm) | [(H3 & Hm & _) | (H3 & _ & mode & Hin & Hm)]].
    - eexists. split; [| by apply analyze_2d]. reflexivity.
    - eexists. split; [| by apply (analyze_3d W H file_path r "mvc")].
      cbn zeta. unfold checked, chosen.
      by repeat match goal with
                | |- context [if ?c then _ else _] => destruct c
                end.
    - assert (Hnone : mode <> "none") by (intros ->; mode_cases Hin).
      eexists. split; [| by apply (analyze_3d W H file_path r mode)].
      cbn zeta. unfold checked, chosen.
      by repeat match goal with
                | |- context [if ?c then _ else _] => destruct c
                end. }
  destruct Hg as (c1 & Hinfo & Hg).
  destruct (Hg w eq_refl) as ([] & Ha & Hw1).
  pose proof (emits_analyze W H (fun a => a = SingleShot 5000 ClearInfo)
                eq_refl file_path w) as He.
  destruct (analyze_and_configure_3d W H file_path w) as [[x w1] actions].
  simpl in *. subst x. exists w1, actions. split; [done |].
  split; [exact He |]. by rewrite <- Hinfo, <- Hw1.
Qed.

(** X28 — [play_file] stops at the first failure.  For a path that does not
    exist it does nothing.  When the analysis of the file raises, it
    raises the same exception with the window as it was: nothing is
    loaded.  When mpv does not load the file, it raises after the window
    has taken the file as its medium, and before the state of the
    overlays is updated and before the timers of the thumbnails and of the
    audio tracks are started.  When mpv loads the file and takes the
    assignment of [pause], it returns, and its actions are, in this
    order, the load, the update of the overlays and the two timers, among
    timers of notices. *)
Theorem play_file_stops_at_the_first_failure
    (W : World) (H : Host) (file_path : string) (w : PlayerWindow) :
  (path_exists W file_path = false ->
   play_file W H file_path w = (inr tt, w, []))
  /\ (path_exists W file_path = true ->
      forall e,
        Video3DAnalyzer.analyze_file W file_path = inl e ->
        play_file W H file_path w = (inl e, w, []))
  /\ (path_exists W file_path = true ->
      forall r,
        Video3DAnalyzer.analyze_file W file_path = inr r ->
        let result := play_file W H file_path w in
        (mpv_loads H file_path = false ->
         ~ returned result
         /\ has_media (window_after result) = true
         /\ current_file_path (window_after result) = Some file_path
         /\ Forall (fun a => a = SingleShot 5000 ClearInfo)
              (actions_of result))
        /\ (mpv_loads H file_path = true ->
            mpv_accepts H "pause" (JBool false) = true ->
            returned result
            /\ exists before after,
                 actions_of result
                 = (before
                    ++ [Play file_path; UpdateUiState;
                        SingleShot 500 (InitThumbnailCache file_path);
                        SingleShot 500 FetchAudioTracks]
                    ++ after)%list
                 /\ Forall (fun a => a = SingleShot 5000 ClearInfo) before
                 /\ Forall (fun a => a = SingleShot 5000 ClearInfo) after)).
Proof.
  split; [| split].
  - intros Hp. unfold play_file. by rewrite Hp.
  - intros Hp e He. unfold play_file, analyze_and_configure_3d.
    rewrite Hp, He. reflexivity.
  - intros Hp r Hr result.
    destruct (analyze_returns W H file_path r w Hr)
      as (w1 & actions & Ha & Hall & Hinfo).
    split.
    + intros Hl.
      assert (Hres : result
                     = (inl (OtherException "mpv"), set_media w1 file_path,
                        actions)).
      { subst result. unfold play_file. rewrite Hp. cbn [negb].
        unfold gbind at 1. rewrite Ha.
        unfold gbind at 1. cbn [update].
        unfold gbind at 1. unfold load at 1. rewrite Hl.
        by rewrite !app_nil_r. }
      rewrite Hres.
      split; [intros [a Hret]; discriminate |]. by split_and!.
    + intros Hl Hpause.
      set (w2 := set_player (set_media w1 file_path)
                   (<["pause" := JBool false]>
                      (player (set_media w1 file_path)))).
      assert (Hres : result
                     = let '(x, w3, actions') :=
                         gwhen (is_3d_enabled w1)
                           (configure_3d_output H true
                              (current_stereo_mode w1)) w2 in
                       (x, w3,
                        (actions
                         ++ [Play file_path; UpdateUiState;
                             SingleShot 500 (InitThumbnailCache file_path);
                             SingleShot 500 FetchAudioTracks]
                         ++ actions')%list)).
      { subst result. unfold play_file. rewrite Hp. cbn [negb].
        unfold gbind at 1. rewrite Ha.
        unfold gbind at 1. cbn [update].
        unfold gbind at 1. unfold load at 1. rewrite Hl.
        unfold gbind at 1. rewrite assign_accepted by done.
        unfold gbind at 1. cbn [act].
        unfold gbind at 1. cbn [act].
        unfold gbind at 1. unfold load_audio_tracks at 1.
        unfold gbind at 1.
        cbn [self has_media set_player set_media gwhen act].
        unfold gbind at 1.
        cbn [self is_3d_enabled current_stereo_mode set_player set_media].
        fold w2.
        by destruct (gwhen _ _ w2) as [[x w3] actions']. }
      rewrite Hres.
      assert (Hc : returned
                     (gwhen (is_3d_enabled w1)
                        (configure_3d_output H true (current_stereo_mode w1))
                        w2)).
      { apply returned_when. intros _. apply returned_configure. }
      assert (Hec : Forall (fun a => a = SingleShot 5000 ClearInfo)
                      (actions_of
                         (gwhen (is_3d_enabled w1)
                            (configure_3d_output H true
                               (current_stereo_mode w1)) w2))).
      { by apply emits_when, emits_configure. }
      destruct (gwhen _ _ w2) as [[x w3] actions'].
      destruct Hc as [[] Hc]. simpl in Hc, Hec. subst x.
      split; [by exists tt |].
      exists actions, actions'. by split_and!.
Qed.

(** *** The key [3] *)

Lemma info_truthy_some (r : gmap string json) k v :
  r !! k = Some v -> info_truthy (Some r) = true.
Proof.
  intros Hk. unfold info_truthy.
  destruct (Nat.eqb_spec (size r) 0) as [E | _]; [| done].
  apply map_size_empty_iff in E. subst r. by rewrite lookup_empty in Hk.
Qed.

Lemma configure_off_actions H stereo_mode w :
  actions_of (configure_3d_output H false stereo_mode w) = [].
Proof.
  unfold configure_3d_output. cbn [negb]. unfold gtry, assign.
  by destruct (mpv_accepts _ _ _).
Qed.

Lemma configure_on_actions H stereo_mode w :
  accepts H ["hwdec"; "override-display-fps"; "vf"; "lavfi-complex"] ->
  stereo_mode ∈ ["mvc"; "sbs"; "tab"] ->
  actions_of (configure_3d_output H true stereo_mode w)
  = [SingleShot 5000 ClearInfo].
Proof.
  intros Hacc Hin.
  assert (Ha : forall name value,
            name ∈ ["hwdec"; "override-display-fps"; "vf"; "lavfi-complex"] ->
            mpv_accepts H name value = true) by exact Hacc.
  unfold configure_3d_output, gbind, self.
  repeat (apply elem_of_cons in Hin as [-> | Hin]);
    [.. | by apply elem_of_nil in Hin];
    cbn -[show_3d_notification assign]; unfold gtry, gbind;
    rewrite ?assign_accepted by (apply Ha; repeat constructor);
    by rewrite notification_shown by discriminate.
Qed.

Lemma gbind_inr {A B} (m : G A) (f : A -> G B) w a w' actions :
  m w = (inr a, w', actions) ->
  gbind m f w
  = (let '(b, w'', actions') := f a w' in
     (b, w'', (actions ++ actions')%list)).
Proof. intros Hm. unfold gbind. by rewrite Hm. Qed.

(** [toggle_3d_mode] in a window that holds the analysis of its file. *)
Lemma toggle_3d_mode_result H enabled w r is_3d mode :
  has_media w = true -> video_3d_info w = Some r ->
  r !! "is_3d" = Some (JBool is_3d) ->
  r !! "stereo_mode" = Some (JStr mode) ->
  exists w1,
    controls_are (without_display (set_3d_enabled w enabled)) w1
    /\ toggle_3d_mode H enabled w
       = (inr tt,
          set_label_style
            (set_label w1
               (if is_3d
                then ("3D File: "
                      ++ default (str_upper H mode) (mode_names !! mode)
                      ++ (if enabled then " - 3D Playback Active"
                          else " - Downgraded to 2D"))%string
                else if enabled then "2D File - 3D Mode Enabled"
                     else "2D File") true)
            (negb is_3d || enabled),
          actions_of
            (configure_3d_output H enabled (current_stereo_mode w)
               (set_3d_enabled w enabled))).
Proof.
  intros Hmedia Hinfo H3 Hm.
  destruct (gives_configure H _ enabled (current_stereo_mode w)
              (set_3d_enabled w enabled) eq_refl) as ([] & Ha & Hw1).
  destruct (configure_3d_output H enabled (current_stereo_mode w)
              (set_3d_enabled w enabled)) as [[x w1] actions] eqn:Hc.
  simpl in Ha, Hw1. subst x. exists w1. split; [exact Hw1 |].
  assert (Hi1 : video_3d_info w1 = Some r).
  { transitivity (video_3d_info (without_display (set_3d_enabled w enabled)));
      [by rewrite <- Hw1 | exact Hinfo]. }
  unfold toggle_3d_mode.
  rewrite (gbind_inr _ _ _ tt (set_3d_enabled w enabled) []) by reflexivity.
  rewrite (gbind_inr self _ _ (set_3d_enabled w enabled)
             (set_3d_enabled w enabled) []) by reflexivity.
  change (has_media (set_3d_enabled w enabled)) with (has_media w).
  change (current_stereo_mode (set_3d_enabled w enabled))
    with (current_stereo_mode w).
  rewrite Hmedia. cbn [gwhen].
  rewrite (gbind_inr _ _ _ tt w1 actions Hc).
  rewrite (gbind_inr self _ _ w1 w1 []) by reflexivity.
  rewrite Hi1, (info_truthy_some r _ _ H3).
  change (default ∅ (Some r)) with r.
  rewrite (gbind_inr _ _ _ (JBool is_3d) w1 [])
    by (unfold glift, item; by rewrite H3).
  cbn [Py.truthy andb].
  destruct is_3d.
  - rewrite (gbind_inr _ _ _ (JStr mode) w1 [])
      by (unfold glift, item; by rewrite Hm).
    rewrite (gbind_inr _ _ _
               (default (str_upper H mode) (mode_names !! mode)) w1 [])
      by reflexivity.
    destruct enabled; rewrite notification_shown by discriminate;
      cbn [actions_of snd negb orb app]; by rewrite !app_nil_r.
  - destruct enabled; rewrite notification_shown by discriminate;
      cbn [actions_of snd negb orb app]; by rewrite !app_nil_r.
Qed.

Lemma key_3_toggles H w :
  key_3 H w
  = (let '(x, w', actions) :=
       gtry (toggle_3d_mode H (negb (mode_3d_button w)))
         (set_button w (negb (mode_3d_button w))) in
     (x, w', actions)).
Proof.
  unfold key_3, setChecked.
  rewrite (gbind_inr self _ _ w w []) by reflexivity.
  rewrite (gbind_inr self _ _ w w []) by reflexivity.
  replace (Bool.eqb (mode_3d_button w) (negb (mode_3d_button w))) with false
    by by destruct (mode_3d_button w).
  cbn [negb gwhen].
  rewrite (gbind_inr _ _ _ tt (set_button w (negb (mode_3d_button w))) [])
    by reflexivity.
  by destruct (gtry _ _) as [[x w'] actions].
Qed.

(** X29 — The key [3] while a file is loaded whose analysis the window
    holds: the 3D button and the 3D mode are toggled, and the label says
    what has become of the file.  When 3D is switched off, no timer is
    started, and for a 3D file the label says, in the style of a failure,
    that the file is downgraded to 2D.  When 3D is switched on, the label
    says that the 3D playback is active, or for a 2D file that the 3D mode
    is enabled; but when the mode is one that configures the output and mpv
    takes its assignments, the timer of the notice of the configuration
    has been started, and it hides the label after 5 seconds. *)
Theorem key_3_notice
    (W : World) (H : Host) (file_path : string) (r : gmap string json)
    (mode : string) (w : PlayerWindow) :
  Video3DAnalyzer.analyze_file W file_path = inr r ->
  video_3d_info w = Some r -> has_media w = true ->
  r !! "stereo_mode" = Some (JStr mode) ->
  let result := key_3 H w in
  let w' := window_after result in
  let name := default (str_upper H mode) (mode_names !! mode) in
  returned result
  /\ mode_3d_button w' = negb (mode_3d_button w)
  /\ is_3d_enabled w' = negb (mode_3d_button w)
  /\ (mode_3d_button w = true ->
      actions_of result = []
      /\ if bool_decide (mode = "none") then label_is "2D File" true w'
         else label_is ("3D File: " ++ name ++ " - Downgraded to 2D")%string
                false w')
  /\ (mode_3d_button w = false ->
      (if bool_decide (mode = "none")
       then label_is "2D File - 3D Mode Enabled" true w'
       else label_is ("3D File: " ++ name ++ " - 3D Playback Active")%string
              true w')
      /\ (accepts H ["hwdec"; "override-display-fps"; "vf"; "lavfi-complex"] ->
          current_stereo_mode w ∈ ["mvc"; "sbs"; "tab"] ->
          actions_of result = [SingleShot 5000 ClearInfo]
          /\ info_3d_label_shown
               (window_after (handle W H ClearInfoFires w')) = false)).
Proof.
  intros Hr Hinfo Hmedia Hm result w' name.
  assert (H3 : r !! "is_3d" = Some (JBool (negb (bool_decide (mode = "none"))))).
  { destruct (returned_consistent _ _ _ Hr)
      as [(E3 & _ & Em) | [(E3 & Em & _) | (E3 & _ & m & Hin & Em)]];
      rewrite Hm in Em; injection Em as ->; [done | done |].
    mode_cases Hin; done. }
  destruct (toggle_3d_mode_result H (negb (mode_3d_button w))
              (set_button w (negb (mode_3d_button w))) r _ mode
              Hmedia Hinfo H3 Hm) as (w1 & Hw1 & Ht).
  assert (Hres : result
                 = (inr tt,
                    set_label_style
                      (set_label w1
                         (if negb (bool_decide (mode = "none"))
                          then ("3D File: " ++ name
                                ++ (if negb (mode_3d_button w)
                                    then " - 3D Playback Active"
                                    else " - Downgraded to 2D"))%string
                          else if negb (mode_3d_button w)
                               then "2D File - 3D Mode Enabled"
                               else "2D File") true)
                      (negb (negb (bool_decide (mode = "none")))
                       || negb (mode_3d_button w)),
                    actions_of
                      (configure_3d_output H (negb (mode_3d_button w))
                         (current_stereo_mode w)
                         (set_3d_enabled
                            (set_button w (negb (mode_3d_button w)))
                            (negb (mode_3d_button w)))))).
  { subst result. rewrite key_3_toggles. unfold gtry. by rewrite Ht. }
  destruct (controls_fields _ _ Hw1)
    as (F1 & F2 & F3 & F4 & F5 & F6 & F7 & F8 & F9 & F10).
  subst w'. rewrite Hres. cbn [window_after actions_of fst snd].
  split; [by exists tt |].
  split; [exact F8 |]. split; [exact F3 |]. split.
  - intros Hb. rewrite Hb. cbn [negb]. split; [apply configure_off_actions |].
    by destruct (bool_decide (mode = "none")).
  - intros Hb. rewrite Hb. cbn [negb]. split.
    + by destruct (bool_decide (mode = "none")).
    + intros Hacc Hin. split; [by apply configure_on_actions | reflexivity].
Qed.

Lemma key_3_notice_witness :
  let W := world_with_files framepacked_probe in
  let w := window_after (play_file W sample_host "movie.mkv"
                           window_on_3d_display) in
  exists r,
    Video3DAnalyzer.analyze_file W "movie.mkv" = inr r
    /\ video_3d_info w = Some r /\ has_media w = true
    /\ r !! "stereo_mode" = Some (JStr "mvc")
    /\ let result := key_3 sample_host w in
       let w' := window_after result in
       let name := default (str_upper sample_host "mvc") (mode_names !! "mvc") in
       returned result
       /\ mode_3d_button w' = negb (mode_3d_button w)
       /\ is_3d_enabled w' = negb (mode_3d_button w)
       /\ (mode_3d_button w = true ->
           actions_of result = []
           /\ if bool_decide ("mvc" = "none") then label_is "2D File" true w'
              else label_is
                     ("3D File: " ++ name ++ " - Downgraded to 2D")%string
                     false w')
       /\ (mode_3d_button w = false ->
           (if bool_decide ("mvc" = "none")
            then label_is "2D File - 3D Mode Enabled" true w'
            else label_is
                   ("3D File: " ++ name ++ " - 3D Playback Active")%string
                   true w')
           /\ (accepts sample_host
                 ["hwdec"; "override-display-fps"; "vf"; "lavfi-complex"] ->
               current_stereo_mode w ∈ ["mvc"; "sbs"; "tab"] ->
               actions_of result = [SingleShot 5000 ClearInfo]
               /\ info_3d_label_shown
                    (window_after (handle W sample_host ClearInfoFires w'))
                  = false)).
Proof.
  intros W w.
  eexists. split; [reflexivity |]. split; [reflexivity |].
  split; [reflexivity |]. split; [reflexivity |].
  exact (key_3_notice W sample_host "movie.mkv" _ "mvc" w
           eq_refl eq_refl eq_refl eq_refl).
Defined.
